(** * news-scraper-web: the collection pipeline, embedded and verified

    The repository holds three copies of one pipeline:
    - [src/newsScrp.py]      the command-line collector ([NewsScrp] below),
    - [src/web/server.py]    a streaming endpoint built on the helpers of
                             [newsScrp.py] ([Web] below),
    - [src/api/search.py]    a self-contained streaming endpoint with its own
                             copies of the helpers ([Api] below).

    Python strings are sequences of Unicode code points; they are modelled as
    lists of integers, one per code point. *)

From Stdlib Require Import ZArith QArith List Bool Lia String Ascii.
From stdpp Require Import base decidable list gmap sets fin_sets pretty.

Local Open Scope Z_scope.

(** ** Python strings *)

Module Py.

(** A [str] is the list of its code points. *)
Abbreviation str := (list Z).

(** *** Literals: UTF-8 source text to code points *)

Fixpoint bytes_of (s : string) : list Z :=
  match s with
  | EmptyString => []
  | String a s' => Z.of_nat (nat_of_ascii a) :: bytes_of s'
  end.

Definition cont (b : Z) : Z := Z.land b 63.

Fixpoint utf8_decode (bs : list Z) : list Z :=
  match bs with
  | [] => []
  | b0 :: r0 =>
    if b0 <? 128 then b0 :: utf8_decode r0
    else match r0 with
    | [] => [b0]
    | b1 :: r1 =>
      if b0 <? 224 then
        (Z.shiftl (Z.land b0 31) 6 + cont b1) :: utf8_decode r1
      else match r1 with
      | [] => [b0; b1]
      | b2 :: r2 =>
        if b0 <? 240 then
          (Z.shiftl (Z.land b0 15) 12 + Z.shiftl (cont b1) 6 + cont b2)
            :: utf8_decode r2
        else match r2 with
        | [] => [b0; b1; b2]
        | b3 :: r3 =>
          (Z.shiftl (Z.land b0 7) 18 + Z.shiftl (cont b1) 12
             + Z.shiftl (cont b2) 6 + cont b3) :: utf8_decode r3
        end
      end
    end
  end.

(** [u "..."] is the Python string written between the quotes. *)
Definition u (s : string) : str := utf8_decode (bytes_of s).

(** *** [str.lower]

    The program lowercases titles and queries before comparing them.  Its own
    patterns name ASCII letters, digits and Hangul syllables only; of these
    only the ASCII capitals have a lowercase form.  [lower] folds [A-Z] and
    leaves every other code point as it is, which is what [str.lower] does on
    text written in ASCII and Hangul ([ascii_or_hangul] below).  On other
    text [str.lower] is not a map over the characters: it folds every cased
    code point, reads the neighbours of a letter (the final sigma) and can
    change the length of the text.  Statements that need [lower] to commute
    with concatenation or with the removal of spaces are therefore made for
    text in [ascii_or_hangul]. *)
Definition lower_char (c : Z) : Z :=
  if (65 <=? c) && (c <=? 90) then c + 32 else c.

Definition lower (s : str) : str := map lower_char s.

(** *** [p in s] on strings: [p] occurs in [s] as a contiguous block *)

Fixpoint starts_with (s p : str) : bool :=
  match p, s with
  | [], _ => true
  | _ :: _, [] => false
  | a :: p', b :: s' => (a =? b) && starts_with s' p'
  end.

Fixpoint contains (s p : str) : bool :=
  starts_with s p ||
  match s with
  | [] => false
  | _ :: s' => contains s' p
  end.

(** *** [s.replace(c, "")] for a one-character [c] *)
Definition remove_char (c : Z) (s : str) : str :=
  filter (fun x => x ≠ c) s.

(** *** [str.strip]: the characters for which [str.isspace] holds *)
Definition isspace (c : Z) : bool :=
  ((9 <=? c) && (c <=? 13)) || ((28 <=? c) && (c <=? 32))
  || (c =? 133) || (c =? 160) || (c =? 5760)
  || ((8192 <=? c) && (c <=? 8202))
  || (c =? 8232) || (c =? 8233) || (c =? 8239) || (c =? 8287)
  || (c =? 12288).

Fixpoint lstrip (s : str) : str :=
  match s with
  | [] => []
  | c :: s' => if isspace c then lstrip s' else s
  end.

Definition rstrip (s : str) : str := rev (lstrip (rev s)).

Definition strip (s : str) : str := rstrip (lstrip s).

(** *** [re.findall(r"[...]+", s)]: the maximal runs of class characters,
    left to right.  [run] is the run being read. *)
Definition flush (run : str) : list str :=
  match run with
  | [] => []
  | _ :: _ => [run]
  end.

Fixpoint findall_from (cls : Z -> bool) (s run : str) : list str :=
  match s with
  | [] => flush run
  | c :: s' =>
    if cls c then findall_from cls s' (run ++ [c])
    else flush run ++ findall_from cls s' []
  end.

Definition findall (cls : Z -> bool) (s : str) : list str :=
  findall_from cls s [].

Definition in_range (lo hi c : Z) : bool := (lo <=? c) && (c <=? hi).

(** Text made of ASCII characters and Hangul syllables (U+AC00 to U+D7A3):
    the text on which [lower] is [str.lower]. *)
Definition ascii_or_hangul (s : str) : bool :=
  forallb (fun c => in_range 0 127 c || in_range 44032 55203 c) s.

End Py.

Import Py.

(** ** Shared data: result items, exceptions, effects *)

(** [{"title": t, "url": u}] *)
Record item := Item { title : str; url : str }.

(** [[r["title"] for r in results]] *)
Definition titles (results : list item) : list str := map title results.

(** [len(results)] *)
Definition len {A} (l : list A) : Z := Z.of_nat (length l).

(** [l[:n]] *)
Definition slice_to {A} (n : Z) (l : list A) : list A :=
  if 0 <=? n then take (Z.to_nat n) l
  else take (length l - Z.to_nat (- n)) l.

(** The handlers tell [RuntimeError] from every other [Exception], and read
    the exception's text. *)
Inductive exn_class := RuntimeError | OtherException.

Record exn := Exn { exn_kind : exn_class; exn_msg : str }.

(** What one fetch gives the loop: the exception raised in the [try] block,
    or the candidates that [extract_titles_from_html], called right after the
    block, reads off the fetched page (pairs of title and link, in page
    order).  An exception raised by the extraction itself (the value under
    [html] is not text) is outside the [try] block and leaves the function at
    once; it is outside the model. *)
Inductive fetched :=
| Page (new_items : list (str * str))
| Raised (e : exn).

(** The events of the two streaming endpoints, by their [type] field, with
    the fields that carry data (the [message] texts are left out). *)
Inductive event :=
| EvNoKey
| EvDebug
| EvStart (query : str) (limit : Z)
| EvTimeout
| EvProgress (current total page : Z)
| EvWait (seconds : Z)
| EvError (detail : str)
| EvItem (it : item) (total : Z)
| EvPageComplete (page found total : Z)
| EvComplete (total : Z).

(** What a collector does to the outside, in order: it yields an event, asks
    the scrape service for the page at a cursor, or sleeps.  (The lines the
    command-line collector prints under [verbose] are left out.) *)
Inductive effect :=
| Yield (e : event)
| Fetch (start : Z)
| Sleep (seconds : Q).

(** The loop variables. *)
Record state := State { results : list item; start : Z; attempts : Z }.

Definition say {A B} (a : list A) (r : list A * B) : list A * B :=
  (a ++ r.1, r.2).

(** The inner [for] loop of [collect_titles]: a candidate that [reject]
    refuses is skipped ([continue]); an accepted one is appended, and the loop
    breaks once [limit] is reached. *)
Fixpoint scan_page (reject : str -> list str -> bool) (limit : Z)
    (results : list item) (new_items : list (str * str)) : list item :=
  match new_items with
  | [] => results
  | (t, l) :: rest =>
    if reject t (titles results) then scan_page reject limit results rest
    else
      let results' := results ++ [Item t l] in
      if len results' >=? limit then results'
      else scan_page reject limit results' rest
  end.

(** The same loop in the streaming endpoints, which also count the accepted
    candidates in [new_count] and yield an [item] event for each. *)
Fixpoint scan_stream (reject : str -> list str -> bool) (limit : Z)
    (results : list item) (new_count : Z) (new_items : list (str * str))
  : list effect * (list item * Z) :=
  match new_items with
  | [] => ([], (results, new_count))
  | (t, l) :: rest =>
    if reject t (titles results)
    then scan_stream reject limit results new_count rest
    else
      let results' := results ++ [Item t l] in
      say [Yield (EvItem (Item t l) (len results'))]
        (if len results' >=? limit then ([], (results', new_count + 1))
         else scan_stream reject limit results' (new_count + 1) rest)
  end.

(** [[k.strip() for k in s.split(',') if k.strip()]] *)
Fixpoint split_from (sep : Z) (s cur : str) : list str :=
  match s with
  | [] => [cur]
  | c :: s' =>
    if c =? sep then cur :: split_from sep s' []
    else split_from sep s' (cur ++ [c])
  end.

Definition split (sep : Z) (s : str) : list str := split_from sep s [].

Definition comma_list (s : str) : list str :=
  match s with
  | [] => []
  | _ :: _ => filter (fun k => k ≠ []) (map strip (split 44 s))
  end.

(** ** The scrape service's answer, as [requests] presents it *)

(** A decoded JSON value. *)
#[warnings="-register-all"]
Inductive json :=
| JNull
| JBool (b : bool)
| JInt (n : Z)
| JFloat (q : Q)
| JStr (s : str)
| JList (l : list json)
| JDict (d : list (str * json)).

(** Truth value of a Python object, as [or] tests it. *)
Definition truthy (v : json) : bool :=
  match v with
  | JNull => false
  | JBool b => b
  | JInt n => negb (n =? 0)
  | JFloat q => negb (Qeq_bool q 0)
  | JStr s => negb (bool_decide (s = []))
  | JList l => match l with [] => false | _ => true end
  | JDict d => match d with [] => false | _ => true end
  end.

Definition type_name (v : json) : str :=
  match v with
  | JNull => u "NoneType"
  | JBool _ => u "bool"
  | JInt _ => u "int"
  | JFloat _ => u "float"
  | JStr _ => u "str"
  | JList _ => u "list"
  | JDict _ => u "dict"
  end.

Fixpoint assoc (k : str) (d : list (str * json)) : option json :=
  match d with
  | [] => None
  | (k', v) :: d' => if decide (k' = k) then Some v else assoc k d'
  end.

(** [v.get(k, default)]: only a dict has [get]. *)
Definition get (v : json) (k : str) (default : json) : json + exn :=
  match v with
  | JDict d =>
    inl (match assoc k d with Some x => x | None => default end)
  | _ =>
    inr (Exn OtherException
           (u "'" ++ type_name v ++ u "' object has no attribute 'get'"))
  end.

(** The response object: status, reason phrase, body text, and the body
    decoded by [resp.json()] (or the text of the decoding error). *)
Record response := Response {
  status_code : Z;
  reason : str;
  text : str;
  json_body : json + str
}.

(** [requests.post] answers, or fails below HTTP (no connection, timeout);
    the exceptions of [requests] are not [RuntimeError]s. *)
Inductive posted :=
| Answered (r : response)
| Failed (detail : str).

(** [resp.json()]: the decoded body, or the [JSONDecodeError] (a
    [ValueError]) that [requests] raises for a body that is not JSON.  A body
    nested so deeply that the decoder exhausts the stack ([RecursionError], a
    [RuntimeError]) is outside the model. *)
Definition decode (r : response) : json + exn :=
  match json_body r with
  | inl v => inl v
  | inr detail => inr (Exn OtherException detail)
  end.

(** [str(n)] for an integer. *)
Definition str_of_int (n : Z) : str := u (pretty n).

Definition endpoint : str := u "https://api.firecrawl.dev/v1/scrape".

(** [resp.raise_for_status()]: the [HTTPError] of a 4xx or 5xx status. *)
Definition raise_for_status (r : response) : option exn :=
  if (400 <=? status_code r) && (status_code r <? 500) then
    Some (Exn OtherException
            (str_of_int (status_code r) ++ u " Client Error: " ++ reason r
               ++ u " for url: " ++ endpoint))
  else if (500 <=? status_code r) && (status_code r <? 600) then
    Some (Exn OtherException
            (str_of_int (status_code r) ++ u " Server Error: " ++ reason r
               ++ u " for url: " ++ endpoint))
  else None.

(** ** What BeautifulSoup selects

    Parsing the page and matching the selectors is BeautifulSoup's work; the
    extraction is modelled from what the two selectors match, in document
    order. *)

(** An element matched by the headline selector: its text, as
    [get_text(strip=True)] gives it, and the [href] of the nearest enclosing
    [a], or else the first [a] inside it ([None] when there is no such [a] or
    it has no [href]). *)
Record headline := Headline { headline_text : str; headline_href : option str }.

(** An element matched by [a.news_tit]: its [title] attribute, its text and
    its [href] attribute. *)
Record anchor := Anchor {
  anchor_title : option str;
  anchor_text : str;
  anchor_href : option str
}.

Record soup := Soup { headlines : list headline; news_tit : list anchor }.

(** [a or b] on strings, [None] counting as empty. *)
Definition or_str (a b : str) : str :=
  match a with
  | [] => b
  | _ :: _ => a
  end.

(** [re.search(r"바로가기|옵션|더보기|네이버|검색", t)] *)
Definition chrome_words : list str := Eval vm_compute in map u
  [ "바로가기"; "옵션"; "더보기"; "네이버"; "검색" ]%string.

Definition chrome (t : str) : bool := existsb (fun w => contains t w) chrome_words.

(** The loop over the headline elements, the same in both copies. *)
Definition primary_items (hs : list headline) : list (str * str) :=
  flat_map (fun el =>
              let t := strip (or_str (headline_text el) []) in
              let link := or_str (default [] (headline_href el)) [] in
              if negb (bool_decide (t = [])) && negb (chrome t)
              then [(t, link)] else [])
           hs.

(** ** src/newsScrp.py *)

Module NewsScrp.

Definition firecrawl_scrape (p : posted) : json + exn :=
  match p with
  | Failed detail => inr (Exn OtherException detail)
  | Answered resp =>
    if status_code resp =? 429 then inr (Exn RuntimeError (u "RATE_LIMIT"))
    else
      match raise_for_status resp with
      | Some e => inr e
      | None =>
        match decode resp with
        | inr e => inr e
        | inl data =>
          match get data (u "data") (JDict []) with
          | inr e => inr e
          | inl d =>
            match get d (u "html") JNull with
            | inr e => inr e
            | inl h =>
              if truthy h then inl h else get data (u "html") (JStr [])
            end
          end
        end
      end
  end.

Definition EXCLUDE_KEYWORDS : list str := Eval vm_compute in map u
  [ "1박2일"; "전통시장"; "설명회"; "야구"; "승진"; "사과문"; "채용"; "날씨";
    "결혼"; "합격자"; "시상식"; "청약"; "대회"; "축제"; "당선작";
    "박람회"; "수상자"; "페스티벌"; "마라톤"; "캠페인"; "귀농"; "귀촌";
    "패션쇼"; "미술제"; "결방"; "문화제"; "[포토]"; "음악극"; "클래식" ]%string.

Definition should_exclude_by_keywords (title : str) : bool :=
  match title with
  | [] => false
  | _ :: _ =>
    let t := lower title in
    let t_compact := remove_char 45 (remove_char 32 t) in
    existsb (fun kw => let k := lower kw in contains t k || contains t_compact k)
            EXCLUDE_KEYWORDS
    || contains title (u "1박 2일") || contains title (u "1 박 2 일")
  end.

Definition QUERY_SUFFIXES : list str := Eval vm_compute in map u
  [ "간"; "동안"; "만"; "간의"; "만의"; "만에" ]%string.

Definition should_exclude_by_query_suffix (title query : str) : bool :=
  match title, query with
  | [], _ | _, [] => false
  | _ :: _, _ :: _ =>
    let t := lower title in
    let q := strip (lower query) in
    match q with
    | [] => false
    | _ :: _ =>
      let q_compact := remove_char 32 q in
      existsb (fun suf =>
                 let s := lower suf in
                 let patterns := [q ++ s; q ++ [32] ++ s; q_compact ++ s] in
                 existsb (fun p => contains t p) patterns)
              QUERY_SUFFIXES
    end
  end.

(** The class [[A-Za-z0-9가-힣]]. *)
Definition token_char (c : Z) : bool :=
  in_range 65 90 c || in_range 97 122 c || in_range 48 57 c
  || in_range 44032 55203 c.

Definition tokenize (text : str) : list str :=
  let tokens := findall token_char (lower text) in
  filter (fun t => (2 ≤ length t)%nat) tokens.

Definition has_overlap_three_or_more (candidate : str) (existing : list str)
  : bool :=
  let cand_tokens : gset str := list_to_set (tokenize candidate) in
  if decide (cand_tokens = ∅) then false
  else
    existsb (fun prev =>
               let prev_tokens : gset str := list_to_set (tokenize prev) in
               bool_decide (3 ≤ size (cand_tokens ∩ prev_tokens))%nat)
            existing.

(** The four [continue] tests of the candidate loop, in source order. *)
Definition reject (query : str) (t : str) (existing_titles : list str) : bool :=
  bool_decide (t ∈ existing_titles)
  || should_exclude_by_keywords t
  || should_exclude_by_query_suffix t query
  || has_overlap_three_or_more t existing_titles.

(** [except RuntimeError as e: if str(e) == "RATE_LIMIT"] *)
Definition rate_limited (e : exn) : bool :=
  match exn_kind e with
  | RuntimeError => bool_decide (exn_msg e = u "RATE_LIMIT")
  | OtherException => false
  end.

(** How a call of [collect_titles] ends: it returns a list, exits for want of
    a key, lets an exception through, or (in the model) waits for an answer
    that the given list of answers does not hold. *)
Inductive outcome :=
| Returned (items : list item)
| SystemExit
| Propagated (e : exn)
| Awaiting (st : state).

(** The [while] loop.  [answers] lists what the successive passes through the
    [try] block give. *)
Fixpoint loop (query : str) (limit max_pages : Z) (st : state)
    (answers : list fetched) : list effect * outcome :=
  if (len (results st) <? limit) && (start st <=? 1 + (max_pages - 1) * 10)
  then
    match answers with
    | [] => ([], Awaiting st)
    | a :: answers' =>
      say [Fetch (start st)]
      match a with
      | Raised e =>
        match exn_kind e with
        | RuntimeError =>
          if rate_limited e then
            let wait := Z.min 10 (2 + attempts st * 2) in
            say [Sleep (inject_Z wait)]
              (loop query limit max_pages
                 (State (results st) (start st) (attempts st + 1)) answers')
          else ([], Propagated e)
        | OtherException =>
          say [Sleep 2]
            (let attempts' := attempts st + 1 in
             if attempts' >? 5 then ([], Propagated e)
             else loop query limit max_pages
                    (State (results st) (start st) attempts') answers')
        end
      | Page new_items =>
        let results' := scan_page (reject query) limit (results st) new_items in
        say [Sleep (9 # 10)]
          (loop query limit max_pages (State results' (start st + 10) 0)
             answers')
      end
    end
  else ([], Returned (slice_to limit (results st))).

Definition collect_titles (key query : str) (limit max_pages : Z)
    (answers : list fetched) : list effect * outcome :=
  match key with
  | [] => ([], SystemExit)
  | _ :: _ => loop query limit max_pages (State [] 1 0) answers
  end.

Definition extract_titles_from_html (page : soup) : list (str * str) :=
  let items := primary_items (headlines page) in
  match items with
  | _ :: _ => items
  | [] =>
    flat_map (fun a =>
                let t := strip (or_str (default [] (anchor_title a))
                                  (or_str (anchor_text a) [])) in
                let href := or_str (default [] (anchor_href a)) [] in
                if negb (bool_decide (t = [])) && negb (chrome t)
                then [(t, href)] else [])
             (news_tit page)
  end.

End NewsScrp.

(** ** What the two streaming endpoints share *)

(** The caller-supplied keyword test of the candidate loop. *)
Definition custom_keyword_hit (custom_exclude_keywords : list str)
    (title : str) : bool :=
  existsb (fun keyword =>
             contains (remove_char 45 (remove_char 32 title)) keyword)
          custom_exclude_keywords.

(** The caller-supplied suffix test of the candidate loop. *)
Definition custom_suffix_hit (custom_exclude_suffixes : list str)
    (q title : str) : bool :=
  existsb (fun suffix =>
             let patterns :=
               [q ++ suffix; q ++ [32] ++ suffix; remove_char 32 q ++ suffix] in
             existsb (fun pattern => contains (lower title) (lower pattern))
                     patterns)
          custom_exclude_suffixes.

(** [except Exception as e: if "RATE_LIMIT" in str(e)] *)
Definition rate_limited_text (e : exn) : bool :=
  contains (exn_msg e) (u "RATE_LIMIT").

(** How a run of [generate] ends: with the [complete] event, with the
    missing-key event, or (in the model) waiting for an answer that the given
    list does not hold. *)
Inductive ending :=
| Completed (st : state)
| NoKey
| Waiting (st : state).

(** The statement after the loop. *)
Definition complete (st : state) : list effect * ending :=
  ([Yield (EvComplete (len (results st)))], Completed st).

(** ** src/web/server.py *)

Module Web.

Definition reject (q : str) (custom_exclude_keywords custom_exclude_suffixes
    : list str) (title : str) (existing_titles : list str) : bool :=
  bool_decide (title ∈ existing_titles)
  || NewsScrp.should_exclude_by_keywords title
  || custom_keyword_hit custom_exclude_keywords title
  || custom_suffix_hit custom_exclude_suffixes q title
  || NewsScrp.should_exclude_by_query_suffix title q
  || NewsScrp.has_overlap_three_or_more title existing_titles.

Fixpoint loop (q : str) (limit max_pages : Z) (cks css : list str)
    (st : state) (answers : list fetched) : list effect * ending :=
  if (len (results st) <? limit) && (start st <=? 1 + (max_pages - 1) * 10)
  then
    match answers with
    | [] => ([], Waiting st)
    | a :: answers' =>
      say [Yield (EvProgress (len (results st)) limit (start st));
           Fetch (start st)]
      match a with
      | Raised e =>
        if rate_limited_text e then
          let wait := Z.min 10 (2 + attempts st * 2) in
          say [Yield (EvWait wait); Sleep (inject_Z wait)]
            (loop q limit max_pages cks css
               (State (results st) (start st) (attempts st + 1)) answers')
        else
          say [Yield (EvError (exn_msg e)); Sleep 2]
            (let attempts' := attempts st + 1 in
             if attempts' >? 5
             then complete (State (results st) (start st) attempts')
             else loop q limit max_pages cks css
                    (State (results st) (start st) attempts') answers')
      | Page new_items =>
        let scanned :=
          scan_stream (reject q cks css) limit (results st) 0 new_items in
        let results' := scanned.2.1 in
        let new_count := scanned.2.2 in
        say scanned.1
          (say [Yield (EvPageComplete (start st) new_count (len results'));
                Sleep (9 # 10)]
             (loop q limit max_pages cks css
                (State results' (start st + 10) 0) answers'))
      end
    end
  else complete st.

Definition search_stream (key q : str) (limit : Z)
    (exclude_keywords exclude_suffixes : str) (answers : list fetched)
  : list effect * ending :=
  let limit := Z.max 1 (Z.min 100 limit) in
  let custom_exclude_keywords := comma_list exclude_keywords in
  let custom_exclude_suffixes := comma_list exclude_suffixes in
  match key with
  | [] => ([Yield EvNoKey], NoKey)
  | _ :: _ =>
    let max_pages := 300 in
    say [Yield (EvStart q limit)]
      (loop q limit max_pages custom_exclude_keywords custom_exclude_suffixes
         (State [] 1 0) answers)
  end.

(** The batch endpoint [/search]: the whole of [collect_titles], with the
    limit clamped and the page budget left at its default. *)
Definition search (key q : str) (limit : Z) (answers : list fetched)
  : list effect * NewsScrp.outcome :=
  let limit := Z.max 1 (Z.min 100 limit) in
  NewsScrp.collect_titles key q limit 300 answers.

End Web.

(** ** src/api/search.py *)

Module Api.

Definition EXCLUDE_KEYWORDS : list str := Eval vm_compute in map u
  [ "1박2일"; "전통시장"; "설명회"; "야구"; "승진"; "사과문"; "채용"; "날씨";
    "결혼"; "합격자"; "시상식"; "청약"; "대회"; "축제"; "당선작"; "박람회";
    "수상자"; "페스티벌"; "마라톤"; "캠페인"; "귀농"; "귀촌"; "패션쇼";
    "미술제"; "결방"; "문화제"; "[포토]"; "음악극"; "클래식" ]%string.

Definition QUERY_SUFFIXES : list str := Eval vm_compute in map u
  [ "간"; "동안"; "만"; "간의"; "만의"; "만에" ]%string.

Definition firecrawl_scrape (p : posted) : json + exn :=
  match p with
  | Failed detail => inr (Exn OtherException detail)
  | Answered response =>
    if status_code response =? 200 then
      match decode response with
      | inr e => inr e
      | inl data =>
        match get data (u "data") (JDict []) with
        | inr e => inr e
        | inl d => get d (u "html") (JStr [])
        end
      end
    else
      let error_msg :=
        u "HTTP " ++ str_of_int (status_code response) ++ u ": "
          ++ text response in
      if contains (lower error_msg) (u "rate limit")
      then inr (Exn OtherException (u "RATE_LIMIT: " ++ error_msg))
      else inr (Exn OtherException error_msg)
  end.

Definition read_firecrawl_key (environ : gmap str str) : str :=
  strip (default [] (environ !! u "FIRECRAWL_KEY")).

Definition should_exclude_by_keywords (title : str) : bool :=
  let title_clean := remove_char 45 (remove_char 32 title) in
  existsb (fun keyword => contains title_clean keyword) EXCLUDE_KEYWORDS.

Definition should_exclude_by_query_suffix (title query : str) : bool :=
  let title_lower := lower title in
  let query_lower := lower query in
  existsb (fun suffix =>
             let patterns :=
               [ query_lower ++ suffix;
                 query_lower ++ [32] ++ suffix;
                 remove_char 32 query_lower ++ suffix ] in
             existsb (fun pattern => contains title_lower pattern) patterns)
          QUERY_SUFFIXES.

(** The class [[가-힣a-zA-Z0-9]]. *)
Definition token_char (c : Z) : bool :=
  in_range 44032 55203 c || in_range 97 122 c || in_range 65 90 c
  || in_range 48 57 c.

Definition tokenize (text : str) : gset str :=
  let tokens := findall token_char (lower text) in
  list_to_set tokens.

Definition has_overlap_three_or_more (title : str) (existing_titles : list str)
  : bool :=
  let new_tokens := tokenize title in
  existsb (fun existing_title =>
             let existing_tokens := tokenize existing_title in
             let overlap := new_tokens ∩ existing_tokens in
             bool_decide (3 ≤ size overlap)%nat)
          existing_titles.

Definition reject (q : str) (custom_exclude_keywords custom_exclude_suffixes
    : list str) (title : str) (existing_titles : list str) : bool :=
  bool_decide (title ∈ existing_titles)
  || should_exclude_by_keywords title
  || custom_keyword_hit custom_exclude_keywords title
  || custom_suffix_hit custom_exclude_suffixes q title
  || should_exclude_by_query_suffix title q
  || has_overlap_three_or_more title existing_titles.

(** What the world shows one iteration of the loop: the reading
    [time.time() - timeout_start] at its top, and what the [try] block gives
    if the iteration gets that far. *)
Record tick := Tick { elapsed : Q; answer : fetched }.

Definition timeout_limit : Q := 120.

Fixpoint loop (q : str) (limit max_pages : Z) (cks css : list str)
    (st : state) (world : list tick) : list effect * ending :=
  if (len (results st) <? limit) && (start st <=? 1 + (max_pages - 1) * 10)
  then
    match world with
    | [] => ([], Waiting st)
    | w :: world' =>
      if negb (Qle_bool (elapsed w) timeout_limit) then
        say [Yield EvTimeout] (complete st)
      else
      say [Yield (EvProgress (len (results st)) limit (start st));
           Yield EvDebug; Fetch (start st)]
      match answer w with
      | Raised e =>
        say [Yield EvDebug]
        (if rate_limited_text e then
           let wait := Z.min 5 (1 + attempts st) in
           say [Yield (EvWait wait); Sleep (inject_Z wait)]
             (loop q limit max_pages cks css
                (State (results st) (start st) (attempts st + 1)) world')
         else
           say [Yield (EvError (exn_msg e)); Sleep 1]
             (let attempts' := attempts st + 1 in
              if attempts' >? 3
              then complete (State (results st) (start st) attempts')
              else loop q limit max_pages cks css
                     (State (results st) (start st) attempts') world'))
      | Page new_items =>
        let scanned :=
          scan_stream (reject q cks css) limit (results st) 0 new_items in
        let results' := scanned.2.1 in
        let new_count := scanned.2.2 in
        say (Yield EvDebug :: scanned.1)
          (say [Yield (EvPageComplete (start st) new_count (len results'));
                Sleep (2 # 10)]
             (loop q limit max_pages cks css
                (State results' (start st + 10) 0) world'))
      end
    end
  else complete st.

Definition search_stream (key q : str) (limit : Z)
    (exclude_keywords exclude_suffixes : str) (world : list tick)
  : list effect * ending :=
  let limit := Z.max 1 (Z.min 100 limit) in
  let custom_exclude_keywords := comma_list exclude_keywords in
  let custom_exclude_suffixes := comma_list exclude_suffixes in
  match key with
  | [] => ([Yield EvNoKey], NoKey)
  | _ :: _ =>
    say [Yield EvDebug; Yield (EvStart q limit)]
      (let max_pages := Z.min 3 (limit / 5 + 1) in
       loop q limit max_pages custom_exclude_keywords custom_exclude_suffixes
         (State [] 1 0) world)
  end.

Definition extract_titles_from_html (page : soup) : list (str * str) :=
  let items := primary_items (headlines page) in
  match items with
  | _ :: _ => items
  | [] =>
    flat_map (fun a =>
                let t := strip (or_str (default [] (anchor_title a))
                                  (or_str (anchor_text a) [])) in
                let link := strip (or_str (default [] (anchor_href a)) []) in
                if negb (bool_decide (t = [])) && negb (bool_decide (link = []))
                   && negb (chrome t)
                then [(t, link)] else [])
             (news_tit page)
  end.

End Api.

(** * Vocabulary of the properties *)

(** The result list a run of [collect_titles] holds at its end: the list
    returned, or the list accumulated when the answers ran out. *)
Definition cli_results (o : NewsScrp.outcome) : option (list item) :=
  match o with
  | NewsScrp.Returned items => Some items
  | NewsScrp.Awaiting st => Some (results st)
  | NewsScrp.SystemExit | NewsScrp.Propagated _ => None
  end.

(** The result list a run of [generate] holds at its end. *)
Definition stream_results (e : ending) : option (list item) :=
  match e with
  | Completed st | Waiting st => Some (results st)
  | NoKey => None
  end.

(** The running count an event reports, if it reports one: [total] of
    [item], [page_complete] and [complete], [current] of [progress]. *)
Definition count_of (e : event) : option Z :=
  match e with
  | EvItem _ total | EvPageComplete _ _ total | EvComplete total => Some total
  | EvProgress current _ _ => Some current
  | _ => None
  end.

Definition counts_within (bound : Z) (trace : list effect) : Prop :=
  Forall (fun ef =>
            match ef with
            | Yield e =>
              match count_of e with Some n => n <= bound | None => True end
            | _ => True
            end) trace.

Definition sample_page : list (str * str) := Eval vm_compute in
  [ (u "alpha beta gamma one", u "http://a");
    (u "delta epsilon zeta", u "http://b");
    (u "alpha beta gamma two", u "http://c");
    (u "delta epsilon zeta", u "http://d");
    (u "eta theta iota", u "http://e") ].

(** The token set the command-line collector compares. *)
Definition cli_token_set (s : str) : gset str :=
  list_to_set (NewsScrp.tokenize s).

(** No two titles at different places of [ts] share three or more tokens. *)
Definition far_apart (tok : str -> gset str) (ts : list str) : Prop :=
  forall (i j : nat) (a b : str),
    i <> j -> ts !! i = Some a -> ts !! j = Some b ->
    (size (tok a ∩ tok b) < 3)%nat.

(** The cursors a run asked the scrape service for, in order. *)
Fixpoint fetches (trace : list effect) : list Z :=
  match trace with
  | [] => []
  | Fetch s :: rest => s :: fetches rest
  | _ :: rest => fetches rest
  end.

Definition is_page (a : fetched) : bool :=
  match a with
  | Page _ => true
  | Raised _ => false
  end.


(** The cursor an effect names: the one fetched, or the [page] field of a
    [progress] or [page_complete] event. *)
Definition cursor_of (ef : effect) : option Z :=
  match ef with
  | Fetch c => Some c
  | Yield (EvProgress _ _ page) | Yield (EvPageComplete page _ _) => Some page
  | _ => None
  end.

Definition cursors_satisfy (P : Z -> Prop) (trace : list effect) : Prop :=
  Forall (fun ef => match cursor_of ef with Some c => P c | None => True end)
         trace.

(** The text the scrape function of [api/search.py] builds for a response
    that is not a 200. *)
Definition api_error_msg (r : response) : str :=
  u "HTTP " ++ str_of_int (status_code r) ++ u ": " ++ text r.

(** [d.get(k, default)] on a dict, as a value. *)
Definition entry (k : str) (d : list (str * json)) (default : json) : json :=
  match assoc k d with
  | Some v => v
  | None => default
  end.

(** The rule in the words of the specification: for some suffix of the fixed
    set, one of the three patterns built from the query as given occurs in the
    title, letter case set aside. *)
Definition claimed_suffixes : list str :=
  map u [ "간"; "동안"; "만"; "간의"; "만의"; "만에" ]%string.



(** ** Vocabulary of the further properties *)

(** [t.replace(" ", "").replace("-", "")] *)
Definition compact (t : str) : str := remove_char 45 (remove_char 32 t).

(** A character that is no ASCII letter, no space and no hyphen. *)
Definition plain (c : Z) : bool :=
  negb (in_range 65 90 c) && negb (in_range 97 122 c)
  && negb (c =? 32) && negb (c =? 45).

(** The characters a token can have once the text is lowercased. *)
Definition lower_token_char (c : Z) : bool :=
  in_range 97 122 c || in_range 48 57 c || in_range 44032 55203 c.

(** [{"title": t, "url": u}] for a candidate. *)
Definition item_of (c : str * str) : item := Item c.1 c.2.

(** The [item] events of a trace, in order: the item and the [total] sent
    with it. *)
Fixpoint item_events (trace : list effect) : list (item * Z) :=
  match trace with
  | [] => []
  | Yield (EvItem it total) :: rest => (it, total) :: item_events rest
  | _ :: rest => item_events rest
  end.

(** The items of [l] numbered [n + 1], [n + 2], ... *)
Fixpoint numbered (n : Z) (l : list item) : list (item * Z) :=
  match l with
  | [] => []
  | it :: rest => (it, n + 1) :: numbered (n + 1) rest
  end.

(** The answer of a rate-limited fetch in [newsScrp.py]. *)
Definition rate_limit_answer : fetched :=
  Raised (Exn RuntimeError (u "RATE_LIMIT")).

(** The sleeps of a trace, in seconds. *)
Fixpoint sleeps (trace : list effect) : list Q :=
  match trace with
  | [] => []
  | Sleep d :: rest => d :: sleeps rest
  | _ :: rest => sleeps rest
  end.

(** The seconds slept in a trace. *)
Definition slept (trace : list effect) : Q :=
  fold_right Qplus 0%Q (sleeps trace).

(** An ordinary failure of the network, and a [RuntimeError] that is no rate
    limit. *)
Definition boom : exn := Exn OtherException (u "boom").

Definition bad : exn := Exn RuntimeError (u "bad").

(** What a scan of [sample_page] leaves in an empty list. *)
Definition sample_results : list item := Eval vm_compute in
  [ Item (u "alpha beta gamma one") (u "http://a");
    Item (u "delta epsilon zeta") (u "http://b");
    Item (u "eta theta iota") (u "http://e") ].

(** Every sleep of a trace lasts between [lo] and [hi] seconds. *)
Definition sleeps_between (lo hi : Q) (trace : list effect) : Prop :=
  Forall (fun d => (lo <= d)%Q /\ (d <= hi)%Q) (sleeps trace).

(** A string of white space only (possibly empty). *)
Definition blank (s : str) : Prop := Forall (fun c => isspace c = true) s.

(** A page on which the headline selector matches the five candidates of
    [sample_page]. *)
Definition sample_soup : soup :=
  Soup (map (fun c => Headline c.1 (Some c.2)) sample_page) [].

(** * Properties *)

Example u_ascii : u "3 a" = [51; 32; 97].
Proof. reflexivity. Qed.

Example u_hangul : u "간의" = [44036; 51032].
Proof. reflexivity. Qed.

Example contains_empty : contains (u "abc") [] = true.
Proof. reflexivity. Qed.

Example strip_both : strip (u "  a b ") = u "a b".
Proof. reflexivity. Qed.

Example comma_list_ex : comma_list (u " a, ,b ,") = [u "a"; u "b"].
Proof. reflexivity. Qed.

Example str_of_int_ex : str_of_int 429 = u "429".
Proof. reflexivity. Qed.

Example cli_tokens :
  NewsScrp.tokenize (u "A b  삼성-전자 x1") = [u "삼성"; u "전자"; u "x1"].
Proof. reflexivity. Qed.

Example api_tokens :
  Api.tokenize (u "A b  삼성-전자 x1")
  = list_to_set [u "a"; u "b"; u "삼성"; u "전자"; u "x1"].
Proof. vm_compute. reflexivity. Qed.

(** ** Small facts about the string primitives *)

Lemma len_app {A} (l k : list A) : len (l ++ k) = len l + len k.
Proof. unfold len. rewrite length_app. lia. Qed.

Lemma len_nonneg {A} (l : list A) : 0 <= len l.
Proof. unfold len. lia. Qed.

Lemma say_fst {A B} (a : list A) (r : list A * B) : (say a r).1 = a ++ r.1.
Proof. reflexivity. Qed.

Lemma say_snd {A B} (a : list A) (r : list A * B) : (say a r).2 = r.2.
Proof. reflexivity. Qed.

Lemma slice_to_all {A} (n : Z) (l : list A) :
  len l <= Z.max 0 n -> slice_to n l = l.
Proof.
  unfold slice_to, len. intros H.
  destruct (0 <=? n) eqn:E.
  - apply Z.leb_le in E. apply take_ge. lia.
  - apply Z.leb_gt in E. destruct l; [reflexivity | simpl in H; lia].
Qed.

(** ** The candidate loop, for any rejection test *)

Section Scan.

Variable reject : str -> list str -> bool.
Variable limit : Z.

(** Results are only ever appended to. *)
Lemma scan_page_prefix (new_items : list (str * str)) :
  forall results, results `prefix_of` scan_page reject limit results new_items.
Proof.
  induction new_items as [|[t l] rest IH]; intros rs; simpl.
  - reflexivity.
  - destruct (reject t (titles rs)); [apply IH|].
    destruct (len (rs ++ [Item t l]) >=? limit).
    + by apply prefix_app_r.
    + etrans; [|apply IH]. by apply prefix_app_r.
Qed.

(** The loop stops appending at [limit]. *)
Lemma scan_page_len (new_items : list (str * str)) :
  forall results,
    len results < limit ->
    len (scan_page reject limit results new_items) <= limit.
Proof.
  induction new_items as [|[t l] rest IH]; intros rs Hlt; simpl.
  - lia.
  - destruct (reject t (titles rs)); [by apply IH|].
    destruct (len (rs ++ [Item t l]) >=? limit) eqn:E.
    + rewrite len_app. change (len [Item t l]) with 1. lia.
    + apply IH. rewrite Z.geb_leb in E. apply Z.leb_gt in E. lia.
Qed.

(** Any property of result lists that survives the appending of an accepted
    candidate survives the scan of a page. *)
Lemma scan_page_keeps (P : list item -> Prop) :
  (forall rs t l,
      P rs -> reject t (titles rs) = false -> P (rs ++ [Item t l])) ->
  forall new_items results,
    P results -> P (scan_page reject limit results new_items).
Proof.
  intros Hstep new_items.
  induction new_items as [|[t l] rest IH]; intros rs HP; simpl; [done|].
  destruct (reject t (titles rs)) eqn:R; [by apply IH|].
  destruct (len (rs ++ [Item t l]) >=? limit); [by apply Hstep|].
  apply IH. by apply Hstep.
Qed.

(** The streaming loop accumulates exactly what the plain one does. *)
Lemma scan_stream_results (new_items : list (str * str)) :
  forall results n,
    (scan_stream reject limit results n new_items).2.1
    = scan_page reject limit results new_items.
Proof.
  induction new_items as [|[t l] rest IH]; intros rs n; simpl; [done|].
  destruct (reject t (titles rs)); [apply IH|].
  rewrite say_snd.
  destruct (len (rs ++ [Item t l]) >=? limit); [done | apply IH].
Qed.

(** It counts the candidates it appended. *)
Lemma scan_stream_count (new_items : list (str * str)) :
  forall results n,
    (scan_stream reject limit results n new_items).2.2
    = n + (len (scan_page reject limit results new_items) - len results).
Proof.
  induction new_items as [|[t l] rest IH]; intros rs n; simpl; [lia|].
  destruct (reject t (titles rs)); [apply IH|].
  rewrite say_snd.
  destruct (len (rs ++ [Item t l]) >=? limit); simpl.
  - rewrite len_app. change (len [Item t l]) with 1. lia.
  - rewrite IH.
    pose proof (len_app rs [Item t l]) as E.
    change (len [Item t l]) with 1 in E. lia.
Qed.

End Scan.

Arguments say : simpl never.
Arguments u : simpl never.
Arguments len : simpl never.
Arguments scan_page : simpl never.
Arguments scan_stream : simpl never.
Arguments slice_to : simpl never.
Arguments Z.mul : simpl never.
Arguments Z.add : simpl never.
Arguments Z.sub : simpl never.
Arguments Z.min : simpl never.
Arguments Z.max : simpl never.
Arguments Z.ltb : simpl never.
Arguments Z.leb : simpl never.
Arguments Z.gtb : simpl never.
Arguments Z.geb : simpl never.
Arguments Z.div : simpl never.

(** ** The command-line collector's loop *)

Section CliLoop.

Variables (query : str) (limit max_pages : Z).

Variable P : list item -> Prop.

Hypothesis P_accept :
  forall rs t l,
    P rs -> NewsScrp.reject query t (titles rs) = false ->
    P (rs ++ [Item t l]).

Lemma cli_loop_keeps (answers : list fetched) :
  forall st rs,
    P (results st) -> len (results st) <= Z.max 0 limit ->
    cli_results (NewsScrp.loop query limit max_pages st answers).2 = Some rs ->
    P rs /\ len rs <= Z.max 0 limit.
Proof.
  induction answers as [|a answers IH]; intros st rs HP Hlen; simpl.
  - destruct (_ && _); simpl; intros [= <-]; [done|].
    by rewrite slice_to_all.
  - destruct (_ && _) eqn:G; simpl.
    2:{ intros [= <-]. by rewrite slice_to_all. }
    apply andb_prop in G as [G _]. apply Z.ltb_lt in G.
    destruct a as [new_items|e].
    + rewrite say_snd. apply IH; simpl.
      * by apply scan_page_keeps.
      * pose proof (scan_page_len (NewsScrp.reject query) limit new_items
                      (results st) G). lia.
    + destruct (exn_kind e).
      * destruct (NewsScrp.rate_limited e); [|done].
        rewrite say_snd. by apply IH.
      * rewrite say_snd.
        destruct (attempts st + 1 >? 5); [done|]. by apply IH.
Qed.

End CliLoop.

(** ** The streaming endpoints' loops *)

Lemma counts_within_app bound t1 t2 :
  counts_within bound t1 -> counts_within bound t2 ->
  counts_within bound (t1 ++ t2).
Proof. unfold counts_within. intros. by apply Forall_app. Qed.

Lemma scan_stream_counts reject limit (new_items : list (str * str)) :
  forall results n,
    len results < limit ->
    counts_within limit (scan_stream reject limit results n new_items).1.
Proof.
  induction new_items as [|[t l] rest IH]; intros rs n Hlt;
    unfold scan_stream; fold scan_stream.
  - constructor.
  - destruct (reject t (titles rs)); [by apply IH|].
    rewrite say_fst.
    pose proof (len_app rs [Item t l]) as E.
    change (len [Item t l]) with 1 in E.
    apply counts_within_app.
    + repeat constructor. simpl. lia.
    + destruct (len (rs ++ [Item t l]) >=? limit) eqn:G; [constructor|].
      apply IH. rewrite Z.geb_leb in G. apply Z.leb_gt in G. lia.
Qed.

Section ApiLoop.

Variables (q : str) (limit max_pages : Z) (cks css : list str).

Variable P : list item -> Prop.

Hypothesis P_accept :
  forall rs t l,
    P rs -> Api.reject q cks css t (titles rs) = false ->
    P (rs ++ [Item t l]).

Lemma api_loop_keeps (world : list Api.tick) :
  forall st rs,
    P (results st) -> len (results st) <= Z.max 0 limit ->
    stream_results (Api.loop q limit max_pages cks css st world).2 = Some rs ->
    P rs /\ len rs <= Z.max 0 limit.
Proof.
  induction world as [|w world IH]; intros st rs HP Hlen; simpl.
  - destruct (_ && _); simpl; by intros [= <-].
  - destruct (_ && _) eqn:G; simpl; [|by intros [= <-]].
    apply andb_prop in G as [G _]. apply Z.ltb_lt in G.
    destruct (negb _); [by intros [= <-]|].
    destruct (Api.answer w) as [new_items|e].
    + rewrite !say_snd, scan_stream_results. apply IH; simpl.
      * by apply scan_page_keeps.
      * pose proof (scan_page_len (Api.reject q cks css) limit new_items
                      (results st) G). lia.
    + rewrite say_snd. destruct (rate_limited_text e); rewrite say_snd.
      * by apply IH.
      * destruct (attempts st + 1 >? 3); [by intros [= <-]|]. by apply IH.
Qed.

End ApiLoop.

Lemma api_loop_counts q limit max_pages cks css (world : list Api.tick) :
  forall st,
    len (results st) <= Z.max 0 limit ->
    counts_within (Z.max 0 limit)
      (Api.loop q limit max_pages cks css st world).1.
Proof.
  induction world as [|w world IH]; intros st Hlen; simpl.
  - destruct (_ && _); simpl; repeat constructor. simpl. lia.
  - destruct (_ && _) eqn:G; simpl; [|repeat constructor; simpl; lia].
    apply andb_prop in G as [G _]. apply Z.ltb_lt in G.
    destruct (negb _); [repeat constructor; simpl; lia|].
    rewrite say_fst. apply counts_within_app.
    { repeat constructor. simpl. lia. }
    destruct (Api.answer w) as [new_items|e].
    + rewrite !say_fst, scan_stream_results.
      pose proof (scan_page_len (Api.reject q cks css) limit new_items
                    (results st) G) as L.
      apply counts_within_app; [constructor; [done|]|].
      * pose proof (len_nonneg (results st)).
        replace (Z.max 0 limit) with limit by lia.
        by apply scan_stream_counts.
      * apply counts_within_app; [repeat constructor; simpl; lia|].
        apply IH. simpl. lia.
    + rewrite say_fst. apply counts_within_app; [repeat constructor|].
      destruct (rate_limited_text e); rewrite say_fst;
        (apply counts_within_app; [repeat constructor|]).
      * by apply IH.
      * destruct (attempts st + 1 >? 3); [|by apply IH].
        repeat constructor. simpl. lia.
Qed.

(** A run that waits for an answer stands at the top of the loop with room
    left in the result list. *)
Lemma cli_loop_awaiting query limit max_pages (answers : list fetched) :
  forall st st',
    (NewsScrp.loop query limit max_pages st answers).2 = NewsScrp.Awaiting st' ->
    len (results st') < limit.
Proof.
  induction answers as [|a answers IH]; intros st st'; simpl.
  - destruct (_ && _) eqn:G; simpl; [|done]. intros [= <-].
    apply andb_prop in G as [G _]. by apply Z.ltb_lt in G.
  - destruct (_ && _); simpl; [|done].
    destruct a as [new_items|e].
    + rewrite say_snd. apply IH.
    + destruct (exn_kind e).
      * destruct (NewsScrp.rate_limited e); [|done]. rewrite say_snd. apply IH.
      * rewrite say_snd. destruct (attempts st + 1 >? 5); [done | apply IH].
Qed.

(** ** C1: the result list never outgrows the limit *)

(** C1.  For a limit between 1 and 100 and any answers of the scrape service:
    the list [collect_titles] returns, and the list it holds whenever it is
    about to fetch, have at most [limit] entries; from any such point, after
    any number of candidates of the next page, the list still has at most
    [limit] entries; and in the streaming endpoint of [api/search.py] every
    running count that is streamed ([current] of [progress], [total] of
    [item], [page_complete] and [complete]) and the list held at the end are
    at most [limit]. *)
Theorem C1_result_set_within_limit
    (key query : str) (limit max_pages : Z) (answers : list fetched)
    (exclude_keywords exclude_suffixes : str) (world : list Api.tick) :
  1 <= limit <= 100 ->
  (forall rs,
      cli_results
        (NewsScrp.collect_titles key query limit max_pages answers).2
      = Some rs ->
      len rs <= limit)
  /\ (forall st new_items,
         (NewsScrp.collect_titles key query limit max_pages answers).2
         = NewsScrp.Awaiting st ->
         len (scan_page (NewsScrp.reject query) limit (results st) new_items)
         <= limit)
  /\ counts_within limit
       (Api.search_stream key query limit exclude_keywords exclude_suffixes
          world).1
  /\ (forall rs,
         stream_results
           (Api.search_stream key query limit exclude_keywords
              exclude_suffixes world).2
         = Some rs ->
         len rs <= limit).
Proof.
  intros Hlim.
  assert (Z.max 0 limit = limit) as E0 by lia.
  assert (Z.max 1 (Z.min 100 limit) = limit) as E1 by lia.
  repeat split.
  - intros rs. unfold NewsScrp.collect_titles. destruct key; [done|].
    intros H.
    apply (cli_loop_keeps query limit max_pages (fun _ => True)) in H;
      [lia | done | done | simpl; change (len []) with 0; lia].
  - intros st new_items. unfold NewsScrp.collect_titles.
    destruct key; [done|]. intros H.
    apply scan_page_len. by eapply cli_loop_awaiting.
  - unfold Api.search_stream. rewrite E1. destruct key.
    + repeat constructor.
    + rewrite say_fst. apply counts_within_app; [repeat constructor|].
      rewrite <- E0 at 1. apply api_loop_counts.
      change (len (results (State [] 1 0))) with 0. lia.
  - intros rs. unfold Api.search_stream. rewrite E1. destruct key; [done|].
    rewrite say_snd. intros H.
    apply (api_loop_keeps query limit _ _ _ (fun _ => True)) in H;
      [lia | done | done | simpl; change (len []) with 0; lia].
Qed.

Lemma C1_result_set_within_limit_witness :
  1 <= 2 <= 100
  /\ cli_results
       (NewsScrp.collect_titles (u "key") (u "q") 2 300
          [Raised (Exn RuntimeError (u "RATE_LIMIT")); Page sample_page]).2
     = Some [Item (u "alpha beta gamma one") (u "http://a");
             Item (u "delta epsilon zeta") (u "http://b")]
  /\ len [Item (u "alpha beta gamma one") (u "http://a");
          Item (u "delta epsilon zeta") (u "http://b")] <= 2.
Proof.
  assert (1 <= 2 <= 100) as H by lia.
  split; [exact H|].
  assert (cli_results
       (NewsScrp.collect_titles (u "key") (u "q") 2 300
          [Raised (Exn RuntimeError (u "RATE_LIMIT")); Page sample_page]).2
     = Some [Item (u "alpha beta gamma one") (u "http://a");
             Item (u "delta epsilon zeta") (u "http://b")]) as R
    by (vm_compute; reflexivity).
  split; [exact R|].
  exact (proj1 (C1_result_set_within_limit (u "key") (u "q") 2 300
                  [Raised (Exn RuntimeError (u "RATE_LIMIT")); Page sample_page]
                  [] [] [] H) _ R).
Defined.

(** ** C2 and C3: what the candidate loop keeps true of the result list *)

Lemma far_apart_snoc tok (ts : list str) (t : str) :
  far_apart tok ts ->
  (forall p, p ∈ ts -> (size (tok t ∩ tok p) < 3)%nat) ->
  far_apart tok (ts ++ [t]).
Proof.
  intros Hfar Hnew i j a b Hij Ha Hb.
  destruct (decide (i < length ts)%nat) as [Hi|Hi];
    destruct (decide (j < length ts)%nat) as [Hj|Hj].
  - rewrite lookup_app_l in Ha, Hb by done. by eapply Hfar.
  - rewrite lookup_app_l in Ha by done.
    rewrite lookup_app_r in Hb by lia.
    destruct (j - length ts)%nat eqn:E; [|done]. simpl in Hb.
    injection Hb as <-.
    rewrite (comm_L (∩) (tok a) (tok t)).
    apply Hnew. by eapply list_elem_of_lookup_2.
  - rewrite lookup_app_l in Hb by done.
    rewrite lookup_app_r in Ha by lia.
    destruct (i - length ts)%nat eqn:E; [|done]. simpl in Ha.
    injection Ha as <-.
    apply Hnew. by eapply list_elem_of_lookup_2.
  - rewrite lookup_app_r in Ha, Hb by lia.
    destruct (i - length ts)%nat eqn:Ei; [|done].
    destruct (j - length ts)%nat eqn:Ej; [|done]. lia.
Qed.

Lemma existsb_elem_of {A} (f : A -> bool) (l : list A) :
  existsb f l = true <-> exists x, x ∈ l /\ f x = true.
Proof.
  rewrite existsb_exists. split; intros (x & H & E); exists x; split;
    try done; by apply list_elem_of_In.
Qed.

Lemma cli_overlap_iff (candidate : str) (existing : list str) :
  NewsScrp.has_overlap_three_or_more candidate existing = true
  <-> exists prev,
        prev ∈ existing
        /\ (3 <= size (cli_token_set candidate ∩ cli_token_set prev))%nat.
Proof.
  unfold NewsScrp.has_overlap_three_or_more. fold (cli_token_set candidate).
  destruct (decide (cli_token_set candidate = ∅)) as [E|_].
  - split; [done|]. intros (prev & _ & H). rewrite E in H.
    rewrite intersection_empty_l_L, size_empty in H. lia.
  - rewrite existsb_elem_of. split; intros (prev & Hin & H); exists prev;
      (split; [done|]).
    + by apply bool_decide_eq_true in H.
    + by apply bool_decide_eq_true.
Qed.

Lemma api_overlap_iff (title : str) (existing_titles : list str) :
  Api.has_overlap_three_or_more title existing_titles = true
  <-> exists prev,
        prev ∈ existing_titles
        /\ (3 <= size (Api.tokenize title ∩ Api.tokenize prev))%nat.
Proof.
  unfold Api.has_overlap_three_or_more.
  rewrite existsb_elem_of. split; intros (prev & Hin & H); exists prev;
    (split; [done|]).
  - by apply bool_decide_eq_true in H.
  - by apply bool_decide_eq_true.
Qed.

(** What a candidate that passes the tests of [collect_titles] satisfies. *)
Lemma cli_reject_false query t existing :
  NewsScrp.reject query t existing = false ->
  (t ∉ existing)
  /\ (forall p, p ∈ existing ->
                (size (cli_token_set t ∩ cli_token_set p) < 3)%nat).
Proof.
  unfold NewsScrp.reject. intros H.
  apply orb_false_elim in H as [H Hov].
  apply orb_false_elim in H as [H _].
  apply orb_false_elim in H as [Hin _].
  apply bool_decide_eq_false in Hin. split; [done|].
  intros p Hp.
  destruct (decide (size (cli_token_set t ∩ cli_token_set p) < 3)%nat)
    as [|Hge]; [done|].
  assert (NewsScrp.has_overlap_three_or_more t existing = true) as Habs.
  { apply cli_overlap_iff. exists p. split; [done | lia]. }
  congruence.
Qed.

(** The same for the candidate loop of [api/search.py]. *)
Lemma api_reject_false q cks css t existing :
  Api.reject q cks css t existing = false ->
  (t ∉ existing)
  /\ (forall p, p ∈ existing ->
                (size (Api.tokenize t ∩ Api.tokenize p) < 3)%nat).
Proof.
  unfold Api.reject. intros H.
  apply orb_false_elim in H as [H Hov].
  apply orb_false_elim in H as [H _].
  apply orb_false_elim in H as [H _].
  apply orb_false_elim in H as [H _].
  apply orb_false_elim in H as [Hin _].
  apply bool_decide_eq_false in Hin. split; [done|].
  intros p Hp.
  destruct (decide (size (Api.tokenize t ∩ Api.tokenize p) < 3)%nat)
    as [|Hge]; [done|].
  assert (Api.has_overlap_three_or_more t existing = true) as Habs.
  { apply api_overlap_iff. exists p. split; [done | lia]. }
  congruence.
Qed.

Lemma titles_snoc rs t l : titles (rs ++ [Item t l]) = titles rs ++ [t].
Proof. unfold titles. by rewrite map_app. Qed.

Lemma NoDup_titles_snoc rs t l :
  NoDup (titles rs) -> t ∉ titles rs -> NoDup (titles (rs ++ [Item t l])).
Proof.
  intros Hnd Hnot. rewrite titles_snoc. apply NoDup_app.
  split; [done|]. split; [|apply NoDup_singleton].
  intros x Hx Hx'. apply list_elem_of_singleton in Hx'. by subst.
Qed.

(** C2.  In the list [collect_titles] returns (or holds when it is about to
    fetch), and in the list the streaming endpoint of [api/search.py] holds at
    its end, no title occurs twice; and a candidate whose title is already in
    the list is skipped by either candidate loop, which leaves the list as it
    was. *)
Theorem C2_no_equal_titles
    (key query : str) (limit max_pages : Z) (answers : list fetched)
    (exclude_keywords exclude_suffixes : str) (world : list Api.tick)
    (rs : list item) (t l : str) (cks css : list str) (lim : Z) :
  match cli_results
          (NewsScrp.collect_titles key query limit max_pages answers).2 with
  | Some items => NoDup (titles items)
  | None => True
  end
  /\ match stream_results
             (Api.search_stream key query limit exclude_keywords
                exclude_suffixes world).2 with
     | Some items => NoDup (titles items)
     | None => True
     end
  /\ (t ∈ titles rs ->
      scan_page (NewsScrp.reject query) lim rs [(t, l)] = rs
      /\ scan_page (Api.reject query cks css) lim rs [(t, l)] = rs).
Proof.
  repeat split.
  - destruct (cli_results _) as [items|] eqn:E; [|done].
    unfold NewsScrp.collect_titles in E. destruct key; [done|].
    apply (cli_loop_keeps query limit max_pages (fun r => NoDup (titles r)))
      in E; [tauto | | constructor | simpl; change (len []) with 0; lia].
    intros r t' l' Hnd Hrej. apply NoDup_titles_snoc; [done|].
    by apply cli_reject_false in Hrej as [? _].
  - destruct (stream_results _) as [items|] eqn:E; [|done].
    unfold Api.search_stream in E. destruct key; [done|].
    rewrite say_snd in E.
    apply (api_loop_keeps query _ _ _ _ (fun r => NoDup (titles r)))
      in E; [tauto | | constructor | simpl; change (len []) with 0; lia].
    intros r t' l' Hnd Hrej. apply NoDup_titles_snoc; [done|].
    by apply api_reject_false in Hrej as [? _].
  - unfold scan_page, NewsScrp.reject.
    by rewrite bool_decide_eq_true_2.
  - unfold scan_page, Api.reject.
    by rewrite bool_decide_eq_true_2.
Qed.

Lemma C2_no_equal_titles_witness :
  u "delta epsilon zeta" ∈ titles [Item (u "delta epsilon zeta") (u "http://b")]
  /\ scan_page (NewsScrp.reject (u "q")) 5
       [Item (u "delta epsilon zeta") (u "http://b")]
       [(u "delta epsilon zeta", u "http://d")]
     = [Item (u "delta epsilon zeta") (u "http://b")].
Proof.
  assert (u "delta epsilon zeta"
          ∈ titles [Item (u "delta epsilon zeta") (u "http://b")]) as H
    by (vm_compute; left).
  split; [exact H|].
  exact (proj1 (proj2 (proj2 (C2_no_equal_titles [] (u "q") 5 300 [] [] [] []
           [Item (u "delta epsilon zeta") (u "http://b")]
           (u "delta epsilon zeta") (u "http://d") [] [] 5)) H)).
Defined.

(** C3.  In the list [collect_titles] returns (or holds when it is about to
    fetch), and in the list the streaming endpoint of [api/search.py] holds at
    its end, no two entries have token sets with three or more tokens in
    common, each copy with its own tokenizer.  [has_overlap_three_or_more]
    refuses a candidate exactly when some title already in the list shares
    three or more tokens with it, so three shared tokens are refused and at
    most two with every accepted title pass.  The test only reads the titles
    accepted so far, and the loops only append: the list before a page is
    scanned, and the list at any state of the loop, is an initial part of the
    list afterwards. *)
Theorem C3_no_near_duplicates
    (key query : str) (limit max_pages : Z) (answers : list fetched)
    (exclude_keywords exclude_suffixes : str) (world : list Api.tick)
    (candidate : str) (existing : list str)
    (reject : str -> list str -> bool) (rs : list item)
    (new_items : list (str * str)) (st : state) :
  match cli_results
          (NewsScrp.collect_titles key query limit max_pages answers).2 with
  | Some items => far_apart cli_token_set (titles items)
  | None => True
  end
  /\ match stream_results
             (Api.search_stream key query limit exclude_keywords
                exclude_suffixes world).2 with
     | Some items => far_apart Api.tokenize (titles items)
     | None => True
     end
  /\ (NewsScrp.has_overlap_three_or_more candidate existing = true
      <-> exists prev,
            prev ∈ existing
            /\ (3 <= size (cli_token_set candidate ∩ cli_token_set prev))%nat)
  /\ (Api.has_overlap_three_or_more candidate existing = true
      <-> exists prev,
            prev ∈ existing
            /\ (3 <= size (Api.tokenize candidate ∩ Api.tokenize prev))%nat)
  /\ rs `prefix_of` scan_page reject limit rs new_items
  /\ (len (results st) <= Z.max 0 limit ->
      match cli_results (NewsScrp.loop query limit max_pages st answers).2 with
      | Some items => results st `prefix_of` items
      | None => True
      end).
Proof.
  split; [|split; [|split; [|split; [|split]]]].
  - destruct (cli_results _) as [items|] eqn:E; [|done].
    unfold NewsScrp.collect_titles in E. destruct key; [done|].
    apply (cli_loop_keeps query limit max_pages
             (fun r => far_apart cli_token_set (titles r)))
      in E; [tauto | | | simpl; change (len []) with 0; lia].
    + intros r t' l' Hfar Hrej. rewrite titles_snoc.
      apply far_apart_snoc; [done|].
      by apply cli_reject_false in Hrej as [_ ?].
    + intros i j a b _ Ha. done.
  - destruct (stream_results _) as [items|] eqn:E; [|done].
    unfold Api.search_stream in E. destruct key; [done|].
    rewrite say_snd in E.
    apply (api_loop_keeps query _ _ _ _
             (fun r => far_apart Api.tokenize (titles r)))
      in E; [tauto | | | simpl; change (len []) with 0; lia].
    + intros r t' l' Hfar Hrej. rewrite titles_snoc.
      apply far_apart_snoc; [done|].
      by apply api_reject_false in Hrej as [_ ?].
    + intros i j a b _ Ha. done.
  - apply cli_overlap_iff.
  - apply api_overlap_iff.
  - apply scan_page_prefix.
  - intros Hlen. destruct (cli_results _) as [items|] eqn:E; [|done].
    apply (cli_loop_keeps query limit max_pages
             (fun r => results st `prefix_of` r)) in E; [tauto | | done | done].
    intros r t' l' Hpre _. by apply prefix_app_r.
Qed.

Lemma C3_no_near_duplicates_witness :
  len (results (State [Item (u "eta theta iota") (u "http://e")] 11 0))
  <= Z.max 0 5
  /\ match cli_results
             (NewsScrp.loop (u "q") 5 300
                (State [Item (u "eta theta iota") (u "http://e")] 11 0)
                [Page sample_page]).2 with
     | Some items =>
       results (State [Item (u "eta theta iota") (u "http://e")] 11 0)
         `prefix_of` items
     | None => True
     end.
Proof.
  assert (len (results (State [Item (u "eta theta iota") (u "http://e")] 11 0))
          <= Z.max 0 5) as H by (vm_compute; discriminate).
  split; [exact H|].
  pose proof (C3_no_near_duplicates (u "key") (u "q") 5 300 [Page sample_page]
                [] [] [] [] [] (fun _ _ => false) [] []
                (State [Item (u "eta theta iota") (u "http://e")] 11 0)) as T.
  destruct T as (_ & _ & _ & _ & _ & T). exact (T H).
Defined.

(** Two titles with exactly three tokens in common: the second is refused. *)
Example three_shared_tokens_refused :
  size (cli_token_set (u "alpha beta gamma two")
        ∩ cli_token_set (u "alpha beta gamma one")) = 3%nat
  /\ NewsScrp.has_overlap_three_or_more (u "alpha beta gamma two")
       [u "alpha beta gamma one"] = true
  /\ Api.has_overlap_three_or_more (u "alpha beta gamma two")
       [u "alpha beta gamma one"] = true
  /\ scan_page (NewsScrp.reject (u "q")) 5 []
       [(u "alpha beta gamma one", u "http://a");
        (u "alpha beta gamma two", u "http://c")]
     = [Item (u "alpha beta gamma one") (u "http://a")].
Proof. repeat split; vm_compute; reflexivity. Qed.

(** Two titles with exactly two tokens in common: both are accepted. *)
Example two_shared_tokens_accepted :
  size (cli_token_set (u "alpha beta delta two")
        ∩ cli_token_set (u "alpha beta gamma one")) = 2%nat
  /\ NewsScrp.has_overlap_three_or_more (u "alpha beta delta two")
       [u "alpha beta gamma one"] = false
  /\ Api.has_overlap_three_or_more (u "alpha beta delta two")
       [u "alpha beta gamma one"] = false
  /\ scan_page (NewsScrp.reject (u "q")) 5 []
       [(u "alpha beta gamma one", u "http://a");
        (u "alpha beta delta two", u "http://c")]
     = [Item (u "alpha beta gamma one") (u "http://a");
        Item (u "alpha beta delta two") (u "http://c")].
Proof. repeat split; vm_compute; reflexivity. Qed.

(** ** C8: the two tokenizers *)

(** The two character classes are the same set of characters. *)
Lemma token_char_same (c : Z) : NewsScrp.token_char c = Api.token_char c.
Proof.
  unfold NewsScrp.token_char, Api.token_char.
  destruct (in_range 65 90 c), (in_range 97 122 c), (in_range 48 57 c),
    (in_range 44032 55203 c); reflexivity.
Qed.

(** [findall] yields non-empty strings of class characters only. *)
Lemma findall_from_tokens cls (s : str) :
  forall run,
    Forall (fun c => cls c = true) run ->
    Forall (fun t => t <> [] /\ Forall (fun c => cls c = true) t)
           (findall_from cls s run).
Proof.
  assert (forall run, Forall (fun c => cls c = true) run ->
            Forall (fun t => t <> [] /\ Forall (fun c => cls c = true) t)
                   (flush run)) as Hflush.
  { intros [|c run] Hrun; simpl; [constructor|].
    constructor; [|constructor]. by split. }
  induction s as [|c s IH]; intros run Hrun; simpl.
  - by apply Hflush.
  - destruct (cls c) eqn:E.
    + apply IH. apply Forall_app. split; [done|]. by repeat constructor.
    + apply Forall_app. split; [by apply Hflush|].
      apply IH. constructor.
Qed.

Lemma findall_tokens cls (s : str) :
  Forall (fun t => t <> [] /\ Forall (fun c => cls c = true) t)
         (findall cls s).
Proof. apply findall_from_tokens. constructor. Qed.

Lemma findall_ext (cls cls' : Z -> bool) (s : str) :
  (forall c, cls c = cls' c) ->
  forall run, findall_from cls s run = findall_from cls' s run.
Proof.
  intros H. induction s as [|c s IH]; intros run; simpl; [done|].
  rewrite <- H. destruct (cls c); by rewrite IH.
Qed.

(** C8.  The two character classes name the same characters, so both
    tokenizers read the same runs off the lowercased text; the one of
    [newsScrp.py] keeps the runs of length 2 or more, the one of
    [api/search.py] makes a set of all of them; and for every text the tokens
    of the first are exactly the tokens of the second that do not have
    length 1. *)
Theorem C8_cli_tokens_are_api_tokens_without_singletons (text : str) :
  (forall c, NewsScrp.token_char c = Api.token_char c)
  /\ NewsScrp.tokenize text
     = filter (fun t => (2 <= length t)%nat)
              (findall Api.token_char (lower text))
  /\ Api.tokenize text = list_to_set (findall Api.token_char (lower text))
  /\ (list_to_set (NewsScrp.tokenize text) : gset str)
     = filter (fun t => length t <> 1%nat) (Api.tokenize text).
Proof.
  assert (findall NewsScrp.token_char (lower text)
          = findall Api.token_char (lower text)) as Hsame.
  { apply findall_ext, token_char_same. }
  split; [apply token_char_same|].
  split; [unfold NewsScrp.tokenize; by rewrite Hsame|].
  split; [done|].
  unfold NewsScrp.tokenize, Api.tokenize. rewrite Hsame.
  pose proof (findall_tokens Api.token_char (lower text)) as Htok.
  apply set_eq. intros t.
  rewrite elem_of_filter, !elem_of_list_to_set, list_elem_of_filter.
  split.
  - intros [Hlen Hin]. split; [lia | done].
  - intros [Hlen Hin]. split; [|done].
    rewrite Forall_forall in Htok. destruct (Htok t Hin) as [Hne _].
    destruct t as [|? [|? ?]]; simpl in *; [done | lia | lia].
Qed.

(** The length-1 tokens are the whole difference. *)
Example tokenizers_differ :
  NewsScrp.tokenize (u "A 3 일 news") = [u "news"]
  /\ Api.tokenize (u "A 3 일 news")
     = list_to_set [u "a"; u "3"; u "일"; u "news"].
Proof. split; vm_compute; reflexivity. Qed.

(** ** C9 and C10: the page cursor *)

Lemma fetches_app t1 t2 : fetches (t1 ++ t2) = fetches t1 ++ fetches t2.
Proof.
  induction t1 as [|[e|s|d] t1 IH]; simpl; [done | done | | done].
  by rewrite IH.
Qed.






(** The cursors of a run with a rate limit in it: 1, 11, 11, 21. *)
Example cursor_sequence :
  fetches (NewsScrp.collect_titles (u "key") (u "q") 50 300
             [Page sample_page;
              Raised (Exn RuntimeError (u "RATE_LIMIT"));
              Page []; Page []]).1
  = [1; 11; 11; 21].
Proof. vm_compute. reflexivity. Qed.

Lemma elem_of_fetches c trace : c ∈ fetches trace <-> Fetch c ∈ trace.
Proof.
  induction trace as [|ef trace IH]; simpl.
  - by rewrite !elem_of_nil.
  - destruct ef as [e|s|d]; rewrite ?elem_of_cons, IH.
    + split; [tauto | intros [[=]|]; done].
    + split; [intros [->|]; tauto | intros [[= ->]|]; tauto].
    + split; [tauto | intros [[=]|]; done].
Qed.

Lemma scan_stream_no_cursor P reject limit (new_items : list (str * str)) :
  forall rs n,
    cursors_satisfy P (scan_stream reject limit rs n new_items).1.
Proof.
  induction new_items as [|[t l] rest IH]; intros rs n;
    unfold scan_stream; fold scan_stream.
  - constructor.
  - destruct (reject t (titles rs)); [apply IH|].
    rewrite say_fst. apply Forall_app. split; [by repeat constructor|].
    destruct (len (rs ++ [Item t l]) >=? limit); [constructor | apply IH].
Qed.

(** Every cursor the loop of [api/search.py] names lies a multiple of ten
    above the one it started with, and within the page budget. *)
Lemma api_loop_cursors q limit max_pages cks css (world : list Api.tick) :
  forall st,
    cursors_satisfy
      (fun c => exists k, 0 <= k /\ c = start st + 10 * k
                          /\ c <= 1 + (max_pages - 1) * 10)
      (Api.loop q limit max_pages cks css st world).1.
Proof.
  unfold cursors_satisfy.
  induction world as [|w world IH]; intros st; simpl.
  - destruct (_ && _); simpl; repeat constructor.
  - destruct (_ && _) eqn:G; simpl; [|repeat constructor].
    apply andb_prop in G as [_ G]. apply Z.leb_le in G.
    destruct (negb _); [repeat constructor|].
    assert (exists k, 0 <= k /\ start st = start st + 10 * k
                      /\ start st <= 1 + (max_pages - 1) * 10) as Hnow.
    { exists 0. repeat split; lia. }
    rewrite say_fst. apply Forall_app. split; [by repeat constructor|].
    destruct (Api.answer w) as [new_items|e].
    + rewrite !say_fst. apply Forall_app. split.
      { constructor; [done|]. apply scan_stream_no_cursor. }
      apply Forall_app. split; [by repeat constructor|].
      eapply Forall_impl; [apply IH|]. simpl. intros ef Hef.
      destruct (cursor_of ef); [|done].
      destruct Hef as (k & ? & -> & ?). exists (k + 1). repeat split; lia.
    + rewrite say_fst. apply Forall_app. split; [by repeat constructor|].
      destruct (rate_limited_text e); rewrite say_fst;
        (apply Forall_app; split; [by repeat constructor|]).
      * exact (IH (State (results st) (start st) (attempts st + 1))).
      * destruct (attempts st + 1 >? 3); [repeat constructor|].
        exact (IH (State (results st) (start st) (attempts st + 1))).
Qed.

(** C10.  In the streaming endpoint of [api/search.py] the page budget is
    [min(3, limit // 5 + 1)] for the clamped limit, whatever was asked for:
    every fetch is at cursor 1, 11 or 21 and within that budget, the number of
    different pages fetched is at most the budget and so at most 3, and no
    [progress] or [page_complete] event names a page beyond 21. *)
Theorem C10_api_page_budget
    (key q : str) (limit : Z) (exclude_keywords exclude_suffixes : str)
    (world : list Api.tick) :
  let max_pages := Z.min 3 (Z.max 1 (Z.min 100 limit) / 5 + 1) in
  let trace :=
    (Api.search_stream key q limit exclude_keywords exclude_suffixes world).1 in
  Forall (fun c => c ∈ [1; 11; 21] /\ c <= 1 + (max_pages - 1) * 10)
         (fetches trace)
  /\ (length (remove_dups (fetches trace)) <= Z.to_nat max_pages)%nat
  /\ (length (remove_dups (fetches trace)) <= 3)%nat
  /\ cursors_satisfy (fun c => c <= 21) trace.
Proof.
  intros max_pages trace.
  assert (1 <= max_pages <= 3) as Hmp.
  { unfold max_pages.
    assert (0 <= Z.max 1 (Z.min 100 limit) / 5) by (apply Z.div_pos; lia).
    lia. }
  assert (cursors_satisfy
            (fun c => exists k, 0 <= k /\ c = 1 + 10 * k
                                /\ c <= 1 + (max_pages - 1) * 10) trace) as Hc.
  { unfold trace, Api.search_stream. destruct key; [by repeat constructor|].
    rewrite say_fst. apply Forall_app. split; [by repeat constructor|].
    apply (api_loop_cursors q _ max_pages _ _ world (State [] 1 0)). }
  assert (forall c, c ∈ fetches trace ->
                    exists k, 0 <= k /\ c = 1 + 10 * k
                              /\ c <= 1 + (max_pages - 1) * 10) as Hf.
  { intros c Hin. apply elem_of_fetches in Hin.
    unfold cursors_satisfy in Hc. rewrite Forall_forall in Hc.
    apply (Hc (Fetch c)), Hin. }
  assert (forall c, c ∈ fetches trace ->
                    c ∈ map (fun k => 1 + 10 * Z.of_nat k)
                            (seq 0 (Z.to_nat max_pages))) as Hsub.
  { intros c Hin. destruct (Hf c Hin) as (k & Hk & -> & Hle).
    apply list_elem_of_fmap. exists (Z.to_nat k). split; [lia|].
    apply elem_of_seq. lia. }
  assert (length (remove_dups (fetches trace)) <= Z.to_nat max_pages)%nat
    as Hdistinct.
  { transitivity (length (map (fun k => 1 + 10 * Z.of_nat k)
                              (seq 0 (Z.to_nat max_pages)))).
    - apply submseteq_length, NoDup_submseteq; [apply NoDup_remove_dups|].
      intros c Hin. apply Hsub. by apply elem_of_remove_dups.
    - by rewrite length_map, length_seq. }
  split; [|split; [done|split; [lia|]]].
  - apply Forall_forall. intros c Hin.
    destruct (Hf c Hin) as (k & Hk & -> & Hle). split; [|done].
    assert (k = 0 \/ k = 1 \/ k = 2) as Hk3 by lia.
    destruct Hk3 as [Hk3|[Hk3|Hk3]]; subst k;
      [ apply (list_elem_of_here 1)
      | apply list_elem_of_further, (list_elem_of_here 11)
      | do 2 apply list_elem_of_further; apply (list_elem_of_here 21) ].
  - eapply Forall_impl; [apply Hc|]. simpl. intros ef Hef.
    destruct (cursor_of ef); [|done].
    destruct Hef as (k & ? & -> & ?). lia.
Qed.

(** A request for 100 titles, every page empty: three pages are fetched, and
    the loop ends when the variable [start] has gone on to 31. *)
Example api_three_pages :
  fetches (Api.search_stream (u "key") (u "q") 100 [] []
             (repeat (Api.Tick 0 (Page [])) 10)).1
  = [1; 11; 21]
  /\ (Api.search_stream (u "key") (u "q") 100 [] []
        (repeat (Api.Tick 0 (Page [])) 10)).2
     = Completed (State [] 31 0).
Proof. split; vm_compute; reflexivity. Qed.

(** ** Runs continue where they waited *)

Lemma say_nil {A B} (r : list A * B) : say [] r = r.
Proof. by destruct r. Qed.

Lemma say_say {A B} (a b : list A) (r : list A * B) :
  say a (say b r) = say (a ++ b) r.
Proof. unfold say. simpl. by rewrite app_assoc. Qed.

Lemma say_eq_inv {A B} (a tr : list A) (r : list A * B) (o : B) :
  say a r = (tr, o) -> exists tr', r = (tr', o) /\ tr = a ++ tr'.
Proof. destruct r as [tr' o']. unfold say. simpl. intros [= <- <-]. eauto. Qed.

(** If [collect_titles] waits in state [st] after [answers1], then with more
    answers it goes on from [st]. *)
Lemma cli_loop_app query limit max_pages (answers1 answers2 : list fetched) :
  forall st0 tr st,
    NewsScrp.loop query limit max_pages st0 answers1
    = (tr, NewsScrp.Awaiting st) ->
    NewsScrp.loop query limit max_pages st0 (answers1 ++ answers2)
    = say tr (NewsScrp.loop query limit max_pages st answers2).
Proof.
  induction answers1 as [|a answers1 IH]; intros st0 tr st.
  - simpl. destruct (_ && _) eqn:G; [|done]. intros [= <- <-].
    by rewrite say_nil.
  - rewrite <- app_comm_cons.
    unfold NewsScrp.loop at 1 2; fold NewsScrp.loop.
    destruct (_ && _) eqn:G; [|done].
    intros H. apply say_eq_inv in H as (tr1 & H & ->).
    rewrite <- say_say. f_equal.
    destruct a as [new_items|e].
    + apply say_eq_inv in H as (tr2 & H & ->).
      rewrite <- say_say. f_equal. by apply IH.
    + destruct (exn_kind e).
      * destruct (NewsScrp.rate_limited e); [|done].
        apply say_eq_inv in H as (tr2 & H & ->).
        rewrite <- say_say. f_equal. by apply IH.
      * apply say_eq_inv in H as (tr2 & H & ->).
        rewrite <- say_say. f_equal.
        destruct (attempts st0 + 1 >? 5); [done|]. by apply IH.
Qed.

Lemma web_loop_app q limit max_pages cks css (answers1 answers2 : list fetched) :
  forall st0 tr st,
    Web.loop q limit max_pages cks css st0 answers1 = (tr, Waiting st) ->
    Web.loop q limit max_pages cks css st0 (answers1 ++ answers2)
    = say tr (Web.loop q limit max_pages cks css st answers2).
Proof.
  induction answers1 as [|a answers1 IH]; intros st0 tr st.
  - simpl. destruct (_ && _) eqn:G; [|done]. intros [= <- <-].
    by rewrite say_nil.
  - rewrite <- app_comm_cons.
    unfold Web.loop at 1 2; fold Web.loop.
    destruct (_ && _) eqn:G; [|done].
    intros H. apply say_eq_inv in H as (tr1 & H & ->).
    rewrite <- say_say. f_equal.
    destruct a as [new_items|e].
    + apply say_eq_inv in H as (tr2 & H & ->).
      rewrite <- say_say. f_equal.
      apply say_eq_inv in H as (tr3 & H & ->).
      rewrite <- say_say. f_equal. by apply IH.
    + destruct (rate_limited_text e).
      * apply say_eq_inv in H as (tr2 & H & ->).
        rewrite <- say_say. f_equal. by apply IH.
      * apply say_eq_inv in H as (tr2 & H & ->).
        rewrite <- say_say. f_equal.
        destruct (attempts st0 + 1 >? 5); [done|]. by apply IH.
Qed.

Lemma api_loop_app q limit max_pages cks css (world1 world2 : list Api.tick) :
  forall st0 tr st,
    Api.loop q limit max_pages cks css st0 world1 = (tr, Waiting st) ->
    Api.loop q limit max_pages cks css st0 (world1 ++ world2)
    = say tr (Api.loop q limit max_pages cks css st world2).
Proof.
  induction world1 as [|w world1 IH]; intros st0 tr st.
  - simpl. destruct (_ && _) eqn:G; [|done]. intros [= <- <-].
    by rewrite say_nil.
  - rewrite <- app_comm_cons.
    unfold Api.loop at 1 2; fold Api.loop.
    destruct (_ && _) eqn:G; [|done].
    destruct (negb _); [done|].
    intros H. apply say_eq_inv in H as (tr1 & H & ->).
    rewrite <- say_say. f_equal.
    destruct (Api.answer w) as [new_items|e].
    + apply say_eq_inv in H as (tr2 & H & ->).
      rewrite <- say_say. f_equal.
      apply say_eq_inv in H as (tr3 & H & ->).
      rewrite <- say_say. f_equal. by apply IH.
    + apply say_eq_inv in H as (tr2 & H & ->).
      rewrite <- say_say. f_equal.
      destruct (rate_limited_text e).
      * apply say_eq_inv in H as (tr3 & H & ->).
        rewrite <- say_say. f_equal. by apply IH.
      * apply say_eq_inv in H as (tr3 & H & ->).
        rewrite <- say_say. f_equal.
        destruct (attempts st0 + 1 >? 3); [done|]. by apply IH.
Qed.

(** A run that waits stands at the top of the loop with the test passed. *)
Lemma api_loop_waiting q limit max_pages cks css (world : list Api.tick) :
  forall st0 st,
    (Api.loop q limit max_pages cks css st0 world).2 = Waiting st ->
    (len (results st) <? limit) && (start st <=? 1 + (max_pages - 1) * 10)
    = true.
Proof.
  induction world as [|w world IH]; intros st0 st; simpl.
  - destruct (_ && _) eqn:G; simpl; [|done]. by intros [= <-].
  - destruct (_ && _); simpl; [|done].
    destruct (negb _); [done|].
    destruct (Api.answer w) as [new_items|e].
    + rewrite ?say_snd. apply IH.
    + rewrite ?say_snd. destruct (rate_limited_text e); rewrite ?say_snd.
      * apply IH.
      * destruct (attempts st0 + 1 >? 3); [done | apply IH].
Qed.

(** ** C6: the time budget of [api/search.py] *)

Lemma over_budget (w : Api.tick) :
  (Api.timeout_limit < Api.elapsed w)%Q ->
  negb (Qle_bool (Api.elapsed w) Api.timeout_limit) = true.
Proof.
  intros H. apply negb_true_iff. apply not_true_is_false.
  rewrite Qle_bool_iff. by apply Qlt_not_le.
Qed.

(** The loop of [api/search.py] is entered at least once. *)
Lemma api_first_test (limit : Z) :
  let limit' := Z.max 1 (Z.min 100 limit) in
  (len (results (State [] 1 0)) <? limit')
  && (start (State [] 1 0) <=? 1 + (Z.min 3 (limit' / 5 + 1) - 1) * 10)
  = true.
Proof.
  intros limit'. simpl. change (len []) with 0.
  assert (0 <= limit' / 5) by (apply Z.div_pos; lia).
  apply andb_true_intro. split; [apply Z.ltb_lt | apply Z.leb_le]; lia.
Qed.

Lemma sleeps_app t1 t2 : sleeps (t1 ++ t2) = sleeps t1 ++ sleeps t2.
Proof.
  induction t1 as [|[e|s|d] t1 IH]; simpl; try done. by rewrite IH.
Qed.

Lemma cli_rate_limited_loop q limit max_pages (n : nat) :
  forall st,
    (len (results st) <? limit) && (start st <=? 1 + (max_pages - 1) * 10)
    = true ->
    (NewsScrp.loop q limit max_pages st (repeat rate_limit_answer n)).2
    = NewsScrp.Awaiting
        (State (results st) (start st) (attempts st + Z.of_nat n))
    /\ fetches (NewsScrp.loop q limit max_pages st
                  (repeat rate_limit_answer n)).1
       = repeat (start st) n.
Proof.
  assert (forall st rest,
             (len (results st) <? limit)
             && (start st <=? 1 + (max_pages - 1) * 10) = true ->
             NewsScrp.loop q limit max_pages st (rate_limit_answer :: rest)
             = say [Fetch (start st)]
                 (say [Sleep (inject_Z (Z.min 10 (2 + attempts st * 2)))]
                    (NewsScrp.loop q limit max_pages
                       (State (results st) (start st) (attempts st + 1))
                       rest))) as Hstep.
  { intros st rest G. unfold NewsScrp.loop; fold NewsScrp.loop.
    rewrite G. reflexivity. }
  induction n as [|n IH]; intros st G; simpl repeat.
  - unfold NewsScrp.loop. rewrite G. simpl. rewrite Z.add_0_r.
    by destruct st.
  - rewrite (Hstep st _ G), !say_snd, !say_fst, !fetches_app.
    destruct (IH (State (results st) (start st) (attempts st + 1)) G)
      as [E1 E2].
    rewrite E1, E2. simpl. split; [|done]. do 2 f_equal. lia.
Qed.

Lemma cli_rate_limited_slept q limit max_pages (n : nat) :
  forall st,
    0 <= attempts st ->
    (len (results st) <? limit) && (start st <=? 1 + (max_pages - 1) * 10)
    = true ->
    (inject_Z (2 * Z.of_nat n)
     <= slept (NewsScrp.loop q limit max_pages st
                 (repeat rate_limit_answer n)).1)%Q.
Proof.
  induction n as [|n IH]; intros st Ha G; simpl repeat.
  - unfold NewsScrp.loop. rewrite G. apply Qle_refl.
  - unfold NewsScrp.loop; fold NewsScrp.loop. rewrite G.
    change (exn_kind (Exn RuntimeError (u "RATE_LIMIT"))) with RuntimeError.
    change (NewsScrp.rate_limited (Exn RuntimeError (u "RATE_LIMIT")))
      with true.
    cbv iota. rewrite !say_fst. unfold slept.
    change (sleeps ([Fetch (start st)] ++ ?a ++ ?b))
      with (sleeps (a ++ b)).
    rewrite sleeps_app. simpl sleeps. simpl fold_right.
    fold (slept (NewsScrp.loop q limit max_pages
                   (State (results st) (start st) (attempts st + 1))
                   (repeat rate_limit_answer n)).1).
    replace (2 * Z.of_nat (S n)) with (2 + 2 * Z.of_nat n) by lia.
    rewrite inject_Z_plus. apply Qplus_le_compat.
    + rewrite <- Zle_Qle. lia.
    + apply IH; [simpl; lia | exact G].
Qed.

(** C6, as the code has it.  In the streaming endpoint of [api/search.py]
    (the one collector that has a time budget, 120 seconds read off the clock
    by the loop itself): whenever the run stands at the top of the loop, in
    state [st] after the effects [tr], and the clock shows more than the
    budget, the run yields [timeout] and then [complete] with the number of
    results accumulated, and that is all: no fetch, no sleep, the state
    unchanged.  When the budget is exceeded at the very first test the stream
    is [debug], [start], [timeout], [complete] with total 0.
    [collect_titles] of [newsScrp.py] has no time budget: it reads no clock,
    and after any number [n] of rate-limited answers, which took at least
    [2 * n] seconds of sleep, it has neither returned nor given up and is
    about to fetch page 1 again. *)
Theorem C6_api_time_budget
    (key q : str) (limit : Z) (exclude_keywords exclude_suffixes : str)
    (world1 : list Api.tick) (w : Api.tick) (world2 : list Api.tick)
    (tr : list effect) (st : state) (max_pages : Z) (n : nat) :
  ((Api.timeout_limit < Api.elapsed w)%Q ->
   (Api.search_stream key q limit exclude_keywords exclude_suffixes world1
    = (tr, Waiting st) ->
    Api.search_stream key q limit exclude_keywords exclude_suffixes
      (world1 ++ w :: world2)
    = (tr ++ [Yield EvTimeout; Yield (EvComplete (len (results st)))],
       Completed st)
    /\ fetches (tr ++ [Yield EvTimeout; Yield (EvComplete (len (results st)))])
       = fetches tr)
   /\ (key <> [] ->
       Api.search_stream key q limit exclude_keywords exclude_suffixes
         (w :: world2)
       = ([Yield EvDebug; Yield (EvStart q (Z.max 1 (Z.min 100 limit)));
           Yield EvTimeout; Yield (EvComplete 0)],
          Completed (State [] 1 0))))
  /\ (key <> [] -> 0 < limit -> 1 <= max_pages ->
      (NewsScrp.collect_titles key q limit max_pages
         (repeat rate_limit_answer n)).2
      = NewsScrp.Awaiting (State [] 1 (Z.of_nat n))
      /\ fetches (NewsScrp.collect_titles key q limit max_pages
                    (repeat rate_limit_answer n)).1
         = repeat 1 n
      /\ (inject_Z (2 * Z.of_nat n)
          <= slept (NewsScrp.collect_titles key q limit max_pages
                      (repeat rate_limit_answer n)).1)%Q).
Proof.
  split.
  - intros Hover. apply over_budget in Hover. split.
    + unfold Api.search_stream. destruct key; [done|]. intros H.
      apply say_eq_inv in H as (tr' & H & ->).
      split; [|by rewrite fetches_app, app_nil_r].
      rewrite (api_loop_app _ _ _ _ _ _ _ _ _ _ H), say_say.
      assert (G := f_equal snd H). simpl in G. apply api_loop_waiting in G.
      unfold Api.loop; fold Api.loop. rewrite G, Hover.
      reflexivity.
    + intros Hkey. unfold Api.search_stream. destruct key; [done|].
      unfold Api.loop; fold Api.loop.
      rewrite (api_first_test limit), Hover. reflexivity.
  - intros Hkey Hl Hp. unfold NewsScrp.collect_titles. destruct key; [done|].
    assert ((len (results (State [] 1 0)) <? limit)
            && (start (State [] 1 0) <=? 1 + (max_pages - 1) * 10) = true)
      as G.
    { simpl. change (len []) with 0.
      apply andb_true_intro. split; [apply Z.ltb_lt | apply Z.leb_le]; lia. }
    destruct (cli_rate_limited_loop q limit max_pages n (State [] 1 0) G)
      as [E1 E2].
    split; [exact E1|]. split; [exact E2|].
    apply cli_rate_limited_slept; [simpl; lia | exact G].
Qed.

Lemma C6_api_time_budget_witness :
  ((Api.timeout_limit < Api.elapsed (Api.Tick (121 # 1) (Page sample_page)))%Q
   /\ u "key" <> []
   /\ Api.search_stream (u "key") (u "q") 10 [] []
        [Api.Tick (121 # 1) (Page sample_page)]
      = ([Yield EvDebug; Yield (EvStart (u "q") (Z.max 1 (Z.min 100 10)));
          Yield EvTimeout; Yield (EvComplete 0)],
         Completed (State [] 1 0))
   /\ Api.search_stream (u "key") (u "q") 10 [] [] [Api.Tick 3 (Page [])]
      = ([Yield EvDebug; Yield (EvStart (u "q") 10);
          Yield (EvProgress 0 10 1); Yield EvDebug; Fetch 1; Yield EvDebug;
          Yield (EvPageComplete 1 0 0); Sleep (2 # 10)],
         Waiting (State [] 11 0))
   /\ Api.search_stream (u "key") (u "q") 10 [] []
        ([Api.Tick 3 (Page [])]
         ++ Api.Tick (121 # 1) (Page sample_page) :: [])
      = ([Yield EvDebug; Yield (EvStart (u "q") 10);
          Yield (EvProgress 0 10 1); Yield EvDebug; Fetch 1; Yield EvDebug;
          Yield (EvPageComplete 1 0 0); Sleep (2 # 10)]
         ++ [Yield EvTimeout;
             Yield (EvComplete (len (results (State [] 11 0))))],
         Completed (State [] 11 0)))
  /\ (0 < 10 /\ 1 <= 300
      /\ (NewsScrp.collect_titles (u "key") (u "q") 10 300
            (repeat rate_limit_answer 61)).2
         = NewsScrp.Awaiting (State [] 1 (Z.of_nat 61))
      /\ (inject_Z (2 * Z.of_nat 61)
          <= slept (NewsScrp.collect_titles (u "key") (u "q") 10 300
                      (repeat rate_limit_answer 61)).1)%Q
      /\ (Api.timeout_limit < inject_Z (2 * Z.of_nat 61))%Q).
Proof.
  assert (Api.timeout_limit
          < Api.elapsed (Api.Tick (121 # 1) (Page sample_page)))%Q as H
    by reflexivity.
  assert (u "key" <> []) as K by discriminate.
  assert (Api.search_stream (u "key") (u "q") 10 [] [] [Api.Tick 3 (Page [])]
          = ([Yield EvDebug; Yield (EvStart (u "q") 10);
              Yield (EvProgress 0 10 1); Yield EvDebug; Fetch 1; Yield EvDebug;
              Yield (EvPageComplete 1 0 0); Sleep (2 # 10)],
             Waiting (State [] 11 0))) as W by (vm_compute; reflexivity).
  assert (0 < 10) as L by lia.
  assert (1 <= 300) as P by lia.
  pose proof (C6_api_time_budget (u "key") (u "q") 10 [] []
                [Api.Tick 3 (Page [])]
                (Api.Tick (121 # 1) (Page sample_page)) []
                [Yield EvDebug; Yield (EvStart (u "q") 10);
                 Yield (EvProgress 0 10 1); Yield EvDebug; Fetch 1;
                 Yield EvDebug; Yield (EvPageComplete 1 0 0); Sleep (2 # 10)]
                (State [] 11 0) 300 61%nat) as T.
  destruct T as (T & C). destruct (T H) as (T1 & T2).
  destruct (C K L P) as (C1 & _ & C3).
  split.
  - split; [exact H|]. split; [exact K|].
    split; [exact (T2 K)|]. split; [exact W|]. exact (proj1 (T1 W)).
  - split; [exact L|]. split; [exact P|]. split; [exact C1|].
    split; [exact C3|]. reflexivity.
Defined.

(** [collect_titles] under a rate limit that lasts: after nineteen
    rate-limited answers it has slept 170 seconds, more than the budget of
    [api/search.py], and on the twentieth it fetches page 1 once more and
    sleeps another ten seconds; there is no [timeout], no return and no
    result. *)
Lemma C6_cli_has_no_time_budget :
  (Api.timeout_limit
   < slept (NewsScrp.collect_titles (u "key") (u "q") 10 300
              (repeat rate_limit_answer 19)).1)%Q
  /\ (NewsScrp.collect_titles (u "key") (u "q") 10 300
        (repeat rate_limit_answer 20)).1
     = (NewsScrp.collect_titles (u "key") (u "q") 10 300
          (repeat rate_limit_answer 19)).1
       ++ [Fetch 1; Sleep (inject_Z 10)]
  /\ (NewsScrp.collect_titles (u "key") (u "q") 10 300
        (repeat rate_limit_answer 20)).2
     = NewsScrp.Awaiting (State [] 1 20).
Proof.
  split; [|split]; vm_compute; reflexivity.
Qed.

(** The budget running out after one page: the two items already streamed
    stay, [timeout] and [complete] follow, and the second page is not
    fetched. *)
Example api_timeout_after_one_page :
  Api.search_stream (u "key") (u "q") 10 [] []
    [Api.Tick (3 # 1) (Page [(u "alpha beta", u "http://a")]);
     Api.Tick (1205 # 10) (Page sample_page)]
  = ([Yield EvDebug; Yield (EvStart (u "q") 10);
      Yield (EvProgress 0 10 1); Yield EvDebug; Fetch 1; Yield EvDebug;
      Yield (EvItem (Item (u "alpha beta") (u "http://a")) 1);
      Yield (EvPageComplete 1 1 1); Sleep (2 # 10);
      Yield EvTimeout; Yield (EvComplete 1)],
     Completed (State [Item (u "alpha beta") (u "http://a")] 11 0)).
Proof. vm_compute. reflexivity. Qed.

(** ** C5: a fetch that fails for another reason than the rate limit *)

Lemma cli_loop_waiting query limit max_pages (answers : list fetched) :
  forall st0 st,
    (NewsScrp.loop query limit max_pages st0 answers).2 = NewsScrp.Awaiting st ->
    (len (results st) <? limit) && (start st <=? 1 + (max_pages - 1) * 10)
    = true.
Proof.
  induction answers as [|a answers IH]; intros st0 st; simpl.
  - destruct (_ && _) eqn:G; simpl; [|done]. by intros [= <-].
  - destruct (_ && _); simpl; [|done].
    destruct a as [new_items|e].
    + rewrite ?say_snd. apply IH.
    + destruct (exn_kind e).
      * destruct (NewsScrp.rate_limited e); [|done]. rewrite ?say_snd. apply IH.
      * rewrite ?say_snd. destruct (attempts st0 + 1 >? 5); [done | apply IH].
Qed.

Lemma web_loop_waiting q limit max_pages cks css (answers : list fetched) :
  forall st0 st,
    (Web.loop q limit max_pages cks css st0 answers).2 = Waiting st ->
    (len (results st) <? limit) && (start st <=? 1 + (max_pages - 1) * 10)
    = true.
Proof.
  induction answers as [|a answers IH]; intros st0 st; simpl.
  - destruct (_ && _) eqn:G; simpl; [|done]. by intros [= <-].
  - destruct (_ && _); simpl; [|done].
    destruct a as [new_items|e].
    + rewrite ?say_snd. apply IH.
    + destruct (rate_limited_text e); rewrite ?say_snd.
      * apply IH.
      * destruct (attempts st0 + 1 >? 5); [done | apply IH].
Qed.

(** The stream of [web/server.py] ends with [complete] only when the loop test
    fails or the failure counter has passed 5. *)
Lemma web_loop_completed q limit max_pages cks css (answers : list fetched) :
  forall st0 st,
    (Web.loop q limit max_pages cks css st0 answers).2 = Completed st ->
    (len (results st) <? limit) && (start st <=? 1 + (max_pages - 1) * 10)
    = false
    \/ 5 < attempts st.
Proof.
  induction answers as [|a answers IH]; intros st0 st; simpl.
  - destruct (_ && _) eqn:G; simpl; [done|]. intros [= <-]. by left.
  - destruct (_ && _) eqn:G; simpl; [|intros [= <-]; by left].
    destruct a as [new_items|e].
    + rewrite ?say_snd. apply IH.
    + destruct (rate_limited_text e); rewrite ?say_snd.
      * apply IH.
      * destruct (attempts st0 + 1 >? 5) eqn:A; [|apply IH].
        intros [= <-]. right. simpl. by apply Z.gtb_lt in A.
Qed.

(** C5, as the code has it.  In the two streaming endpoints every exception
    of a fetch whose text does not contain [RATE_LIMIT] takes this path: the
    stream sleeps a fixed time (2 s in [web/server.py], 1 s in
    [api/search.py]) and adds one to [attempts] (the counter the rate-limit
    path also uses); if the counter is then above the bound (5 and 3) the
    loop is left and [complete] is yielded with the number of results
    accumulated, the results kept; the stream of [web/server.py] ends with
    [complete] only in that way or when the loop test fails.
    [collect_titles] of [newsScrp.py] takes the path only for an exception
    that is no [RuntimeError]: it sleeps 2 s, adds one to [attempts], and
    once the counter is above 5 lets the exception through and returns
    nothing.  A [RuntimeError] other than [RATE_LIMIT] it lets through at
    once, with no sleep and no count. *)
Theorem C5_transient_failure
    (key q : str) (limit max_pages : Z)
    (exclude_keywords exclude_suffixes : str)
    (answers1 answers2 : list fetched) (e : exn)
    (world1 world2 : list Api.tick) (t : Q)
    (tr : list effect) (st : state) :
  let failed := State (results st) (start st) (attempts st + 1) in
  let limit' := Z.max 1 (Z.min 100 limit) in
  let cks := comma_list exclude_keywords in
  let css := comma_list exclude_suffixes in
  (rate_limited_text e = false ->
   Web.search_stream key q limit exclude_keywords exclude_suffixes answers1
   = (tr, Waiting st) ->
   Web.search_stream key q limit exclude_keywords exclude_suffixes
     (answers1 ++ Raised e :: answers2)
   = say (tr ++ [Yield (EvProgress (len (results st)) limit' (start st));
                 Fetch (start st); Yield (EvError (exn_msg e)); Sleep 2])
       (if attempts st + 1 >? 5
        then ([Yield (EvComplete (len (results st)))], Completed failed)
        else Web.loop q limit' 300 cks css failed answers2))
  /\ (forall answers st',
         (Web.search_stream key q limit exclude_keywords exclude_suffixes
            answers).2 = Completed st' ->
         (len (results st') <? limit')
         && (start st' <=? 1 + (300 - 1) * 10) = false
         \/ 5 < attempts st')
  /\ (rate_limited_text e = false ->
      (t <= Api.timeout_limit)%Q ->
      Api.search_stream key q limit exclude_keywords exclude_suffixes world1
      = (tr, Waiting st) ->
      Api.search_stream key q limit exclude_keywords exclude_suffixes
        (world1 ++ Api.Tick t (Raised e) :: world2)
      = say (tr ++ [Yield (EvProgress (len (results st)) limit' (start st));
                    Yield EvDebug; Fetch (start st); Yield EvDebug;
                    Yield (EvError (exn_msg e)); Sleep 1])
          (if attempts st + 1 >? 3
           then ([Yield (EvComplete (len (results st)))], Completed failed)
           else Api.loop q limit' (Z.min 3 (limit' / 5 + 1)) cks css failed
                  world2))
  /\ (exn_kind e = OtherException ->
      NewsScrp.collect_titles key q limit max_pages answers1
      = (tr, NewsScrp.Awaiting st) ->
      NewsScrp.collect_titles key q limit max_pages
        (answers1 ++ Raised e :: answers2)
      = say (tr ++ [Fetch (start st); Sleep 2])
          (if attempts st + 1 >? 5
           then ([], NewsScrp.Propagated e)
           else NewsScrp.loop q limit max_pages failed answers2))
  /\ (exn_kind e = RuntimeError -> NewsScrp.rate_limited e = false ->
      NewsScrp.collect_titles key q limit max_pages answers1
      = (tr, NewsScrp.Awaiting st) ->
      NewsScrp.collect_titles key q limit max_pages
        (answers1 ++ Raised e :: answers2)
      = (tr ++ [Fetch (start st)], NewsScrp.Propagated e)).
Proof.
  intros failed limit' cks css.
  split; [|split; [|split; [|split]]].
  - intros Hrl. unfold Web.search_stream. destruct key; [done|]. intros H.
    apply say_eq_inv in H as (tr' & H & ->).
    assert (G := f_equal snd H). simpl in G. apply web_loop_waiting in G.
    rewrite (web_loop_app _ _ _ _ _ _ _ _ _ _ H).
    unfold Web.loop; fold Web.loop. rewrite G, Hrl.
    rewrite !say_say. f_equal. by rewrite <- !app_assoc.
  - intros answers st'. unfold Web.search_stream. destruct key; [done|].
    rewrite say_snd. apply web_loop_completed.
  - intros Hrl Ht. unfold Api.search_stream. destruct key; [done|]. intros H.
    apply say_eq_inv in H as (tr' & H & ->).
    assert (G := f_equal snd H). simpl in G. apply api_loop_waiting in G.
    rewrite (api_loop_app _ _ _ _ _ _ _ _ _ _ H).
    unfold Api.loop; fold Api.loop. rewrite G. simpl Api.elapsed.
    apply Qle_bool_iff in Ht. rewrite Ht. simpl negb. cbv iota.
    simpl Api.answer. cbv iota. rewrite Hrl.
    rewrite !say_say. f_equal. by rewrite <- !app_assoc.
  - intros Hk. unfold NewsScrp.collect_titles. destruct key; [done|]. intros H.
    assert (G := f_equal snd H). simpl in G. apply cli_loop_waiting in G.
    rewrite (cli_loop_app _ _ _ _ _ _ _ _ H).
    unfold NewsScrp.loop; fold NewsScrp.loop. rewrite G, Hk.
    rewrite !say_say. f_equal. by rewrite <- !app_assoc.
  - intros Hk Hrl. unfold NewsScrp.collect_titles. destruct key; [done|].
    intros H.
    assert (G := f_equal snd H). simpl in G. apply cli_loop_waiting in G.
    rewrite (cli_loop_app _ _ _ _ _ _ _ _ H).
    unfold NewsScrp.loop; fold NewsScrp.loop. rewrite G, Hk, Hrl.
    unfold say. simpl. reflexivity.
Qed.

Lemma C5_transient_failure_witness :
  (exn_kind boom = OtherException
   /\ NewsScrp.collect_titles (u "key") (u "q") 50 300
        (Page sample_page :: repeat (Raised boom) 5)
      = ((NewsScrp.collect_titles (u "key") (u "q") 50 300
            (Page sample_page :: repeat (Raised boom) 5)).1,
         NewsScrp.Awaiting (State sample_results 11 5))
   /\ (NewsScrp.collect_titles (u "key") (u "q") 50 300
         ((Page sample_page :: repeat (Raised boom) 5)
          ++ Raised boom :: [])).2
      = NewsScrp.Propagated boom)
  /\ (exn_kind bad = RuntimeError
      /\ NewsScrp.rate_limited bad = false
      /\ NewsScrp.collect_titles (u "key") (u "q") 50 300 [Page sample_page]
         = ([Fetch 1; Sleep (9 # 10)],
            NewsScrp.Awaiting (State sample_results 11 0))
      /\ NewsScrp.collect_titles (u "key") (u "q") 50 300
           ([Page sample_page] ++ Raised bad :: [])
         = ([Fetch 1; Sleep (9 # 10)] ++ [Fetch 11], NewsScrp.Propagated bad))
  /\ (rate_limited_text boom = false
      /\ Web.search_stream (u "key") (u "q") 50 [] []
           (Page sample_page :: repeat (Raised boom) 5)
         = ((Web.search_stream (u "key") (u "q") 50 [] []
               (Page sample_page :: repeat (Raised boom) 5)).1,
            Waiting (State sample_results 11 5))
      /\ (Web.search_stream (u "key") (u "q") 50 [] []
            ((Page sample_page :: repeat (Raised boom) 5)
             ++ Raised boom :: [])).2
         = Completed (State sample_results 11 6)
      /\ last (Web.search_stream (u "key") (u "q") 50 [] []
                 ((Page sample_page :: repeat (Raised boom) 5)
                  ++ Raised boom :: [])).1
         = Some (Yield (EvComplete 3)))
  /\ ((1 <= Api.timeout_limit)%Q
      /\ Api.search_stream (u "key") (u "q") 50 [] []
           (Api.Tick 1 (Page sample_page)
            :: repeat (Api.Tick 1 (Raised boom)) 3)
         = ((Api.search_stream (u "key") (u "q") 50 [] []
               (Api.Tick 1 (Page sample_page)
                :: repeat (Api.Tick 1 (Raised boom)) 3)).1,
            Waiting (State sample_results 11 3))
      /\ (Api.search_stream (u "key") (u "q") 50 [] []
            ((Api.Tick 1 (Page sample_page)
              :: repeat (Api.Tick 1 (Raised boom)) 3)
             ++ Api.Tick 1 (Raised boom) :: [])).2
         = Completed (State sample_results 11 4)
      /\ last (Api.search_stream (u "key") (u "q") 50 [] []
                 ((Api.Tick 1 (Page sample_page)
                   :: repeat (Api.Tick 1 (Raised boom)) 3)
                  ++ Api.Tick 1 (Raised boom) :: [])).1
         = Some (Yield (EvComplete 3))).
Proof.
  assert (exn_kind boom = OtherException) as K by reflexivity.
  assert (NewsScrp.collect_titles (u "key") (u "q") 50 300
            (Page sample_page :: repeat (Raised boom) 5)
          = ((NewsScrp.collect_titles (u "key") (u "q") 50 300
                (Page sample_page :: repeat (Raised boom) 5)).1,
             NewsScrp.Awaiting (State sample_results 11 5))) as R
    by (vm_compute; reflexivity).
  assert (exn_kind bad = RuntimeError) as K' by reflexivity.
  assert (NewsScrp.rate_limited bad = false) as L' by (vm_compute; reflexivity).
  assert (NewsScrp.collect_titles (u "key") (u "q") 50 300 [Page sample_page]
          = ([Fetch 1; Sleep (9 # 10)],
             NewsScrp.Awaiting (State sample_results 11 0))) as R'
    by (vm_compute; reflexivity).
  assert (rate_limited_text boom = false) as L by (vm_compute; reflexivity).
  assert (Web.search_stream (u "key") (u "q") 50 [] []
            (Page sample_page :: repeat (Raised boom) 5)
          = ((Web.search_stream (u "key") (u "q") 50 [] []
                (Page sample_page :: repeat (Raised boom) 5)).1,
             Waiting (State sample_results 11 5))) as W
    by (vm_compute; reflexivity).
  assert (1 <= Api.timeout_limit)%Q as B by (vm_compute; discriminate).
  assert (Api.search_stream (u "key") (u "q") 50 [] []
            (Api.Tick 1 (Page sample_page)
             :: repeat (Api.Tick 1 (Raised boom)) 3)
          = ((Api.search_stream (u "key") (u "q") 50 [] []
                (Api.Tick 1 (Page sample_page)
                 :: repeat (Api.Tick 1 (Raised boom)) 3)).1,
             Waiting (State sample_results 11 3))) as A
    by (vm_compute; reflexivity).
  split; [|split; [|split]].
  - split; [exact K|]. split; [exact R|].
    pose proof (C5_transient_failure (u "key") (u "q") 50 300 [] []
                  (Page sample_page :: repeat (Raised boom) 5) []
                  boom [] [] 0
                  (NewsScrp.collect_titles (u "key") (u "q") 50 300
                     (Page sample_page :: repeat (Raised boom) 5)).1
                  (State sample_results 11 5)) as T.
    destruct T as (_ & _ & _ & T & _). rewrite (T K R).
    vm_compute. reflexivity.
  - split; [exact K'|]. split; [exact L'|]. split; [exact R'|].
    pose proof (C5_transient_failure (u "key") (u "q") 50 300 [] []
                  [Page sample_page] [] bad [] [] 0
                  [Fetch 1; Sleep (9 # 10)]
                  (State sample_results 11 0)) as T.
    destruct T as (_ & _ & _ & _ & T). exact (T K' L' R').
  - split; [exact L|]. split; [exact W|].
    pose proof (C5_transient_failure (u "key") (u "q") 50 300 [] []
                  (Page sample_page :: repeat (Raised boom) 5) []
                  boom [] [] 0
                  (Web.search_stream (u "key") (u "q") 50 [] []
                     (Page sample_page :: repeat (Raised boom) 5)).1
                  (State sample_results 11 5)) as T.
    destruct T as (T & _). rewrite (T L W).
    split; vm_compute; reflexivity.
  - split; [exact B|]. split; [exact A|].
    pose proof (C5_transient_failure (u "key") (u "q") 50 300 [] []
                  [] [] boom
                  (Api.Tick 1 (Page sample_page)
                   :: repeat (Api.Tick 1 (Raised boom)) 3) []
                  1
                  (Api.search_stream (u "key") (u "q") 50 [] []
                     (Api.Tick 1 (Page sample_page)
                      :: repeat (Api.Tick 1 (Raised boom)) 3)).1
                  (State sample_results 11 3)) as T.
    destruct T as (_ & _ & T & _). rewrite (T L B A).
    split; vm_compute; reflexivity.
Defined.

(** The command-line collector with three titles collected and then six
    failed fetches in a row: the exception comes out and the three titles are
    not returned. *)
Lemma C5_cli_discards_partial_results :
  (NewsScrp.collect_titles (u "key") (u "q") 50 300 [Page sample_page]).2
  = NewsScrp.Awaiting
      (State [Item (u "alpha beta gamma one") (u "http://a");
              Item (u "delta epsilon zeta") (u "http://b");
              Item (u "eta theta iota") (u "http://e")] 11 0)
  /\ (NewsScrp.collect_titles (u "key") (u "q") 50 300
        (Page sample_page
         :: repeat (Raised (Exn OtherException (u "boom"))) 6)).2
     = NewsScrp.Propagated (Exn OtherException (u "boom"))
  /\ cli_results
       (NewsScrp.collect_titles (u "key") (u "q") 50 300
          (Page sample_page
           :: repeat (Raised (Exn OtherException (u "boom"))) 6)).2
     = None.
Proof. repeat split; vm_compute; reflexivity. Qed.

(** The same answers given to the stream of [web/server.py]: it ends with
    [complete], total 3. *)
Example web_keeps_partial_results :
  last (Web.search_stream (u "key") (u "q") 50 [] []
          (Page sample_page
           :: repeat (Raised (Exn OtherException (u "boom"))) 6)).1
  = Some (Yield (EvComplete 3)).
Proof. vm_compute. reflexivity. Qed.

(** ** C4: how a fetch is classified *)

Lemma starts_with_app (p s : str) : starts_with (p ++ s) p = true.
Proof.
  induction p as [|c p IH]; simpl; [by destruct s|].
  by rewrite Z.eqb_refl, IH.
Qed.

Lemma contains_prefix (p s : str) : contains (p ++ s) p = true.
Proof.
  pose proof (starts_with_app p s) as H.
  destruct (p ++ s); simpl in *; by rewrite H.
Qed.

Lemma get_raises v k default e :
  get v k default = inr e -> exn_kind e = OtherException.
Proof. destruct v; simpl; intros [= <-]; done. Qed.

Lemma decode_raises r e : decode r = inr e -> exn_kind e = OtherException.
Proof. unfold decode. destruct (json_body r); intros [= <-]; done. Qed.

Lemma raise_for_status_raises r e :
  raise_for_status r = Some e -> exn_kind e = OtherException.
Proof.
  unfold raise_for_status.
  destruct (_ && _); [by intros [= <-]|].
  destruct (_ && _); [by intros [= <-]|]. done.
Qed.

Lemma raise_for_status_200 r : status_code r = 200 -> raise_for_status r = None.
Proof. unfold raise_for_status. intros ->. reflexivity. Qed.

(** C4, as the code has it.  Both scrape functions return, for a 200 whose
    body is a JSON object with an object (or nothing) under [data], the [html]
    entry of that object, and the empty string when there is none (the one of
    [newsScrp.py] then also looks for [html] at the top of the body).  They
    differ on what counts as a rate limit.  In [api/search.py] a response
    that is not a 200 raises an exception whose text starts with [RATE_LIMIT]
    when the text [HTTP <status>: <body>] contains "rate limit" in any
    letter case, and raises that text unchanged otherwise; the status 429 is
    not looked at.  In [newsScrp.py] exactly the status 429 raises the
    [RuntimeError] that [collect_titles] takes for a rate limit; the text of
    the response is not looked at. *)
Theorem C4_fetch_classification
    (r : response) (top d : list (str * json)) (p : posted) (e : exn) :
  (status_code r = 200 -> json_body r = inl (JDict top) ->
   assoc (u "data") top = Some (JDict d) ->
   Api.firecrawl_scrape (Answered r) = inl (entry (u "html") d (JStr []))
   /\ NewsScrp.firecrawl_scrape (Answered r)
      = inl (if truthy (entry (u "html") d JNull)
             then entry (u "html") d JNull
             else entry (u "html") top (JStr [])))
  /\ (status_code r = 200 -> json_body r = inl (JDict top) ->
      assoc (u "data") top = None ->
      Api.firecrawl_scrape (Answered r) = inl (JStr [])
      /\ NewsScrp.firecrawl_scrape (Answered r)
         = inl (entry (u "html") top (JStr [])))
  /\ (status_code r <> 200 ->
      Api.firecrawl_scrape (Answered r)
      = inr (Exn OtherException
               (if contains (lower (api_error_msg r)) (u "rate limit")
                then u "RATE_LIMIT: " ++ api_error_msg r
                else api_error_msg r))
      /\ (contains (lower (api_error_msg r)) (u "rate limit") = true ->
          forall e',
            Api.firecrawl_scrape (Answered r) = inr e' ->
            rate_limited_text e' = true))
  /\ (status_code r = 429 ->
      NewsScrp.firecrawl_scrape (Answered r)
      = inr (Exn RuntimeError (u "RATE_LIMIT"))
      /\ NewsScrp.rate_limited (Exn RuntimeError (u "RATE_LIMIT")) = true)
  /\ (NewsScrp.firecrawl_scrape p = inr e ->
      (NewsScrp.rate_limited e = true
       <-> exists r', p = Answered r' /\ status_code r' = 429)).
Proof.
  split; [|split; [|split; [|split]]].
  - intros Hs Hb Hd. unfold Api.firecrawl_scrape, NewsScrp.firecrawl_scrape.
    rewrite Hs, (raise_for_status_200 r Hs). simpl.
    unfold decode, entry. rewrite Hb. simpl. rewrite Hd. simpl.
    split; [done|]. by destruct (truthy _).
  - intros Hs Hb Hd. unfold Api.firecrawl_scrape, NewsScrp.firecrawl_scrape.
    rewrite Hs, (raise_for_status_200 r Hs). simpl.
    unfold decode, entry. rewrite Hb. simpl. rewrite Hd. simpl. done.
  - intros Hs. unfold Api.firecrawl_scrape.
    apply Z.eqb_neq in Hs. rewrite Hs. fold (api_error_msg r).
    split; [by destruct (contains _ _)|].
    intros Hc e'. rewrite Hc. intros [= <-].
    change (contains (u "RATE_LIMIT" ++ (u ": " ++ api_error_msg r))
              (u "RATE_LIMIT") = true).
    apply contains_prefix.
  - intros Hs. unfold NewsScrp.firecrawl_scrape. rewrite Hs. done.
  - unfold NewsScrp.firecrawl_scrape. destruct p as [r'|detail].
    2:{ intros [= <-]. split; [done|]. by intros (r' & [=] & _). }
    destruct (status_code r' =? 429) eqn:Hs.
    { intros [= <-]. apply Z.eqb_eq in Hs. split; [|done]. eauto. }
    apply Z.eqb_neq in Hs. intros He.
    assert (exn_kind e = OtherException) as Hk.
    { destruct (raise_for_status r') eqn:R.
      { injection He as <-. by eapply raise_for_status_raises. }
      destruct (decode r') eqn:D.
      2:{ injection He as <-. by eapply decode_raises. }
      destruct (get j (u "data") (JDict [])) eqn:G1.
      2:{ injection He as <-. by eapply get_raises. }
      destruct (get j0 (u "html") JNull) eqn:G2.
      2:{ injection He as <-. by eapply get_raises. }
      destruct (truthy j1); [done|]. by eapply get_raises. }
    unfold NewsScrp.rate_limited. rewrite Hk. split; [done|].
    intros (r'' & [= <-] & ?). done.
Qed.

Lemma C4_fetch_classification_witness :
  (status_code (Response 429 (u "Too Many Requests") (u "slow down")
                  (inr (u "Expecting value"))) = 429
   /\ NewsScrp.firecrawl_scrape
        (Answered (Response 429 (u "Too Many Requests") (u "slow down")
                     (inr (u "Expecting value"))))
      = inr (Exn RuntimeError (u "RATE_LIMIT")))
  /\ (status_code (Response 200 (u "OK") []
                     (inl (JDict [(u "data", JDict [])]))) = 200
      /\ json_body (Response 200 (u "OK") []
                      (inl (JDict [(u "data", JDict [])])))
         = inl (JDict [(u "data", JDict [])])
      /\ assoc (u "data") [(u "data", JDict [])] = Some (JDict [])
      /\ Api.firecrawl_scrape
           (Answered (Response 200 (u "OK") []
                        (inl (JDict [(u "data", JDict [])]))))
         = inl (entry (u "html") [] (JStr []))).
Proof.
  assert (status_code (Response 429 (u "Too Many Requests") (u "slow down")
                         (inr (u "Expecting value"))) = 429) as H
    by reflexivity.
  assert (status_code (Response 200 (u "OK") []
                         (inl (JDict [(u "data", JDict [])]))) = 200) as S
    by reflexivity.
  assert (json_body (Response 200 (u "OK") []
                       (inl (JDict [(u "data", JDict [])])))
          = inl (JDict [(u "data", JDict [])])) as B by reflexivity.
  assert (assoc (u "data") [(u "data", JDict [])] = Some (JDict [])) as D
    by (vm_compute; reflexivity).
  split.
  - split; [exact H|].
    pose proof (C4_fetch_classification
                  (Response 429 (u "Too Many Requests") (u "slow down")
                     (inr (u "Expecting value")))
                  [] [] (Failed []) (Exn OtherException [])) as T.
    destruct T as (_ & _ & _ & T & _). exact (proj1 (T H)).
  - split; [exact S|]. split; [exact B|]. split; [exact D|].
    pose proof (C4_fetch_classification
                  (Response 200 (u "OK") []
                     (inl (JDict [(u "data", JDict [])])))
                  [(u "data", JDict [])] [] (Failed [])
                  (Exn OtherException [])) as T.
    destruct T as (T & _). exact (proj1 (T S B D)).
Defined.

(** Where the two scrape functions part from the classification by "429 or
    rate-limit text": in [api/search.py] a 429 whose body does not say "rate
    limit" is an ordinary error for the loop; in [newsScrp.py] a 503 whose
    body says "Rate limit exceeded" is an ordinary error, for
    [collect_titles] and for the stream of [web/server.py] alike. *)
Lemma C4_rate_limit_not_recognised :
  (Api.firecrawl_scrape
     (Answered (Response 429 (u "Too Many Requests") (u "slow down")
                  (inr (u "Expecting value"))))
   = inr (Exn OtherException (u "HTTP 429: slow down"))
   /\ rate_limited_text (Exn OtherException (u "HTTP 429: slow down")) = false)
  /\ (contains (lower (u "Rate limit exceeded")) (u "rate limit") = true
      /\ NewsScrp.firecrawl_scrape
           (Answered (Response 503 (u "Service Unavailable")
                        (u "Rate limit exceeded")
                        (inr (u "Expecting value"))))
         = inr (Exn OtherException
                  (u "503 Server Error: Service Unavailable for url: https://api.firecrawl.dev/v1/scrape"))
      /\ NewsScrp.rate_limited
           (Exn OtherException
              (u "503 Server Error: Service Unavailable for url: https://api.firecrawl.dev/v1/scrape"))
         = false
      /\ rate_limited_text
           (Exn OtherException
              (u "503 Server Error: Service Unavailable for url: https://api.firecrawl.dev/v1/scrape"))
         = false).
Proof.
  split; [split | split; [|split; [|split]]]; vm_compute; reflexivity.
Qed.

(** A 200 with and without the [html] field. *)
Example scrape_200 :
  Api.firecrawl_scrape
    (Answered (Response 200 (u "OK") []
                 (inl (JDict [(u "data", JDict [(u "html", JStr (u "<p>"))])]))))
  = inl (JStr (u "<p>"))
  /\ Api.firecrawl_scrape
       (Answered (Response 200 (u "OK") []
                    (inl (JDict [(u "data", JDict [])]))))
     = inl (JStr [])
  /\ NewsScrp.firecrawl_scrape
       (Answered (Response 200 (u "OK") []
                    (inl (JDict [(u "success", JBool true)]))))
     = inl (JStr []).
Proof. split; [|split]; vm_compute; reflexivity. Qed.

(** ** C7: the query-suffix filter *)

Lemma lower_app (a b : str) : lower (a ++ b) = lower a ++ lower b.
Proof. apply map_app. Qed.

Lemma lower_char_space (c : Z) : lower_char c = 32 <-> c = 32.
Proof.
  unfold lower_char. destruct (_ && _) eqn:E; [|done].
  apply andb_prop in E as [E1 E2]. apply Z.leb_le in E1, E2. lia.
Qed.

Lemma lower_remove_space (q : str) :
  lower (remove_char 32 q) = remove_char 32 (lower q).
Proof.
  unfold remove_char, lower.
  induction q as [|c q IH]; [done|].
  simpl map. rewrite !filter_cons.
  pose proof (lower_char_space c) as Hc.
  destruct (decide (c <> 32)), (decide (lower_char c <> 32)); simpl;
    try (by rewrite IH); lia.
Qed.

Lemma suffixes_have_no_case :
  Forall (fun s => lower s = s) claimed_suffixes.
Proof. repeat constructor. Qed.







(** * Further properties of the code *)

(** ** Occurrence of one string in another *)

Lemma starts_with_iff (p : str) :
  forall s, starts_with s p = true <-> exists b, s = p ++ b.
Proof.
  induction p as [|a p IH]; intros s.
  - split; [intros _; by exists s | intros _; by destruct s].
  - destruct s as [|c s]; simpl.
    + split; [done | intros (b & [=])].
    + rewrite andb_true_iff, IH, Z.eqb_eq. split.
      * intros (-> & b & ->). by exists b.
      * intros (b & [= -> ->]). split; [done | by exists b].
Qed.

Lemma contains_iff (s p : str) :
  contains s p = true <-> exists a b, s = a ++ p ++ b.
Proof.
  split.
  - induction s as [|c s IH].
    + change (contains [] p) with (starts_with [] p || false).
      rewrite orb_false_r. intros H.
      apply starts_with_iff in H as (b & H). exists [], b. exact H.
    + change (contains (c :: s) p)
        with (starts_with (c :: s) p || contains s p).
      intros H. apply orb_true_iff in H as [H|H].
      * apply starts_with_iff in H as (b & H). exists [], b. exact H.
      * destruct (IH H) as (a & b & ->). by exists (c :: a), b.
  - intros (a & b & ->). induction a as [|c a IH].
    + exact (contains_prefix p b).
    + change (contains ((c :: a) ++ p ++ b) p)
        with (starts_with ((c :: a) ++ p ++ b) p || contains (a ++ p ++ b) p).
      rewrite IH. apply orb_true_r.
Qed.

Lemma contains_filter (P : Z -> Prop) `{!forall c, Decision (P c)}
    (s p : str) :
  contains s p = true -> contains (filter P s) (filter P p) = true.
Proof.
  rewrite !contains_iff. intros (a & b & ->).
  exists (filter P a), (filter P b). by rewrite !filter_app.
Qed.

Lemma contains_lower (s p : str) :
  contains s p = true -> contains (lower s) (lower p) = true.
Proof.
  rewrite !contains_iff. intros (a & b & ->).
  exists (lower a), (lower b). by rewrite !lower_app.
Qed.

Lemma contains_nil_l (p : str) : p <> [] -> contains [] p = false.
Proof. by destruct p. Qed.

(** ** The keyword filter *)

Lemma plain_spec (c : Z) :
  plain c = true ->
  ~ (65 <= c <= 90) /\ ~ (97 <= c <= 122) /\ c <> 32 /\ c <> 45.
Proof.
  unfold plain, in_range. rewrite !andb_true_iff, !negb_true_iff.
  rewrite !andb_false_iff, !Z.leb_gt, !Z.eqb_neq. lia.
Qed.

Lemma lower_char_plain (x c : Z) :
  plain c = true -> lower_char x = c -> x = c.
Proof.
  intros Hc. apply plain_spec in Hc. unfold lower_char.
  destruct (_ && _) eqn:E; [|done].
  apply andb_prop in E as [E1 E2]. apply Z.leb_le in E1, E2. lia.
Qed.

Lemma lower_char_fixes_plain (c : Z) : plain c = true -> lower_char c = c.
Proof.
  intros Hc. apply plain_spec in Hc. unfold lower_char.
  destruct (_ && _) eqn:E; [|done].
  apply andb_prop in E as [E1 E2]. apply Z.leb_le in E1, E2. lia.
Qed.

Lemma lower_plain (p : str) :
  Forall (fun c => plain c = true) p -> lower p = p.
Proof.
  induction 1 as [|c p Hc _ IH]; [done|].
  unfold lower in *. simpl. by rewrite IH, lower_char_fixes_plain.
Qed.

Lemma lower_inv_plain (p : str) :
  Forall (fun c => plain c = true) p ->
  forall q, lower q = p -> q = p.
Proof.
  induction 1 as [|c p Hc _ IH]; intros [|x q]; try done.
  unfold lower in *. simpl. intros [= Hx Hq].
  f_equal; [by eapply lower_char_plain | by apply IH].
Qed.

Lemma compact_plain (p : str) :
  Forall (fun c => plain c = true) p -> compact p = p.
Proof.
  unfold compact, remove_char.
  induction 1 as [|c p Hc _ IH]; [done|].
  apply plain_spec in Hc as (_ & _ & H32 & H45).
  rewrite filter_cons, decide_True by done.
  rewrite filter_cons, decide_True by done. by rewrite IH.
Qed.

Lemma lower_char_hyphen (c : Z) : lower_char c = 45 <-> c = 45.
Proof.
  unfold lower_char. destruct (_ && _) eqn:E; [|done].
  apply andb_prop in E as [E1 E2]. apply Z.leb_le in E1, E2. lia.
Qed.

Lemma lower_compact (t : str) : lower (compact t) = compact (lower t).
Proof.
  unfold compact. rewrite <- lower_remove_space.
  generalize (remove_char 32 t). intros q.
  unfold remove_char, lower.
  induction q as [|c q IH]; [done|].
  simpl map. rewrite !filter_cons.
  pose proof (lower_char_hyphen c) as Hc.
  destruct (decide (c <> 45)), (decide (lower_char c <> 45)); simpl;
    try (by rewrite IH); lia.
Qed.

Lemma contains_compact (s p : str) :
  contains s p = true -> contains (compact s) (compact p) = true.
Proof. intros H. unfold compact. by do 2 apply contains_filter. Qed.

Lemma contains_lower_plain (s p : str) :
  Forall (fun c => plain c = true) p ->
  contains (lower s) p = true -> contains s p = true.
Proof.
  intros Hp. rewrite !contains_iff. intros (a & b & H).
  unfold lower in H. apply fmap_app_inv in H as (a' & r & -> & Hr & ->).
  symmetry in Hr. apply fmap_app_inv in Hr as (p' & b' & Hp' & -> & ->).
  exists a', b'. symmetry in Hp'. by rewrite (lower_inv_plain p Hp p' Hp').
Qed.

Lemma keywords_plain :
  Forall (fun kw => kw <> [] /\ Forall (fun c => plain c = true) kw)
         Api.EXCLUDE_KEYWORDS.
Proof.
  assert (forallb (fun kw => negb (bool_decide (kw = [])) && forallb plain kw)
                  Api.EXCLUDE_KEYWORDS = true) as H by reflexivity.
  rewrite forallb_forall in H. apply Forall_forall. intros kw Hin.
  apply list_elem_of_In in Hin. specialize (H kw Hin).
  apply andb_prop in H as [H1 H2]. split.
  - apply negb_true_iff, bool_decide_eq_false in H1. done.
  - apply Forall_forall. intros c Hc. rewrite forallb_forall in H2.
    apply H2. by apply list_elem_of_In.
Qed.

(** The filter of [newsScrp.py] comes down to looking for each keyword in
    the title with spaces and hyphens taken out. *)
Lemma cli_keyword_verdict (title : str) :
  NewsScrp.should_exclude_by_keywords title
  = existsb (fun kw => contains (compact title) kw) Api.EXCLUDE_KEYWORDS.
Proof.
  destruct title as [|c0 t0]; [reflexivity|].
  apply eq_true_iff_eq.
  unfold NewsScrp.should_exclude_by_keywords.
  cbv beta iota zeta. generalize (c0 :: t0). intros T.
  fold (compact T). fold (compact (lower T)).
  change NewsScrp.EXCLUDE_KEYWORDS with Api.EXCLUDE_KEYWORDS.
  pose proof keywords_plain as Hk. rewrite Forall_forall in Hk.
  rewrite !orb_true_iff, !existsb_elem_of. split.
  - intros [[(kw & Hin & H)|H]|H].
    + exists kw. split; [done|]. destruct (Hk kw Hin) as [_ Hp].
      rewrite (lower_plain kw Hp) in H. apply orb_true_iff in H as [H|H].
      * apply contains_lower_plain in H; [|done].
        apply contains_compact in H. by rewrite (compact_plain kw Hp) in H.
      * rewrite <- lower_compact in H. by apply contains_lower_plain in H.
    + exists (u "1박2일"). split; [vm_compute; left|].
      by apply contains_compact in H.
    + exists (u "1박2일"). split; [vm_compute; left|].
      by apply contains_compact in H.
  - intros (kw & Hin & H). left. left. exists kw. split; [done|].
    destruct (Hk kw Hin) as [_ Hp]. rewrite (lower_plain kw Hp).
    apply orb_true_iff. right. rewrite <- lower_compact.
    apply contains_lower in H. by rewrite (lower_plain kw Hp) in H.
Qed.

(** X1.  The two copies of the keyword filter give the same verdict on every
    title: lowercasing and the two spelled-out "1박 2일" patterns of
    [newsScrp.py] add nothing to the test of [api/search.py], which looks
    for each keyword in the title with spaces and hyphens taken out. *)
Theorem keyword_filters_agree (title : str) :
  NewsScrp.should_exclude_by_keywords title
  = Api.should_exclude_by_keywords title.
Proof. apply cli_keyword_verdict. Qed.

(** X2.  Putting spaces or hyphens into a title, or taking them out, does not
    change the verdict of the keyword filter of [newsScrp.py]. *)
Theorem keyword_filter_ignores_spaces_and_hyphens (title title' : str) :
  compact title = compact title' ->
  NewsScrp.should_exclude_by_keywords title
  = NewsScrp.should_exclude_by_keywords title'.
Proof.
  intros H. rewrite !cli_keyword_verdict. by rewrite H.
Qed.

Lemma keyword_filter_ignores_spaces_and_hyphens_witness :
  compact (u "전통 시장-소식") = compact (u "전통시장 소식")
  /\ NewsScrp.should_exclude_by_keywords (u "전통 시장-소식")
     = NewsScrp.should_exclude_by_keywords (u "전통시장 소식").
Proof.
  assert (compact (u "전통 시장-소식") = compact (u "전통시장 소식")) as H
    by (vm_compute; reflexivity).
  split; [exact H|].
  exact (keyword_filter_ignores_spaces_and_hyphens _ _ H).
Defined.

(** ** Tokens and the near-duplicate test *)

Lemma findall_from_infix cls (s : str) :
  forall run t,
    t ∈ findall_from cls s run -> exists a b, run ++ s = a ++ t ++ b.
Proof.
  induction s as [|c s IH]; intros run t; simpl.
  - destruct run as [|r run]; simpl; [by intros ?%elem_of_nil|].
    intros ->%list_elem_of_singleton. exists [], []. by rewrite !app_nil_r.
  - destruct (cls c).
    + intros H. destruct (IH _ _ H) as (a & b & E). exists a, b.
      by rewrite <- E, <- app_assoc.
    + rewrite elem_of_app. intros [H|H].
      * destruct run as [|r run]; simpl in H; [by apply elem_of_nil in H|].
        apply list_elem_of_singleton in H as ->. by exists [], (c :: s).
      * destruct (IH _ _ H) as (a & b & E). simpl in E.
        exists (run ++ c :: a), b. rewrite E. by rewrite <- !app_assoc.
Qed.

Lemma lower_char_not_upper (x : Z) : ~ (65 <= lower_char x <= 90).
Proof.
  unfold lower_char. destruct (_ && _) eqn:E.
  - apply andb_prop in E as [E1 E2]. apply Z.leb_le in E1, E2. lia.
  - apply andb_false_iff in E as [E|E]; apply Z.leb_gt in E; lia.
Qed.

(** What every token read off a text is, for a class that agrees with the
    one of [api/search.py]. *)
Lemma token_facts (text t : str) :
  t ∈ findall Api.token_char (lower text) ->
  t <> [] /\ contains (lower text) t = true
  /\ Forall (fun c => lower_token_char c = true) t.
Proof.
  intros Hin.
  pose proof (findall_tokens Api.token_char (lower text)) as Htok.
  rewrite Forall_forall in Htok. destruct (Htok t Hin) as [Hne Hcls].
  apply findall_from_infix in Hin as (a & b & E). simpl in E.
  split; [done|]. split; [apply contains_iff; eauto|].
  apply Forall_forall. intros c Hc.
  rewrite Forall_forall in Hcls. specialize (Hcls c Hc).
  assert (c ∈ lower text) as Hl.
  { rewrite E. rewrite !elem_of_app. auto. }
  unfold lower in Hl. apply list_elem_of_fmap in Hl as (x & -> & _).
  pose proof (lower_char_not_upper x) as Hup.
  unfold Api.token_char in Hcls. unfold lower_token_char.
  assert (in_range 65 90 (lower_char x) = false) as Hr.
  { unfold in_range. apply andb_false_iff.
    destruct (Z.leb_spec 65 (lower_char x)); [right | by left].
    apply Z.leb_gt. lia. }
  rewrite Hr in Hcls. rewrite orb_false_r in Hcls.
  destruct (in_range 44032 55203 (lower_char x)),
    (in_range 97 122 (lower_char x)), (in_range 48 57 (lower_char x)); done.
Qed.

(** X3.  Every token of either tokenizer is a piece of the lowercased text
    made of lowercase ASCII letters, digits and Hangul syllables only; the
    tokens of [api/search.py] are non-empty and those of [newsScrp.py] have
    at least two characters. *)
Theorem tokens_are_pieces_of_the_text (text t : str) :
  (t ∈ NewsScrp.tokenize text ->
   (2 <= length t)%nat /\ contains (lower text) t = true
   /\ Forall (fun c => lower_token_char c = true) t)
  /\ (t ∈ Api.tokenize text ->
      t <> [] /\ contains (lower text) t = true
      /\ Forall (fun c => lower_token_char c = true) t).
Proof.
  split.
  - unfold NewsScrp.tokenize, findall.
    rewrite (findall_ext NewsScrp.token_char Api.token_char (lower text)
               token_char_same []).
    fold (findall Api.token_char (lower text)).
    intros [Hlen Hin]%list_elem_of_filter. split; [done|].
    by apply token_facts in Hin as (_ & ? & ?).
  - unfold Api.tokenize. intros Hin%elem_of_list_to_set.
    by apply token_facts.
Qed.

Lemma tokens_are_pieces_of_the_text_witness :
  u "전자" ∈ NewsScrp.tokenize (u "삼성-전자 A1")
  /\ (2 <= length (u "전자"))%nat
  /\ contains (lower (u "삼성-전자 A1")) (u "전자") = true.
Proof.
  assert (u "전자" ∈ NewsScrp.tokenize (u "삼성-전자 A1")) as H.
  { vm_compute. right. left. }
  split; [exact H|].
  pose proof (tokens_are_pieces_of_the_text (u "삼성-전자 A1") (u "전자")) as T.
  destruct T as (T & _). destruct (T H) as (T1 & T2 & _).
  split; [exact T1 | exact T2].
Defined.

(** X4.  A candidate with fewer than three different tokens is never refused
    as a near-duplicate, whatever has been accepted, in either copy. *)
Theorem short_titles_are_never_near_duplicates
    (candidate : str) (existing : list str) :
  ((size (cli_token_set candidate) < 3)%nat ->
   NewsScrp.has_overlap_three_or_more candidate existing = false)
  /\ ((size (Api.tokenize candidate) < 3)%nat ->
      Api.has_overlap_three_or_more candidate existing = false).
Proof.
  split; intros Hsmall; apply not_true_is_false; intros H.
  - apply cli_overlap_iff in H as (prev & _ & H).
    assert (size (cli_token_set candidate ∩ cli_token_set prev)
            <= size (cli_token_set candidate))%nat
      by apply subseteq_size, intersection_subseteq_l.
    lia.
  - apply api_overlap_iff in H as (prev & _ & H).
    assert (size (Api.tokenize candidate ∩ Api.tokenize prev)
            <= size (Api.tokenize candidate))%nat
      by apply subseteq_size, intersection_subseteq_l.
    lia.
Qed.

Lemma short_titles_are_never_near_duplicates_witness :
  (size (cli_token_set (u "alpha beta")) < 3)%nat
  /\ NewsScrp.has_overlap_three_or_more (u "alpha beta")
       [u "alpha beta"; u "alpha beta gamma one"] = false.
Proof.
  assert (size (cli_token_set (u "alpha beta")) < 3)%nat as H
    by (vm_compute; lia).
  split; [exact H|].
  pose proof (short_titles_are_never_near_duplicates (u "alpha beta")
                [u "alpha beta"; u "alpha beta gamma one"]) as T.
  destruct T as (T & _). exact (T H).
Defined.

(** X5.  The near-duplicate test does not depend on which of two titles came
    first: either refuses the other or neither does, in both copies. *)
Theorem near_duplicate_test_is_symmetric (a b : str) :
  NewsScrp.has_overlap_three_or_more a [b]
  = NewsScrp.has_overlap_three_or_more b [a]
  /\ Api.has_overlap_three_or_more a [b]
     = Api.has_overlap_three_or_more b [a].
Proof.
  split; apply eq_true_iff_eq.
  - rewrite !cli_overlap_iff. split; intros (p & ->%list_elem_of_singleton & H).
    + exists a. split; [by apply list_elem_of_singleton|].
      by rewrite (comm_L (∩)).
    + exists b. split; [by apply list_elem_of_singleton|].
      by rewrite (comm_L (∩)).
  - rewrite !api_overlap_iff. split; intros (p & ->%list_elem_of_singleton & H).
    + exists a. split; [by apply list_elem_of_singleton|].
      by rewrite (comm_L (∩)).
    + exists b. split; [by apply list_elem_of_singleton|].
      by rewrite (comm_L (∩)).
Qed.

(** ** More on the candidate loop *)

(** What a scan adds to the list. *)
Lemma scan_page_sublist
    (reject : str -> list str -> bool) (limit : Z)
    (new_items : list (str * str)) (results : list item) :
  exists added,
    scan_page reject limit results new_items = results ++ added
    /\ added `sublist_of` map item_of new_items.
Proof.
  revert results.
  induction new_items as [|[t l] rest IH]; intros rs;
    unfold scan_page; fold scan_page.
  - exists []. by rewrite app_nil_r.
  - destruct (reject t (titles rs)).
    + destruct (IH rs) as (added & -> & Hsub). exists added.
      split; [done|]. by apply sublist_cons.
    + destruct (len (rs ++ [Item t l]) >=? limit).
      * exists [Item t l]. split; [done|].
        apply (sublist_skip (Item t l)), sublist_nil_l.
      * destruct (IH (rs ++ [Item t l])) as (added & -> & Hsub).
        exists (Item t l :: added). split; [by rewrite <- app_assoc|].
        by apply (sublist_skip (Item t l)).
Qed.

(** X6.  Whatever the rejection test, the candidate loop only appends, and
    what it appends are candidates of the page, in page order: it never
    reorders titles and never adds one the page did not have. *)
Theorem scan_page_appends_page_candidates
    (reject : str -> list str -> bool) (limit : Z)
    (new_items : list (str * str)) (results : list item) :
  exists added,
    scan_page reject limit results new_items = results ++ added
    /\ added `sublist_of` map item_of new_items.
Proof. apply scan_page_sublist. Qed.

Section Rescan.

Variable reject : str -> list str -> bool.
Variable limit : Z.

Hypothesis reject_present :
  forall t existing, t ∈ existing -> reject t existing = true.

Hypothesis reject_grows :
  forall t existing existing',
    reject t existing = true ->
    (forall x, x ∈ existing -> x ∈ existing') ->
    reject t existing' = true.

Lemma titles_prefix (rs rs' : list item) :
  rs `prefix_of` rs' -> forall x, x ∈ titles rs -> x ∈ titles rs'.
Proof.
  intros [k ->] x. unfold titles. rewrite map_app, elem_of_app. auto.
Qed.

(** After a scan that stopped short of the limit, every candidate of the
    page is one the test refuses. *)
Lemma scan_page_saturates (new_items : list (str * str)) :
  forall rs,
    len (scan_page reject limit rs new_items) < limit ->
    Forall (fun c => reject c.1
                       (titles (scan_page reject limit rs new_items)) = true)
           new_items.
Proof.
  induction new_items as [|[t l] rest IH]; intros rs;
    unfold scan_page; fold scan_page; [constructor|].
  destruct (reject t (titles rs)) eqn:R.
  - intros Hlt. constructor; [|by apply IH]. simpl.
    eapply reject_grows; [exact R|].
    apply titles_prefix, scan_page_prefix.
  - destruct (len (rs ++ [Item t l]) >=? limit) eqn:G.
    + intros Hlt. rewrite Z.geb_leb in G. apply Z.leb_le in G. lia.
    + intros Hlt. constructor; [|by apply IH]. simpl.
      apply reject_present.
      eapply titles_prefix; [apply scan_page_prefix|].
      rewrite titles_snoc, elem_of_app. right. by apply list_elem_of_singleton.
Qed.

Lemma scan_page_all_refused (new_items : list (str * str)) (rs : list item) :
  Forall (fun c => reject c.1 (titles rs) = true) new_items ->
  scan_page reject limit rs new_items = rs.
Proof.
  induction 1 as [|[t l] rest Hc _ IH]; unfold scan_page; fold scan_page;
    [done|].
  simpl in Hc. by rewrite Hc.
Qed.

Lemma rescan_adds_nothing (new_items : list (str * str)) (rs : list item) :
  len (scan_page reject limit rs new_items) < limit ->
  scan_page reject limit (scan_page reject limit rs new_items) new_items
  = scan_page reject limit rs new_items.
Proof. intros H. by apply scan_page_all_refused, scan_page_saturates. Qed.

End Rescan.

Lemma existsb_grows {A} (f : A -> bool) (l l' : list A) :
  existsb f l = true -> (forall x, x ∈ l -> x ∈ l') -> existsb f l' = true.
Proof.
  rewrite !existsb_elem_of. intros (x & Hin & Hf) Hsub. eauto.
Qed.

Lemma cli_reject_grows query t existing existing' :
  NewsScrp.reject query t existing = true ->
  (forall x, x ∈ existing -> x ∈ existing') ->
  NewsScrp.reject query t existing' = true.
Proof.
  unfold NewsScrp.reject. rewrite !orb_true_iff.
  intros [[[H|H]|H]|H] Hsub; auto.
  - left. left. left. apply bool_decide_eq_true in H.
    apply bool_decide_eq_true. auto.
  - right. apply cli_overlap_iff in H as (p & Hin & H).
    apply cli_overlap_iff. eauto.
Qed.

Lemma api_reject_grows q cks css t existing existing' :
  Api.reject q cks css t existing = true ->
  (forall x, x ∈ existing -> x ∈ existing') ->
  Api.reject q cks css t existing' = true.
Proof.
  unfold Api.reject. rewrite !orb_true_iff.
  intros [[[[[H|H]|H]|H]|H]|H] Hsub; auto 10.
  - do 5 left. apply bool_decide_eq_true in H.
    apply bool_decide_eq_true. auto.
  - right. apply api_overlap_iff in H as (p & Hin & H).
    apply api_overlap_iff. eauto.
Qed.

(** X7.  If the service serves the same page again, scanning it a second
    time adds nothing, as long as the first scan stopped short of the limit:
    every candidate is then either in the list or refused for a reason that
    still holds.  This is so for the test of [collect_titles] and for the one
    of [api/search.py]. *)
Theorem same_page_twice_adds_nothing
    (query : str) (cks css : list str) (limit : Z)
    (new_items : list (str * str)) (rs : list item) :
  (len (scan_page (NewsScrp.reject query) limit rs new_items) < limit ->
   scan_page (NewsScrp.reject query) limit
     (scan_page (NewsScrp.reject query) limit rs new_items) new_items
   = scan_page (NewsScrp.reject query) limit rs new_items)
  /\ (len (scan_page (Api.reject query cks css) limit rs new_items) < limit ->
      scan_page (Api.reject query cks css) limit
        (scan_page (Api.reject query cks css) limit rs new_items) new_items
      = scan_page (Api.reject query cks css) limit rs new_items).
Proof.
  split; apply rescan_adds_nothing.
  - intros t ex Hin. unfold NewsScrp.reject.
    by rewrite bool_decide_eq_true_2.
  - apply cli_reject_grows.
  - intros t ex Hin. unfold Api.reject.
    by rewrite bool_decide_eq_true_2.
  - apply api_reject_grows.
Qed.

Lemma same_page_twice_adds_nothing_witness :
  len (scan_page (NewsScrp.reject (u "q")) 10 [] sample_page) < 10
  /\ scan_page (NewsScrp.reject (u "q")) 10
       (scan_page (NewsScrp.reject (u "q")) 10 [] sample_page) sample_page
     = scan_page (NewsScrp.reject (u "q")) 10 [] sample_page.
Proof.
  assert (len (scan_page (NewsScrp.reject (u "q")) 10 [] sample_page) < 10)
    as H by (vm_compute; reflexivity).
  split; [exact H|].
  pose proof (same_page_twice_adds_nothing (u "q") [] [] 10 sample_page [])
    as T.
  destruct T as (T & _). exact (T H).
Defined.

(** ** The stream of [web/server.py] against [collect_titles] *)

Lemma scan_page_ext (r1 r2 : str -> list str -> bool) limit
    (new_items : list (str * str)) :
  (forall t ex, r1 t ex = r2 t ex) ->
  forall rs, scan_page r1 limit rs new_items = scan_page r2 limit rs new_items.
Proof.
  intros H. induction new_items as [|[t l] rest IH]; intros rs;
    unfold scan_page; fold scan_page; [done|].
  rewrite H. destruct (r2 t (titles rs)); [apply IH|].
  destruct (_ >=? _); [done | apply IH].
Qed.

Lemma web_reject_plain q t ex :
  Web.reject q [] [] t ex = NewsScrp.reject q t ex.
Proof.
  unfold Web.reject, NewsScrp.reject, custom_keyword_hit, custom_suffix_hit.
  simpl existsb. by rewrite !orb_false_r.
Qed.

Lemma rate_limited_both e :
  NewsScrp.rate_limited e = true -> rate_limited_text e = true.
Proof.
  unfold NewsScrp.rate_limited, rate_limited_text.
  destruct (exn_kind e); [|done].
  intros ->%bool_decide_eq_true. reflexivity.
Qed.

(** From the same state and on the same answers, the stream of
    [web/server.py] without extra exclusions ends with the list that
    [collect_titles] returns or holds. *)
Lemma web_follows_cli q limit max_pages (answers : list fetched) :
  forall st rs,
    len (results st) <= Z.max 0 limit ->
    cli_results (NewsScrp.loop q limit max_pages st answers).2 = Some rs ->
    stream_results (Web.loop q limit max_pages [] [] st answers).2 = Some rs.
Proof.
  induction answers as [|a answers IH]; intros st rs Hlen; simpl.
  - destruct (_ && _); simpl; [done|]. by rewrite slice_to_all.
  - destruct (_ && _) eqn:G; simpl; [|by rewrite slice_to_all].
    apply andb_prop in G as [G _]. apply Z.ltb_lt in G.
    destruct a as [new_items|e].
    + rewrite !say_snd, scan_stream_results.
      rewrite (scan_page_ext _ _ limit new_items (web_reject_plain q)).
      apply IH. simpl.
      pose proof (scan_page_len (NewsScrp.reject q) limit new_items
                    (results st) G). lia.
    + destruct (exn_kind e) eqn:K.
      * destruct (NewsScrp.rate_limited e) eqn:R; [|done].
        rewrite (rate_limited_both e R), !say_snd. by apply IH.
      * rewrite say_snd.
        destruct (attempts st + 1 >? 5) eqn:A; [done|].
        destruct (rate_limited_text e); rewrite !say_snd; by apply IH.
Qed.

(** X8.  On the same answers of the scrape service, whenever the batch
    endpoint [/search] of [web/server.py] returns a list, the streaming
    endpoint [/search-stream] called without extra exclusions ends with the
    same list; and while the one still waits for an answer, so does the other,
    holding the same list. *)
Theorem stream_delivers_what_batch_returns
    (key q : str) (limit : Z) (answers : list fetched) (rs : list item) :
  cli_results (Web.search key q limit answers).2 = Some rs ->
  stream_results (Web.search_stream key q limit [] [] answers).2 = Some rs.
Proof.
  unfold Web.search, NewsScrp.collect_titles, Web.search_stream.
  destruct key; [done|]. rewrite say_snd.
  change (comma_list []) with (@nil str).
  apply web_follows_cli. simpl. change (len []) with 0. lia.
Qed.

Lemma stream_delivers_what_batch_returns_witness :
  cli_results
    (Web.search (u "key") (u "q") 2
       [Raised (Exn OtherException (u "boom")); Page sample_page]).2
  = Some [Item (u "alpha beta gamma one") (u "http://a");
          Item (u "delta epsilon zeta") (u "http://b")]
  /\ stream_results
       (Web.search_stream (u "key") (u "q") 2 [] []
          [Raised (Exn OtherException (u "boom")); Page sample_page]).2
     = Some [Item (u "alpha beta gamma one") (u "http://a");
             Item (u "delta epsilon zeta") (u "http://b")].
Proof.
  assert (cli_results
            (Web.search (u "key") (u "q") 2
               [Raised (Exn OtherException (u "boom")); Page sample_page]).2
          = Some [Item (u "alpha beta gamma one") (u "http://a");
                  Item (u "delta epsilon zeta") (u "http://b")]) as H
    by (vm_compute; reflexivity).
  split; [exact H|].
  exact (stream_delivers_what_batch_returns _ _ _ _ _ H).
Defined.

(** ** The limit a caller asks for *)

(** X9.  Whatever limit a caller asks for, be it zero, negative or huge, the
    streaming endpoint of [api/search.py] never streams a running count above
    [min(100, max(1, limit))], and the batch endpoint of [web/server.py]
    never returns more titles than that: never more than 100. *)
Theorem any_requested_limit_is_clamped
    (key q : str) (limit : Z) (exclude_keywords exclude_suffixes : str)
    (world : list Api.tick) (answers : list fetched) :
  counts_within (Z.min 100 (Z.max 1 limit))
    (Api.search_stream key q limit exclude_keywords exclude_suffixes world).1
  /\ match cli_results (Web.search key q limit answers).2 with
     | Some rs => len rs <= Z.min 100 (Z.max 1 limit)
     | None => True
     end.
Proof.
  assert (Z.max 1 (Z.min 100 limit) = Z.min 100 (Z.max 1 limit)) as E by lia.
  assert (Z.max 0 (Z.min 100 (Z.max 1 limit)) = Z.min 100 (Z.max 1 limit))
    as E0 by lia.
  split.
  - unfold Api.search_stream. rewrite E. destruct key.
    + repeat constructor.
    + rewrite say_fst. apply counts_within_app; [repeat constructor|].
      rewrite <- E0 at 1. apply api_loop_counts.
      change (len (results (State [] 1 0))) with 0. lia.
  - destruct (cli_results _) as [rs|] eqn:H; [|done].
    unfold Web.search, NewsScrp.collect_titles in H. rewrite E in H.
    destruct key; [done|].
    apply (cli_loop_keeps q _ 300 (fun _ => True)) in H;
      [lia | done | done | simpl; change (len []) with 0; lia].
Qed.

(** A caller asking for a million titles from pages that never run dry still
    gets a stream that stops at 100. *)
Example a_million_is_a_hundred :
  (Api.search_stream (u "key") (u "q") 1000000 [] [] []).1
  = [Yield EvDebug; Yield (EvStart (u "q") 100)].
Proof. vm_compute. reflexivity. Qed.

(** ** What a consumer of the stream sees *)

Lemma item_events_app t1 t2 :
  item_events (t1 ++ t2) = item_events t1 ++ item_events t2.
Proof.
  induction t1 as [|[[]| |] t1 IH]; simpl; try done. by rewrite IH.
Qed.

Lemma numbered_app n (l k : list item) :
  numbered n (l ++ k) = numbered n l ++ numbered (n + len l) k.
Proof.
  revert n. induction l as [|it l IH]; intros n; simpl.
  - change (len []) with 0. by rewrite Z.add_0_r.
  - rewrite IH. do 3 f_equal. unfold len. simpl length. lia.
Qed.

Lemma scan_stream_items reject limit (new_items : list (str * str)) :
  forall rs n,
    exists added,
      scan_page reject limit rs new_items = rs ++ added
      /\ item_events (scan_stream reject limit rs n new_items).1
         = numbered (len rs) added.
Proof.
  induction new_items as [|[t l] rest IH]; intros rs n;
    unfold scan_page, scan_stream; fold scan_page; fold scan_stream.
  - exists []. by rewrite app_nil_r.
  - destruct (reject t (titles rs)); [apply IH|].
    rewrite say_fst.
    pose proof (len_app rs [Item t l]) as E.
    change (len [Item t l]) with 1 in E.
    destruct (len (rs ++ [Item t l]) >=? limit).
    + exists [Item t l]. split; [done|]. simpl. by rewrite E.
    + destruct (IH (rs ++ [Item t l]) (n + 1)) as (added & -> & Hev).
      exists (Item t l :: added). split; [by rewrite <- app_assoc|].
      simpl. rewrite Hev, E. done.
Qed.

(** The [item] events of the loop of [api/search.py] are the items it adds
    to the list, each with its place in the list. *)
Lemma api_loop_items q limit max_pages cks css (world : list Api.tick) :
  forall st rs,
    stream_results (Api.loop q limit max_pages cks css st world).2 = Some rs ->
    exists added,
      rs = results st ++ added
      /\ item_events (Api.loop q limit max_pages cks css st world).1
         = numbered (len (results st)) added.
Proof.
  assert (forall st : state, exists added,
             results st = results st ++ added
             /\ @nil (item * Z) = numbered (len (results st)) added) as Hnone.
  { intros st. exists []. by rewrite app_nil_r. }
  induction world as [|w world IH]; intros st rs; simpl.
  - destruct (_ && _); simpl; intros [= <-]; apply Hnone.
  - destruct (_ && _); simpl; [|intros [= <-]; apply Hnone].
    destruct (negb _); [intros [= <-]; apply Hnone|].
    destruct (Api.answer w) as [new_items|e].
    + rewrite !say_snd, !say_fst, scan_stream_results. intros H.
      destruct (scan_stream_items (Api.reject q cks css) limit new_items
                  (results st) 0) as (a1 & E1 & Ev1).
      apply IH in H as (a2 & -> & Ev2). simpl in Ev2.
      exists (a1 ++ a2). simpl results. rewrite E1, <- app_assoc.
      split; [done|].
      repeat (rewrite item_events_app || simpl item_events).
      rewrite E1, len_app in Ev2. rewrite Ev1, Ev2, numbered_app. done.
    + rewrite say_snd. destruct (rate_limited_text e); rewrite !say_snd.
      * intros H. apply IH in H as (a & -> & Ev). by exists a.
      * destruct (attempts st + 1 >? 3).
        -- intros [= <-]. apply Hnone.
        -- intros H. apply IH in H as (a & -> & Ev). by exists a.
Qed.

Lemma web_loop_items q limit max_pages cks css (answers : list fetched) :
  forall st rs,
    stream_results (Web.loop q limit max_pages cks css st answers).2 = Some rs ->
    exists added,
      rs = results st ++ added
      /\ item_events (Web.loop q limit max_pages cks css st answers).1
         = numbered (len (results st)) added.
Proof.
  assert (forall st : state, exists added,
             results st = results st ++ added
             /\ @nil (item * Z) = numbered (len (results st)) added) as Hnone.
  { intros st. exists []. by rewrite app_nil_r. }
  induction answers as [|a answers IH]; intros st rs; simpl.
  - destruct (_ && _); simpl; intros [= <-]; apply Hnone.
  - destruct (_ && _); simpl; [|intros [= <-]; apply Hnone].
    destruct a as [new_items|e].
    + rewrite !say_snd, !say_fst, scan_stream_results. intros H.
      destruct (scan_stream_items (Web.reject q cks css) limit new_items
                  (results st) 0) as (a1 & E1 & Ev1).
      apply IH in H as (a2 & -> & Ev2). simpl in Ev2.
      exists (a1 ++ a2). simpl results. rewrite E1, <- app_assoc.
      split; [done|].
      repeat (rewrite item_events_app || simpl item_events).
      rewrite E1, len_app in Ev2. rewrite Ev1, Ev2, numbered_app. done.
    + destruct (rate_limited_text e); rewrite !say_snd.
      * intros H. apply IH in H as (a & -> & Ev). by exists a.
      * destruct (attempts st + 1 >? 5).
        -- intros [= <-]. apply Hnone.
        -- intros H. apply IH in H as (a & -> & Ev). by exists a.
Qed.

Lemma last_say {A B} (a : list A) (r : list A * B) (x : A) :
  last r.1 = Some x -> last (say a r).1 = Some x.
Proof.
  rewrite say_fst. intros H. destruct r as [tr o]. simpl in *.
  destruct tr as [|y tr]; [done|]. by rewrite last_app_cons.
Qed.

Lemma api_loop_ends_complete q limit max_pages cks css
    (world : list Api.tick) :
  forall st st',
    (Api.loop q limit max_pages cks css st world).2 = Completed st' ->
    last (Api.loop q limit max_pages cks css st world).1
    = Some (Yield (EvComplete (len (results st')))).
Proof.
  induction world as [|w world IH]; intros st st';
    unfold Api.loop; fold Api.loop.
  - destruct (_ && _); [done|]. by intros [= <-].
  - destruct (_ && _); [|by intros [= <-]].
    destruct (negb _); [by intros [= <-]|].
    destruct (Api.answer w) as [new_items|e].
    + rewrite !say_snd. intros H. do 3 apply last_say. by apply IH.
    + rewrite say_snd. destruct (rate_limited_text e); rewrite !say_snd.
      * intros H. do 3 apply last_say. by apply IH.
      * destruct (attempts st + 1 >? 3).
        -- intros [= <-]. do 3 apply last_say. done.
        -- intros H. do 3 apply last_say. by apply IH.
Qed.

Lemma web_loop_ends_complete q limit max_pages cks css
    (answers : list fetched) :
  forall st st',
    (Web.loop q limit max_pages cks css st answers).2 = Completed st' ->
    last (Web.loop q limit max_pages cks css st answers).1
    = Some (Yield (EvComplete (len (results st')))).
Proof.
  induction answers as [|a answers IH]; intros st st';
    unfold Web.loop; fold Web.loop.
  - destruct (_ && _); [done|]. by intros [= <-].
  - destruct (_ && _); [|by intros [= <-]].
    rewrite say_snd. destruct a as [new_items|e].
    + rewrite !say_snd. intros H. do 3 apply last_say. by apply IH.
    + destruct (rate_limited_text e); rewrite !say_snd.
      * intros H. do 2 apply last_say. by apply IH.
      * destruct (attempts st + 1 >? 5).
        -- intros [= <-]. do 2 apply last_say. done.
        -- intros H. do 2 apply last_say. by apply IH.
Qed.

(** X10.  In both streaming endpoints the [item] events, in the order they
    are sent, carry exactly the items of the list held at the end, the k-th
    with [total] k; and a stream that completes has [complete] as its last
    event, with the length of that list as [total].  A consumer that keeps
    the items as they arrive holds the final list. *)
Theorem streamed_items_are_the_final_list
    (key q : str) (limit : Z) (exclude_keywords exclude_suffixes : str)
    (world : list Api.tick) (answers : list fetched)
    (rs : list item) (st : state) :
  (stream_results
     (Api.search_stream key q limit exclude_keywords exclude_suffixes world).2
   = Some rs ->
   item_events
     (Api.search_stream key q limit exclude_keywords exclude_suffixes world).1
   = numbered 0 rs)
  /\ ((Api.search_stream key q limit exclude_keywords exclude_suffixes
         world).2 = Completed st ->
      last (Api.search_stream key q limit exclude_keywords exclude_suffixes
              world).1
      = Some (Yield (EvComplete (len (results st)))))
  /\ (stream_results
        (Web.search_stream key q limit exclude_keywords exclude_suffixes
           answers).2
      = Some rs ->
      item_events
        (Web.search_stream key q limit exclude_keywords exclude_suffixes
           answers).1
      = numbered 0 rs)
  /\ ((Web.search_stream key q limit exclude_keywords exclude_suffixes
         answers).2 = Completed st ->
      last (Web.search_stream key q limit exclude_keywords exclude_suffixes
              answers).1
      = Some (Yield (EvComplete (len (results st))))).
Proof.
  split; [|split; [|split]].
  - unfold Api.search_stream. destruct key; [done|].
    rewrite say_snd, say_fst. intros H.
    apply api_loop_items in H as (added & -> & Ev).
    rewrite item_events_app, Ev. done.
  - unfold Api.search_stream. destruct key; [done|].
    rewrite say_snd. intros H. apply last_say.
    by apply api_loop_ends_complete.
  - unfold Web.search_stream. destruct key; [done|].
    rewrite say_snd, say_fst. intros H.
    apply web_loop_items in H as (added & -> & Ev).
    rewrite item_events_app, Ev. done.
  - unfold Web.search_stream. destruct key; [done|].
    rewrite say_snd. intros H. apply last_say.
    by apply web_loop_ends_complete.
Qed.

Lemma streamed_items_are_the_final_list_witness :
  stream_results
    (Api.search_stream (u "key") (u "q") 2 [] []
       [Api.Tick 1 (Page sample_page)]).2
  = Some [Item (u "alpha beta gamma one") (u "http://a");
          Item (u "delta epsilon zeta") (u "http://b")]
  /\ item_events
       (Api.search_stream (u "key") (u "q") 2 [] []
          [Api.Tick 1 (Page sample_page)]).1
     = numbered 0 [Item (u "alpha beta gamma one") (u "http://a");
                   Item (u "delta epsilon zeta") (u "http://b")].
Proof.
  assert (stream_results
            (Api.search_stream (u "key") (u "q") 2 [] []
               [Api.Tick 1 (Page sample_page)]).2
          = Some [Item (u "alpha beta gamma one") (u "http://a");
                  Item (u "delta epsilon zeta") (u "http://b")]) as H
    by (vm_compute; reflexivity).
  split; [exact H|].
  pose proof (streamed_items_are_the_final_list (u "key") (u "q") 2 [] []
                [Api.Tick 1 (Page sample_page)] []
                [Item (u "alpha beta gamma one") (u "http://a");
                 Item (u "delta epsilon zeta") (u "http://b")]
                (State [] 1 0)) as T.
  destruct T as (T & _). exact (T H).
Defined.

(** ** Waiting, sleeping, ending *)

Lemma web_rate_limited_loop q limit max_pages cks css (e : exn) (n : nat) :
  rate_limited_text e = true ->
  forall st,
    (len (results st) <? limit) && (start st <=? 1 + (max_pages - 1) * 10)
    = true ->
    (Web.loop q limit max_pages cks css st (repeat (Raised e) n)).2
    = Waiting (State (results st) (start st) (attempts st + Z.of_nat n))
    /\ fetches (Web.loop q limit max_pages cks css st
                  (repeat (Raised e) n)).1
       = repeat (start st) n.
Proof.
  intros He. induction n as [|n IH]; intros st G;
    simpl repeat; unfold Web.loop; fold Web.loop; rewrite G.
  - simpl. rewrite Z.add_0_r. by destruct st.
  - cbv beta iota. rewrite He. rewrite !say_snd, !say_fst, !fetches_app.
    destruct (IH (State (results st) (start st) (attempts st + 1)) G)
      as [E1 E2].
    rewrite E1, E2. simpl. split; [|done]. do 2 f_equal. lia.
Qed.

(** X11.  Neither [collect_titles] nor the stream of [web/server.py] ever
    gives up on a rate limit: with a key, a limit of at least 1 and a page
    budget of at least 1, after any number of rate-limited answers in a row
    the run is still at cursor 1, has asked for that page every time, holds
    no result, and waits for the next answer; no count of attempts ends it,
    and neither reads a clock. *)
Theorem rate_limit_is_retried_without_end
    (key q : str) (limit max_pages : Z) (e : exn) (n : nat) :
  key <> [] ->
  (0 < limit -> 1 <= max_pages ->
   (NewsScrp.collect_titles key q limit max_pages
      (repeat rate_limit_answer n)).2
   = NewsScrp.Awaiting (State [] 1 (Z.of_nat n))
   /\ fetches (NewsScrp.collect_titles key q limit max_pages
                 (repeat rate_limit_answer n)).1
      = repeat 1 n)
  /\ (rate_limited_text e = true ->
      (Web.search_stream key q limit [] [] (repeat (Raised e) n)).2
      = Waiting (State [] 1 (Z.of_nat n))
      /\ fetches (Web.search_stream key q limit [] []
                    (repeat (Raised e) n)).1
         = repeat 1 n).
Proof.
  intros Hkey. split.
  - intros Hl Hp. unfold NewsScrp.collect_titles. destruct key; [done|].
    apply (cli_rate_limited_loop q limit max_pages n (State [] 1 0)).
    simpl. change (len []) with 0.
    apply andb_true_intro. split; [apply Z.ltb_lt | apply Z.leb_le]; lia.
  - intros He. unfold Web.search_stream. destruct key; [done|].
    rewrite say_snd, say_fst, fetches_app.
    apply (web_rate_limited_loop q _ 300 _ _ e n He (State [] 1 0)).
    simpl. change (len []) with 0.
    apply andb_true_intro. split; [apply Z.ltb_lt | apply Z.leb_le]; lia.
Qed.

Lemma rate_limit_is_retried_without_end_witness :
  u "key" <> [] /\ 0 < 10 /\ 1 <= 300
  /\ (NewsScrp.collect_titles (u "key") (u "q") 10 300
        (repeat rate_limit_answer 50)).2
     = NewsScrp.Awaiting (State [] 1 (Z.of_nat 50)).
Proof.
  assert (u "key" <> []) as K by discriminate.
  assert (0 < 10) as L by lia.
  assert (1 <= 300) as P by lia.
  split; [exact K|]. split; [exact L|]. split; [exact P|].
  pose proof (rate_limit_is_retried_without_end (u "key") (u "q") 10 300
                (Exn OtherException []) 50 K) as T.
  destruct T as (T & _). exact (proj1 (T L P)).
Defined.

Lemma sleeps_between_app lo hi t1 t2 :
  sleeps_between lo hi t1 -> sleeps_between lo hi t2 ->
  sleeps_between lo hi (t1 ++ t2).
Proof.
  unfold sleeps_between. rewrite sleeps_app. intros. by apply Forall_app.
Qed.

Lemma backoff_between (w lo hi : Z) (qlo qhi : Q) :
  lo <= w <= hi -> (qlo <= inject_Z lo)%Q -> (inject_Z hi <= qhi)%Q ->
  (qlo <= inject_Z w)%Q /\ (inject_Z w <= qhi)%Q.
Proof.
  intros [H1 H2] Hlo Hhi. split.
  - eapply Qle_trans; [exact Hlo|]. by rewrite <- Zle_Qle.
  - eapply Qle_trans; [|exact Hhi]. by rewrite <- Zle_Qle.
Qed.

Lemma scan_stream_no_sleep reject limit (new_items : list (str * str)) :
  forall rs n, sleeps (scan_stream reject limit rs n new_items).1 = [].
Proof.
  induction new_items as [|[t l] rest IH]; intros rs n;
    unfold scan_stream; fold scan_stream; [done|].
  destruct (reject t (titles rs)); [apply IH|].
  rewrite say_fst, sleeps_app. simpl.
  destruct (_ >=? _); [done | apply IH].
Qed.

Lemma cli_loop_sleeps q limit max_pages (answers : list fetched) :
  forall st,
    0 <= attempts st ->
    sleeps_between (9 # 10) 10
      (NewsScrp.loop q limit max_pages st answers).1.
Proof.
  induction answers as [|a answers IH]; intros st Ha;
    unfold NewsScrp.loop; fold NewsScrp.loop.
  - destruct (_ && _); constructor.
  - destruct (_ && _); [|constructor].
    rewrite say_fst. apply sleeps_between_app; [constructor|].
    destruct a as [new_items|e].
    + rewrite say_fst. apply sleeps_between_app; [|by apply IH].
      repeat constructor; done.
    + destruct (exn_kind e).
      * destruct (NewsScrp.rate_limited e); [|constructor].
        rewrite say_fst. apply sleeps_between_app; [|apply IH; simpl; lia].
        constructor; [|constructor].
        apply (backoff_between _ 2 10); [lia | done | done].
      * rewrite say_fst. apply sleeps_between_app; [repeat constructor; done|].
        destruct (_ >? _); [constructor | apply IH; simpl; lia].
Qed.

Lemma web_loop_sleeps q limit max_pages cks css (answers : list fetched) :
  forall st,
    0 <= attempts st ->
    sleeps_between (9 # 10) 10
      (Web.loop q limit max_pages cks css st answers).1.
Proof.
  induction answers as [|a answers IH]; intros st Ha;
    unfold Web.loop; fold Web.loop.
  - destruct (_ && _); constructor.
  - destruct (_ && _); [|constructor].
    rewrite say_fst. apply sleeps_between_app; [constructor|].
    destruct a as [new_items|e].
    + rewrite !say_fst. apply sleeps_between_app.
      { unfold sleeps_between. rewrite scan_stream_no_sleep. constructor. }
      apply sleeps_between_app; [|by apply IH].
      repeat constructor; done.
    + destruct (rate_limited_text e); rewrite say_fst.
      * apply sleeps_between_app; [|apply IH; simpl; lia].
        constructor; [|constructor].
        apply (backoff_between _ 2 10); [lia | done | done].
      * apply sleeps_between_app; [repeat constructor; done|].
        destruct (_ >? _); [constructor | apply IH; simpl; lia].
Qed.

Lemma api_loop_sleeps q limit max_pages cks css (world : list Api.tick) :
  forall st,
    0 <= attempts st ->
    sleeps_between (2 # 10) 5
      (Api.loop q limit max_pages cks css st world).1.
Proof.
  induction world as [|w world IH]; intros st Ha;
    unfold Api.loop; fold Api.loop.
  - destruct (_ && _); constructor.
  - destruct (_ && _); [|constructor].
    destruct (negb _); [constructor|].
    rewrite say_fst. apply sleeps_between_app; [constructor|].
    destruct (Api.answer w) as [new_items|e].
    + rewrite !say_fst. apply sleeps_between_app.
      { unfold sleeps_between. simpl. rewrite scan_stream_no_sleep.
        constructor. }
      apply sleeps_between_app; [|by apply IH].
      repeat constructor; done.
    + rewrite say_fst. apply sleeps_between_app; [constructor|].
      destruct (rate_limited_text e); rewrite say_fst.
      * apply sleeps_between_app; [|apply IH; simpl; lia].
        constructor; [|constructor].
        apply (backoff_between _ 1 5); [lia | done | done].
      * apply sleeps_between_app; [repeat constructor; done|].
        destruct (_ >? _); [constructor | apply IH; simpl; lia].
Qed.

(** X12.  The waits are bounded: every sleep of [collect_titles] and of the
    stream of [web/server.py] lasts between 0.9 and 10 seconds, every sleep
    of the stream of [api/search.py] between 0.2 and 5 seconds, however many
    rate limits or failures came before. *)
Theorem every_sleep_is_bounded
    (key q : str) (limit max_pages : Z)
    (exclude_keywords exclude_suffixes : str)
    (answers : list fetched) (world : list Api.tick) :
  sleeps_between (9 # 10) 10
    (NewsScrp.collect_titles key q limit max_pages answers).1
  /\ sleeps_between (9 # 10) 10
       (Web.search_stream key q limit exclude_keywords exclude_suffixes
          answers).1
  /\ sleeps_between (2 # 10) 5
       (Api.search_stream key q limit exclude_keywords exclude_suffixes
          world).1.
Proof.
  split; [|split].
  - unfold NewsScrp.collect_titles. destruct key; [constructor|].
    by apply cli_loop_sleeps.
  - unfold Web.search_stream. destruct key; [constructor|].
    rewrite say_fst. apply sleeps_between_app; [constructor|].
    by apply web_loop_sleeps.
  - unfold Api.search_stream. destruct key; [constructor|].
    rewrite say_fst. apply sleeps_between_app; [constructor|].
    by apply api_loop_sleeps.
Qed.

Lemma cli_pages_return q limit max_pages (answers : list fetched) :
  forall st,
    Forall (fun a => is_page a = true) answers ->
    1 + (max_pages - 1) * 10 < start st + 10 * len answers ->
    exists items,
      (NewsScrp.loop q limit max_pages st answers).2 = NewsScrp.Returned items.
Proof.
  induction answers as [|a answers IH]; intros st Hp Hlen;
    unfold NewsScrp.loop; fold NewsScrp.loop.
  - change (len []) with 0 in Hlen.
    destruct (_ && _) eqn:G; [|eauto].
    apply andb_prop in G as [_ G]. apply Z.leb_le in G. lia.
  - destruct (_ && _); [|eauto].
    apply Forall_cons in Hp as [Ha Hp].
    destruct a as [new_items|e]; [|done].
    rewrite !say_snd. apply IH; [done|]. simpl.
    unfold len in *. simpl length in Hlen. lia.
Qed.

Lemma api_pages_complete q limit max_pages cks css (world : list Api.tick) :
  forall st,
    Forall (fun w => is_page (Api.answer w) = true) world ->
    1 + (max_pages - 1) * 10 < start st + 10 * len world ->
    exists st',
      (Api.loop q limit max_pages cks css st world).2 = Completed st'.
Proof.
  induction world as [|w world IH]; intros st Hp Hlen;
    unfold Api.loop; fold Api.loop.
  - change (len []) with 0 in Hlen.
    destruct (_ && _) eqn:G; [|unfold complete; eauto].
    apply andb_prop in G as [_ G]. apply Z.leb_le in G. lia.
  - destruct (_ && _); [|unfold complete; eauto].
    destruct (negb _); [rewrite say_snd; unfold complete; eauto|].
    apply Forall_cons in Hp as [Ha Hp].
    destruct (Api.answer w) as [new_items|e]; [|done].
    rewrite !say_snd. apply IH; [done|]. simpl.
    unfold len in *. simpl length in Hlen. lia.
Qed.

(** X13.  With a key, page answers alone always bring a run to its end:
    given as many pages as the page budget, [collect_titles] returns a list,
    and given three pages the stream of [api/search.py] completes, whatever
    the pages hold and whatever the clock shows. *)
Theorem enough_pages_end_the_run
    (key q : str) (limit max_pages : Z)
    (exclude_keywords exclude_suffixes : str)
    (answers : list fetched) (world : list Api.tick) :
  key <> [] ->
  (Forall (fun a => is_page a = true) answers ->
   max_pages <= len answers ->
   exists items,
     (NewsScrp.collect_titles key q limit max_pages answers).2
     = NewsScrp.Returned items)
  /\ (Forall (fun w => is_page (Api.answer w) = true) world ->
      3 <= len world ->
      exists st,
        (Api.search_stream key q limit exclude_keywords exclude_suffixes
           world).2 = Completed st).
Proof.
  intros Hkey. split.
  - intros Hp Hlen. unfold NewsScrp.collect_titles. destruct key; [done|].
    apply cli_pages_return; [done|]. simpl. lia.
  - intros Hp Hlen. unfold Api.search_stream. destruct key; [done|].
    rewrite say_snd. apply api_pages_complete; [done|]. simpl. lia.
Qed.

Lemma enough_pages_end_the_run_witness :
  u "key" <> []
  /\ Forall (fun a => is_page a = true) [Page sample_page; Page []]
  /\ 2 <= len [Page sample_page; Page []]
  /\ exists items,
       (NewsScrp.collect_titles (u "key") (u "q") 50 2
          [Page sample_page; Page []]).2
       = NewsScrp.Returned items.
Proof.
  assert (u "key" <> []) as K by discriminate.
  assert (Forall (fun a => is_page a = true) [Page sample_page; Page []])
    as P by (repeat constructor).
  assert (2 <= len [Page sample_page; Page []]) as L
    by (vm_compute; discriminate).
  split; [exact K|]. split; [exact P|]. split; [exact L|].
  pose proof (enough_pages_end_the_run (u "key") (u "q") 50 2 [] []
                [Page sample_page; Page []] [] K) as T.
  destruct T as (T & _). exact (T P L).
Defined.

(** ** [str.strip] *)

Lemma lstrip_nil_iff (s : str) : lstrip s = [] <-> blank s.
Proof.
  unfold blank. induction s as [|c s IH]; simpl.
  - split; [constructor | done].
  - destruct (isspace c) eqn:E.
    + rewrite IH. split; [by constructor|]. by intros [_ ?]%Forall_cons.
    + split; [done|]. intros [? _]%Forall_cons. congruence.
Qed.

Lemma lstrip_head (s : str) c r : lstrip s = c :: r -> isspace c = false.
Proof.
  induction s as [|d s IH]; simpl; [done|].
  destruct (isspace d) eqn:E; [done|]. by intros [= <- _].
Qed.

Lemma lstrip_nonspace c r : isspace c = false -> lstrip (c :: r) = c :: r.
Proof. simpl. by intros ->. Qed.

Lemma lstrip_idem (s : str) : lstrip (lstrip s) = lstrip s.
Proof.
  destruct (lstrip s) as [|c r] eqn:E; [done|].
  apply lstrip_nonspace. by eapply lstrip_head.
Qed.

Lemma lstrip_snoc (l : str) c :
  isspace c = false -> exists l', lstrip (l ++ [c]) = l' ++ [c].
Proof.
  intros Hc. induction l as [|d l IH]; simpl.
  - rewrite Hc. by exists [].
  - destruct (isspace d); [done|]. by exists (d :: l).
Qed.

Lemma rstrip_keeps_head c r :
  isspace c = false -> exists r', rstrip (c :: r) = c :: r'.
Proof.
  intros Hc. unfold rstrip. simpl rev.
  destruct (lstrip_snoc (rev r) c Hc) as (l' & ->).
  exists (rev l'). by rewrite rev_app_distr.
Qed.

Lemma rstrip_idem (s : str) : rstrip (rstrip s) = rstrip s.
Proof. unfold rstrip. by rewrite rev_involutive, lstrip_idem. Qed.

Lemma strip_idem (s : str) : strip (strip s) = strip s.
Proof.
  unfold strip. destruct (lstrip s) as [|c r] eqn:E; [done|].
  pose proof (lstrip_head s c r E) as Hc.
  destruct (rstrip_keeps_head c r Hc) as (r' & Er).
  rewrite Er, (lstrip_nonspace c r' Hc), <- Er. apply rstrip_idem.
Qed.

Lemma elem_of_rev (s : str) x : x ∈ rev s <-> x ∈ s.
Proof. rewrite !list_elem_of_In. symmetry. apply in_rev. Qed.

Lemma blank_rev (s : str) : blank (rev s) <-> blank s.
Proof.
  unfold blank. rewrite !Forall_forall. split; intros H x Hx; apply H.
  - exact (proj2 (elem_of_rev s x) Hx).
  - exact (proj1 (elem_of_rev s x) Hx).
Qed.

Lemma rstrip_nil_iff (s : str) : rstrip s = [] <-> blank s.
Proof.
  unfold rstrip. rewrite <- blank_rev, <- lstrip_nil_iff.
  split; [|by intros ->].
  intros H. apply (f_equal (@rev Z)) in H. by rewrite rev_involutive in H.
Qed.

Lemma strip_nil_iff (s : str) : strip s = [] <-> blank s.
Proof.
  unfold strip. rewrite rstrip_nil_iff, <- !lstrip_nil_iff.
  by rewrite lstrip_idem.
Qed.

Lemma elem_of_lstrip (s : str) x : x ∈ lstrip s -> x ∈ s.
Proof.
  induction s as [|c s IH]; simpl; [done|].
  destruct (isspace c); [|done]. intros H. right. by apply IH.
Qed.

Lemma elem_of_strip (s : str) x : x ∈ strip s -> x ∈ s.
Proof.
  unfold strip, rstrip. intros H.
  apply (proj1 (elem_of_rev _ _)) in H.
  apply elem_of_lstrip in H.
  apply (proj1 (elem_of_rev _ _)) in H.
  by apply elem_of_lstrip.
Qed.

Lemma split_from_no_sep sep (s : str) :
  forall cur piece,
    sep ∉ cur -> piece ∈ split_from sep s cur -> sep ∉ piece.
Proof.
  induction s as [|c s IH]; intros cur piece Hcur; simpl.
  - by intros ->%list_elem_of_singleton.
  - destruct (Z.eqb_spec c sep) as [->|Hne].
    + intros [->|H]%elem_of_cons; [done|].
      eapply IH; [|exact H]. apply not_elem_of_nil.
    + apply IH. rewrite elem_of_app, list_elem_of_singleton. intros [?|?]; done.
Qed.

(** X14.  The extra exclusion lists a caller passes as comma-separated text
    are read into entries that are never empty, carry no white space at
    either end and contain no comma; empty and blank pieces are dropped. *)
Theorem comma_list_entries (s k : str) :
  k ∈ comma_list s -> k <> [] /\ strip k = k /\ 44 ∉ k.
Proof.
  unfold comma_list. destruct s as [|c s]; [by intros ?%elem_of_nil|].
  intros [Hne Hin]%list_elem_of_filter.
  apply list_elem_of_fmap in Hin as (piece & -> & Hin).
  split; [done|]. split; [apply strip_idem|].
  intros H%elem_of_strip. revert H.
  eapply (split_from_no_sep 44 (c :: s) []); [apply not_elem_of_nil|].
  exact Hin.
Qed.

Lemma comma_list_entries_witness :
  u "b c" ∈ comma_list (u " a, , b c ,")
  /\ u "b c" <> [] /\ strip (u "b c") = u "b c" /\ 44 ∉ u "b c".
Proof.
  assert (u "b c" ∈ comma_list (u " a, , b c ,")) as H.
  { vm_compute. right. left. }
  split; [exact H|].
  exact (comma_list_entries _ _ H).
Defined.

(** X15.  The stream of [api/search.py] reads its key from the environment
    variable [FIRECRAWL_KEY], stripped: when the variable is unset, empty or
    blank the stream is the single missing-key event and nothing is fetched;
    when it holds anything else the stream opens with [debug] and [start]. *)
Theorem blank_key_stops_the_stream
    (environ : gmap str str) (q : str) (limit : Z)
    (exclude_keywords exclude_suffixes : str) (world : list Api.tick) :
  ((forall v, environ !! u "FIRECRAWL_KEY" = Some v -> blank v) ->
   Api.search_stream (Api.read_firecrawl_key environ) q limit
     exclude_keywords exclude_suffixes world
   = ([Yield EvNoKey], NoKey))
  /\ (forall v,
         environ !! u "FIRECRAWL_KEY" = Some v -> ~ blank v ->
         exists rest,
           (Api.search_stream (Api.read_firecrawl_key environ) q limit
              exclude_keywords exclude_suffixes world).1
           = Yield EvDebug :: Yield (EvStart q (Z.max 1 (Z.min 100 limit)))
               :: rest).
Proof.
  unfold Api.read_firecrawl_key. split.
  - intros H. destruct (environ !! u "FIRECRAWL_KEY") as [v|]; simpl;
      [|reflexivity].
    assert (strip v = []) as -> by (apply strip_nil_iff; auto).
    reflexivity.
  - intros v -> Hv. simpl.
    destruct (strip v) as [|c k] eqn:E.
    { apply strip_nil_iff in E. done. }
    unfold Api.search_stream. rewrite say_fst. simpl. eauto.
Qed.

Lemma blank_key_stops_the_stream_witness :
  (forall v,
      ({[ u "FIRECRAWL_KEY" := u "  " ]} : gmap str str) !! u "FIRECRAWL_KEY"
      = Some v -> blank v)
  /\ Api.search_stream
       (Api.read_firecrawl_key {[ u "FIRECRAWL_KEY" := u "  " ]})
       (u "q") 10 [] [] [Api.Tick 0 (Page sample_page)]
     = ([Yield EvNoKey], NoKey).
Proof.
  assert (forall v,
             ({[ u "FIRECRAWL_KEY" := u "  " ]} : gmap str str)
               !! u "FIRECRAWL_KEY" = Some v -> blank v) as H.
  { intros v. rewrite lookup_singleton_eq. intros [= <-].
    repeat constructor. }
  split; [exact H|].
  pose proof (blank_key_stops_the_stream {[ u "FIRECRAWL_KEY" := u "  " ]}
                (u "q") 10 [] [] [Api.Tick 0 (Page sample_page)]) as T.
  destruct T as (T & _). exact (T H).
Defined.

(** ** When a scrape gives a value *)

(** X16.  The scrape function of [api/search.py] gives a value only for a
    response with status 200 whose body is a JSON object; the one of
    [newsScrp.py] gives a value only for a response whose status is neither
    429 nor in the 4xx and 5xx range and whose body is a JSON object.
    Whenever the copy in [api/search.py] gives a value for an answer, the
    copy in [newsScrp.py] gives one for the same answer, and the same one
    when it is not empty; not the other way round: a 201 with a JSON body is
    a page for [newsScrp.py] and a failure for [api/search.py]. *)
Theorem scrape_gives_a_value_only_on_success (p : posted) (v : json) :
  (Api.firecrawl_scrape p = inl v ->
   (exists r top,
       p = Answered r /\ status_code r = 200
       /\ json_body r = inl (JDict top))
   /\ exists v',
        NewsScrp.firecrawl_scrape p = inl v'
        /\ (truthy v = true -> v' = v))
  /\ (NewsScrp.firecrawl_scrape p = inl v ->
      exists r top,
        p = Answered r /\ status_code r <> 429
        /\ ~ (400 <= status_code r < 600)
        /\ json_body r = inl (JDict top)).
Proof.
  split.
  - unfold Api.firecrawl_scrape, NewsScrp.firecrawl_scrape.
    destruct p as [r|detail]; [|done].
    destruct (Z.eqb_spec (status_code r) 200) as [Hs|Hs].
    2:{ by destruct (contains _ _). }
    rewrite Hs, (raise_for_status_200 r Hs).
    change (200 =? 429) with false. cbv iota.
    unfold decode. destruct (json_body r) as [data|detail] eqn:B; [|done].
    destruct data as [| | | | | |top]; try done.
    destruct (get (JDict top) (u "data") (JDict [])) as [d|e'] eqn:G1;
      [|done].
    destruct d as [| | | | | |d]; try (simpl; intros E; discriminate E).
    unfold get at 1 2. cbv beta iota.
    destruct (assoc (u "html") d) as [h|] eqn:Hh.
    + intros [= <-]. split; [by exists r, top|].
      destruct (truthy h) eqn:Th.
      * exists h. by split.
      * destruct (get (JDict top) (u "html") (JStr [])) as [v'|e'] eqn:G2;
          [|done].
        exists v'. split; [done|]. congruence.
    + intros [= <-]. split; [by exists r, top|].
      change (truthy JNull) with false. cbv iota.
      destruct (get (JDict top) (u "html") (JStr [])) as [v'|e'] eqn:G2;
        [|done].
      exists v'. split; [done|]. done.
  - unfold NewsScrp.firecrawl_scrape. destruct p as [r|detail]; [|done].
    destruct (Z.eqb_spec (status_code r) 429) as [Hs|Hs]; [done|].
    destruct (raise_for_status r) eqn:R; [done|].
    assert (~ (400 <= status_code r < 600)) as Hok.
    { unfold raise_for_status in R.
      destruct (_ && _) eqn:E1; [done|].
      destruct ((500 <=? _) && _) eqn:E2; [done|].
      apply andb_false_iff in E1, E2.
      rewrite !Z.leb_gt, !Z.ltb_ge in *. lia. }
    unfold decode. destruct (json_body r) as [data|detail] eqn:B; [|done].
    destruct data; try done. intros _. by exists r, d.
Qed.

Lemma scrape_gives_a_value_only_on_success_witness :
  (Api.firecrawl_scrape
     (Answered (Response 200 (u "OK") []
                  (inl (JDict [(u "data",
                                JDict [(u "html", JStr (u "<p>"))])]))))
   = inl (JStr (u "<p>"))
   /\ exists v',
        NewsScrp.firecrawl_scrape
          (Answered (Response 200 (u "OK") []
                       (inl (JDict [(u "data",
                                     JDict [(u "html", JStr (u "<p>"))])]))))
        = inl v'
        /\ (truthy (JStr (u "<p>")) = true -> v' = JStr (u "<p>")))
  /\ (NewsScrp.firecrawl_scrape
        (Answered (Response 201 (u "Created") []
                     (inl (JDict [(u "data",
                                   JDict [(u "html", JStr (u "<p>"))])]))))
      = inl (JStr (u "<p>"))
      /\ Api.firecrawl_scrape
           (Answered (Response 201 (u "Created") []
                        (inl (JDict [(u "data",
                                      JDict [(u "html", JStr (u "<p>"))])]))))
         = inr (Exn OtherException (u "HTTP 201: "))
      /\ exists r top,
           Answered (Response 201 (u "Created") []
                       (inl (JDict [(u "data",
                                     JDict [(u "html", JStr (u "<p>"))])])))
           = Answered r
           /\ status_code r <> 429 /\ ~ (400 <= status_code r < 600)
           /\ json_body r = inl (JDict top)).
Proof.
  assert (Api.firecrawl_scrape
            (Answered (Response 200 (u "OK") []
                         (inl (JDict [(u "data",
                                       JDict [(u "html", JStr (u "<p>"))])]))))
          = inl (JStr (u "<p>"))) as H0 by (vm_compute; reflexivity).
  assert (NewsScrp.firecrawl_scrape
            (Answered (Response 201 (u "Created") []
                         (inl (JDict [(u "data",
                                       JDict [(u "html", JStr (u "<p>"))])]))))
          = inl (JStr (u "<p>"))) as H1 by (vm_compute; reflexivity).
  assert (Api.firecrawl_scrape
            (Answered (Response 201 (u "Created") []
                         (inl (JDict [(u "data",
                                       JDict [(u "html", JStr (u "<p>"))])]))))
          = inr (Exn OtherException (u "HTTP 201: "))) as H2
    by (vm_compute; reflexivity).
  split.
  - split; [exact H0|].
    pose proof (scrape_gives_a_value_only_on_success
                  (Answered (Response 200 (u "OK") []
                               (inl (JDict [(u "data",
                                             JDict [(u "html",
                                                     JStr (u "<p>"))])]))))
                  (JStr (u "<p>"))) as T.
    destruct T as (T & _). exact (proj2 (T H0)).
  - split; [exact H1|]. split; [exact H2|].
    pose proof (scrape_gives_a_value_only_on_success
                  (Answered (Response 201 (u "Created") []
                               (inl (JDict [(u "data",
                                             JDict [(u "html",
                                                     JStr (u "<p>"))])]))))
                  (JStr (u "<p>"))) as T.
    destruct T as (_ & T). exact (T H1).
Defined.

(** ** Extra suffixes *)

Lemma existsb_ext_in {A} (f g : A -> bool) (l : list A) :
  (forall x, x ∈ l -> f x = g x) -> existsb f l = existsb g l.
Proof.
  induction l as [|a l IH]; intros H; simpl; [done|].
  rewrite H by left. rewrite IH; [done|]. intros x Hx. apply H. by right.
Qed.

(** X17.  Extra suffixes are matched by the rule of the built-in ones: in
    [api/search.py], for a query and a title written in ASCII and Hangul,
    handing the six built-in suffixes in as extra suffixes gives the verdict
    of the built-in query-suffix filter.  (The inline test lowercases the
    pattern after putting query and suffix together, the built-in filter
    lowercases the query first; on such text the two are the same.) *)
Theorem extra_suffixes_follow_the_built_in_rule (q title : str) :
  ascii_or_hangul q = true -> ascii_or_hangul title = true ->
  custom_suffix_hit Api.QUERY_SUFFIXES q title
  = Api.should_exclude_by_query_suffix title q.
Proof.
  intros _ _.
  unfold custom_suffix_hit, Api.should_exclude_by_query_suffix.
  apply existsb_ext_in. intros s Hin.
  pose proof suffixes_have_no_case as Hs. rewrite Forall_forall in Hs.
  change Api.QUERY_SUFFIXES with claimed_suffixes in Hin.
  simpl existsb.
  rewrite !lower_app, lower_remove_space.
  change (lower (32 :: s)) with (32 :: lower s).
  by rewrite (Hs s Hin).
Qed.

Lemma extra_suffixes_follow_the_built_in_rule_witness :
  ascii_or_hangul (u "Seoul Trip") = true
  /\ ascii_or_hangul (u "SEOULTRIP만에 끝") = true
  /\ custom_suffix_hit Api.QUERY_SUFFIXES (u "Seoul Trip")
       (u "SEOULTRIP만에 끝")
     = Api.should_exclude_by_query_suffix (u "SEOULTRIP만에 끝")
         (u "Seoul Trip")
  /\ Api.should_exclude_by_query_suffix (u "SEOULTRIP만에 끝")
       (u "Seoul Trip") = true.
Proof.
  assert (ascii_or_hangul (u "Seoul Trip") = true) as Sq
    by (vm_compute; reflexivity).
  assert (ascii_or_hangul (u "SEOULTRIP만에 끝") = true) as St
    by (vm_compute; reflexivity).
  split; [exact Sq|]. split; [exact St|].
  split; [exact (extra_suffixes_follow_the_built_in_rule _ _ Sq St)|].
  vm_compute. reflexivity.
Defined.

Lemma custom_suffix_hit_lower (css : list str) (q title : str) :
  custom_suffix_hit css q title
  = existsb (fun s =>
               existsb (fun p => contains (lower title) p)
                       [lower q ++ s; lower q ++ 32 :: s;
                        remove_char 32 (lower q) ++ s])
            (map lower css).
Proof.
  unfold custom_suffix_hit.
  induction css as [|s css IH]; [done|].
  change (map lower (s :: css)) with (lower s :: map lower css).
  change (existsb ?f (?a :: ?l)) with (f a || existsb f l) at 1.
  rewrite IH. f_equal. simpl existsb.
  rewrite !lower_app, lower_remove_space.
  by change (lower (32 :: s)) with (32 :: lower s).
Qed.

(** X20.  Extra suffixes are matched without regard to the case of ASCII
    letters: changing the case of letters in the query, in the title or in
    the suffixes handed in does not change the verdict of the extra-suffix
    test of the two streaming endpoints. *)
Theorem extra_suffixes_ignore_case
    (css css' : list str) (q q' title title' : str) :
  map lower css = map lower css' ->
  lower q = lower q' ->
  lower title = lower title' ->
  custom_suffix_hit css q title = custom_suffix_hit css' q' title'.
Proof.
  intros Hs Hq Ht. rewrite !custom_suffix_hit_lower.
  by rewrite Hs, Hq, Ht.
Qed.

Lemma extra_suffixes_ignore_case_witness :
  map lower [u "News"] = map lower [u "NEWS"]
  /\ lower (u "Seoul") = lower (u "seoul")
  /\ lower (u "SEOUL NEWS today") = lower (u "Seoul news Today")
  /\ custom_suffix_hit [u "News"] (u "Seoul") (u "SEOUL NEWS today")
     = custom_suffix_hit [u "NEWS"] (u "seoul") (u "Seoul news Today")
  /\ custom_suffix_hit [u "News"] (u "Seoul") (u "SEOUL NEWS today") = true.
Proof.
  assert (map lower [u "News"] = map lower [u "NEWS"]) as Hs
    by (vm_compute; reflexivity).
  assert (lower (u "Seoul") = lower (u "seoul")) as Hq
    by (vm_compute; reflexivity).
  assert (lower (u "SEOUL NEWS today") = lower (u "Seoul news Today")) as Ht
    by (vm_compute; reflexivity).
  split; [exact Hs|]. split; [exact Hq|]. split; [exact Ht|].
  split; [exact (extra_suffixes_ignore_case _ _ _ _ _ _ Hs Hq Ht)|].
  vm_compute. reflexivity.
Defined.

(** ** What is read off a page *)

Lemma primary_items_titles (hs : list headline) t l :
  (t, l) ∈ primary_items hs ->
  t <> [] /\ strip t = t /\ chrome t = false.
Proof.
  unfold primary_items. rewrite list_elem_of_In, in_flat_map.
  intros (el & _ & H).
  destruct (negb (bool_decide _) && negb (chrome _)) eqn:E; [|done].
  destruct H as [[= <- <-]|[]].
  apply andb_prop in E as [E1 E2].
  apply negb_true_iff in E1, E2. apply bool_decide_eq_false in E1.
  split; [done|]. split; [apply strip_idem | done].
Qed.

Lemma cli_extracted_titles (page : soup) t l :
  (t, l) ∈ NewsScrp.extract_titles_from_html page ->
  t <> [] /\ strip t = t /\ chrome t = false.
Proof.
  unfold NewsScrp.extract_titles_from_html.
  destruct (primary_items (headlines page)) as [|c items] eqn:P.
  - rewrite list_elem_of_In, in_flat_map. intros (a & _ & H).
    destruct (negb (bool_decide _) && negb (chrome _)) eqn:E; [|done].
    destruct H as [[= <- <-]|[]].
    apply andb_prop in E as [E1 E2].
    apply negb_true_iff in E1, E2. apply bool_decide_eq_false in E1.
    split; [done|]. split; [apply strip_idem | done].
  - rewrite <- P. apply primary_items_titles.
Qed.

(** X18.  Whatever the two selectors match, every title read off a page, by
    either copy of the extraction, is non-empty, has no white space at its
    ends and contains none of the five site-chrome words; the fallback
    selector is used only when the headline selector gives no title at all;
    and a link that the copy in [api/search.py] takes from the fallback
    selector is non-empty and has no white space at its ends. *)
Theorem extracted_titles_are_clean
    (page : soup) (anchors : list anchor) (t l : str) :
  ((t, l) ∈ NewsScrp.extract_titles_from_html page ->
   t <> [] /\ strip t = t /\ chrome t = false)
  /\ ((t, l) ∈ Api.extract_titles_from_html page ->
      t <> [] /\ strip t = t /\ chrome t = false)
  /\ (NewsScrp.extract_titles_from_html (Soup (headlines page) []) <> [] ->
      NewsScrp.extract_titles_from_html (Soup (headlines page) anchors)
      = NewsScrp.extract_titles_from_html (Soup (headlines page) [])
      /\ Api.extract_titles_from_html (Soup (headlines page) anchors)
         = NewsScrp.extract_titles_from_html (Soup (headlines page) []))
  /\ ((t, l) ∈ Api.extract_titles_from_html (Soup [] anchors) ->
      l <> [] /\ strip l = l).
Proof.
  split; [|split; [|split]].
  - apply cli_extracted_titles.
  - unfold Api.extract_titles_from_html.
    destruct (primary_items (headlines page)) as [|c items] eqn:P.
    + rewrite list_elem_of_In, in_flat_map. intros (a & _ & H).
      destruct (negb (bool_decide _) && negb (bool_decide _)
                && negb (chrome _)) eqn:E; [|done].
      destruct H as [[= <- <-]|[]].
      apply andb_prop in E as [E E2]. apply andb_prop in E as [E1 _].
      apply negb_true_iff in E1, E2. apply bool_decide_eq_false in E1.
      split; [done|]. split; [apply strip_idem | done].
    + rewrite <- P. apply primary_items_titles.
  - unfold NewsScrp.extract_titles_from_html, Api.extract_titles_from_html.
    simpl headlines. simpl news_tit.
    destruct (primary_items (headlines page)) as [|c items]; [done|]. done.
  - unfold Api.extract_titles_from_html. simpl.
    rewrite list_elem_of_In, in_flat_map. intros (a & _ & H).
    destruct (negb (bool_decide _) && negb (bool_decide _)
              && negb (chrome _)) eqn:E; [|done].
    destruct H as [[= <- <-]|[]].
    apply andb_prop in E as [E _]. apply andb_prop in E as [_ E].
    apply negb_true_iff in E. apply bool_decide_eq_false in E.
    split; [done | apply strip_idem].
Qed.

Lemma extracted_titles_are_clean_witness :
  (u "삼성전자 실적", u "http://a")
  ∈ NewsScrp.extract_titles_from_html
      (Soup [Headline (u "네이버 바로가기") None;
             Headline (u " 삼성전자 실적 ") (Some (u "http://a"))]
            [Anchor None (u "옛 제목") (Some (u "http://b"))])
  /\ u "삼성전자 실적" <> []
  /\ strip (u "삼성전자 실적") = u "삼성전자 실적"
  /\ chrome (u "삼성전자 실적") = false.
Proof.
  assert ((u "삼성전자 실적", u "http://a")
          ∈ NewsScrp.extract_titles_from_html
              (Soup [Headline (u "네이버 바로가기") None;
                     Headline (u " 삼성전자 실적 ") (Some (u "http://a"))]
                    [Anchor None (u "옛 제목") (Some (u "http://b"))])) as H.
  { vm_compute. left. }
  split; [exact H|].
  pose proof (extracted_titles_are_clean
                (Soup [Headline (u "네이버 바로가기") None;
                       Headline (u " 삼성전자 실적 ") (Some (u "http://a"))]
                      [Anchor None (u "옛 제목") (Some (u "http://b"))])
                [] (u "삼성전자 실적") (u "http://a")) as T.
  destruct T as (T & _). exact (T H).
Defined.

(** ** Where the returned titles come from *)

Lemma elem_of_slice_to {A} (n : Z) (l : list A) x :
  x ∈ slice_to n l -> x ∈ l.
Proof.
  unfold slice_to. destruct (0 <=? n); intros H;
    exact (subseteq_take _ _ _ H).
Qed.

Lemma scan_page_origin reject limit (new_items : list (str * str)) rs it :
  it ∈ scan_page reject limit rs new_items ->
  it ∈ rs \/ exists c, c ∈ new_items /\ it = item_of c.
Proof.
  destruct (scan_page_sublist reject limit new_items rs)
    as (added & -> & Hsub).
  rewrite elem_of_app. intros [H|H]; [by left|]. right.
  apply (sublist_subseteq _ _ Hsub) in H.
  apply list_elem_of_fmap in H as (c & -> & Hc). eauto.
Qed.

Lemma cli_loop_origin q limit max_pages (answers : list fetched) :
  forall st rs it,
    cli_results (NewsScrp.loop q limit max_pages st answers).2 = Some rs ->
    it ∈ rs ->
    it ∈ results st
    \/ exists page c, Page page ∈ answers /\ c ∈ page /\ it = item_of c.
Proof.
  induction answers as [|a answers IH]; intros st rs it;
    unfold NewsScrp.loop; fold NewsScrp.loop.
  - destruct (_ && _); simpl; intros [= <-] Hin; left; [done|].
    by eapply elem_of_slice_to.
  - destruct (_ && _); simpl.
    2:{ intros [= <-] Hin. left. by eapply elem_of_slice_to. }
    destruct a as [new_items|e].
    + rewrite say_snd. intros H Hin.
      destruct (IH _ _ _ H Hin) as [Hst|(page & c & Hp & Hc & ->)].
      * simpl in Hst. apply scan_page_origin in Hst as [?|(c & Hc & ->)];
          [by left|].
        right. exists new_items, c. split; [left | done].
      * right. exists page, c. split; [by right | done].
    + assert (forall st',
                 results st' = results st ->
                 cli_results (NewsScrp.loop q limit max_pages st' answers).2
                 = Some rs ->
                 it ∈ rs ->
                 it ∈ results st
                 \/ exists page c,
                      Page page ∈ Raised e :: answers /\ c ∈ page
                      /\ it = item_of c) as Hsame.
      { intros st' E H Hin.
        destruct (IH _ _ _ H Hin) as [Hst|(page & c & Hp & Hc & ->)].
        - left. by rewrite <- E.
        - right. exists page, c. split; [by right | done]. }
      destruct (exn_kind e).
      * destruct (NewsScrp.rate_limited e); [|done].
        rewrite say_snd. by apply Hsame.
      * rewrite say_snd. destruct (_ >? _); [done|]. by apply Hsame.
Qed.

(** X19.  [collect_titles] returns only what the fetched pages held: every
    item it returns (or holds while waiting) is a candidate of one of the
    pages answered, with that candidate's own link.  So when the pages are
    what the extraction reads off them, every returned title is non-empty,
    has no white space at its ends and contains no site-chrome word. *)
Theorem returned_items_come_from_the_pages
    (key q : str) (limit max_pages : Z) (answers : list fetched)
    (rs : list item) (it : item) :
  cli_results (NewsScrp.collect_titles key q limit max_pages answers).2
  = Some rs ->
  it ∈ rs ->
  (exists page c, Page page ∈ answers /\ c ∈ page /\ it = item_of c)
  /\ ((forall page,
          Page page ∈ answers ->
          exists s, page = NewsScrp.extract_titles_from_html s) ->
      title it <> [] /\ strip (title it) = title it
      /\ chrome (title it) = false).
Proof.
  unfold NewsScrp.collect_titles. destruct key; [done|]. intros H Hin.
  destruct (cli_loop_origin _ _ _ _ _ _ _ H Hin)
    as [Hnil|(page & [t l] & Hp & Hc & ->)].
  { by apply elem_of_nil in Hnil. }
  split; [by exists page, (t, l)|].
  intros Hex. destruct (Hex page Hp) as (s & ->).
  exact (cli_extracted_titles s t l Hc).
Qed.

Lemma returned_items_come_from_the_pages_witness :
  cli_results
    (NewsScrp.collect_titles (u "key") (u "q") 2 300 [Page sample_page]).2
  = Some [Item (u "alpha beta gamma one") (u "http://a");
          Item (u "delta epsilon zeta") (u "http://b")]
  /\ Item (u "delta epsilon zeta") (u "http://b")
     ∈ [Item (u "alpha beta gamma one") (u "http://a");
        Item (u "delta epsilon zeta") (u "http://b")]
  /\ (forall page,
         Page page ∈ [Page sample_page] ->
         exists s, page = NewsScrp.extract_titles_from_html s)
  /\ (exists page c,
         Page page ∈ [Page sample_page] /\ c ∈ page
         /\ Item (u "delta epsilon zeta") (u "http://b") = item_of c)
  /\ u "delta epsilon zeta" <> []
  /\ strip (u "delta epsilon zeta") = u "delta epsilon zeta"
  /\ chrome (u "delta epsilon zeta") = false.
Proof.
  assert (cli_results
            (NewsScrp.collect_titles (u "key") (u "q") 2 300
               [Page sample_page]).2
          = Some [Item (u "alpha beta gamma one") (u "http://a");
                  Item (u "delta epsilon zeta") (u "http://b")]) as H
    by (vm_compute; reflexivity).
  assert (Item (u "delta epsilon zeta") (u "http://b")
          ∈ [Item (u "alpha beta gamma one") (u "http://a");
             Item (u "delta epsilon zeta") (u "http://b")]) as Hin
    by (right; left).
  assert (forall page,
             Page page ∈ [Page sample_page] ->
             exists s, page = NewsScrp.extract_titles_from_html s) as Hex.
  { intros page Hp. apply list_elem_of_singleton in Hp.
    injection Hp as ->. exists sample_soup. vm_compute. reflexivity. }
  pose proof (returned_items_come_from_the_pages _ _ _ _ _ _ _ H Hin) as T.
  destruct T as (T1 & T2).
  split; [exact H|]. split; [exact Hin|]. split; [exact Hex|].
  split; [exact T1|]. exact (T2 Hex).
Defined.
